(** * CBL free-agent pool fetchers: a shallow embedding and its properties

    The repository holds two Python scripts that download FanGraphs
    leaderboards for a fixed registry of player ids and store them as JSON:

    - [CBL_Free_Agent_Pool_native_tables_v3/scripts/fetch_fangraphs_fa_pool.py]
      talks to the JSON endpoint (module [Structured] below);
    - [scripts/fetch_fangraphs_fa_pool.py] scrapes the HTML leaderboard
      (module [Html] below).

    Python values are modelled as follows.  [int] is [Z]; [float] is the
    kernel's binary64 [float], so [delay * 1.8] rounds as it does in Python;
    [str] is the [string] of its UTF-8 bytes, a lone surrogate (which
    Python strings can hold and UTF-8 cannot) standing as the three bytes
    its code point would take; a decoded JSON document is the inductive
    [json]; a [dict] with string keys is a [gmap string _]; an exception is
    a constructor of [exn].  Code that may raise returns an [outcome]; code
    that talks to the network, sleeps, prints or writes files runs in the
    state-and-exception monad [M] over a [world] that records what
    happened.

    The scripts call two libraries, [requests] and [pandas].  Their calls
    are modelled by what the documentation of the library says they do;
    the server behind [requests.get] and the HTML parser behind
    [pandas.read_html] are parameters.  The file system is the map
    [files] from normalised paths to what each file holds. *)

From Stdlib Require Import Floats.PrimFloat.
From stdpp Require Import gmap strings list fin_maps pretty.

Set Warnings "-inexact-float,-register-all,-clear-no-such-hyp".

Open Scope string_scope.
Open Scope list_scope.

(** ** Python-level vocabulary shared by the two scripts *)

Module Py.
Import Stdlib.Strings.Ascii.

(** The exceptions the modelled statements can raise.  All of them are
    subclasses of Python's [Exception], which is what [except Exception]
    in [call_api] catches. *)
Inductive exn : Type :=
| RuntimeError (msg : string)
| HTTPError (status : Z)
| ConnectionError (msg : string)
| Timeout
| JSONDecodeError
| AttributeError (attr : string)
| KeyError (key : string)
| ValueError (msg : string)
| UnicodeEncodeError
| OSError (msg : string)
| FileNotFoundError (path : string).

Inductive outcome (A : Type) : Type :=
| Ok (a : A)
| Raise (e : exn).
Arguments Ok {A} a.
Arguments Raise {A} e.

Definition raised {A} (o : outcome A) : bool :=
  match o with Ok _ => false | Raise _ => true end.

(** A decoded JSON document, as [json.loads] and [Response.json] build it. *)
#[local] Unset Elimination Schemes.
Inductive json : Type :=
| JNull
| JBool (b : bool)
| JInt (z : Z)
| JFloat (f : float)
| JStr (s : string)
| JList (l : list json)
| JDict (m : gmap string json).
#[local] Set Elimination Schemes.

(** [isinstance(v, dict)] on a decoded JSON value. *)
Definition isinstance_dict (v : json) : bool :=
  match v with JDict _ => true | _ => false end.

(** [payload.get(key)]: the value, [None] when the key is absent, and an
    [AttributeError] when [payload] is not a dict at all. *)
Definition dict_get (payload : json) (key : string) : outcome json :=
  match payload with
  | JDict m => Ok (default JNull (m !! key))
  | _ => Raise (AttributeError "get")
  end.

(** [d[key]] on a dict: [KeyError] when the key is absent. *)
Definition subscript {V} (d : gmap string V) (key : string) : outcome V :=
  match d !! key with
  | Some v => Ok v
  | None => Raise (KeyError key)
  end.

(** [str(n)] for an [int]. *)
Definition str (n : Z) : string := pretty n.

(** [sep.join(parts)]. *)
Fixpoint join (sep : string) (parts : list string) : string :=
  match parts with
  | [] => ""
  | [p] => p
  | p :: rest => p +:+ sep +:+ join sep rest
  end.

(** *** Text

    A [str] is held as its UTF-8 bytes.  What Python does by code point
    ([s[:n]], [str.strip], encoding to UTF-8) is written here on the
    bytes. *)

Definition byte_code (c : Ascii.ascii) : nat := Ascii.nat_of_ascii c.

Definition of_bytes (codes : list nat) : string :=
  foldr (fun n s => String (Ascii.ascii_of_nat n) s) "" codes.

(** A byte [10xxxxxx] continues the code point begun before it. *)
Definition is_continuation (c : Ascii.ascii) : bool :=
  ((128 <=? byte_code c) && (byte_code c <? 192))%nat.

(** [s[:n]]: the first [n] code points of [s]. *)
Fixpoint take_chars (n : nat) (s : string) : string :=
  match s with
  | EmptyString => EmptyString
  | String c rest =>
      if is_continuation c then String c (take_chars n rest)
      else match n with
           | O => EmptyString
           | S n' => String c (take_chars n' rest)
           end
  end.

(** Whether [s] holds a surrogate code point (U+D800 to U+DFFF, bytes
    [ED A0 80] to [ED BF BF]): encoding such a string to UTF-8 raises
    [UnicodeEncodeError]. *)
Fixpoint has_surrogate (s : string) : bool :=
  match s with
  | EmptyString => false
  | String c rest =>
      match rest with
      | EmptyString => false
      | String c' _ =>
          ((byte_code c =? 237) && (160 <=? byte_code c')
           && (byte_code c' <=? 191))%nat
          || has_surrogate rest
      end
  end.

(** Whether [s] holds a surrogate that the file-system encoding refuses:
    [os.fsencode] lets U+DC80 to U+DCFF through (bytes [ED B2 80] to
    [ED B3 BF]) and raises [UnicodeEncodeError] on the others. *)
Fixpoint has_unescapable_surrogate (s : string) : bool :=
  match s with
  | EmptyString => false
  | String c rest =>
      match rest with
      | EmptyString => false
      | String c' _ =>
          ((byte_code c =? 237) && (160 <=? byte_code c')
           && (byte_code c' <=? 191)
           && negb ((byte_code c' =? 178) || (byte_code c' =? 179)))%nat
          || has_unescapable_surrogate rest
      end
  end.

Fixpoint has_nul (s : string) : bool :=
  match s with
  | EmptyString => false
  | String c rest => (byte_code c =? 0)%nat || has_nul rest
  end.

(** The characters [str.isspace] accepts, each as its UTF-8 bytes: the
    code points of bidirectional class WS, B or S or of category Zs. *)
Definition ISSPACE : list string :=
  of_bytes <$>
    [ [9]; [10]; [11]; [12]; [13]; [28]; [29]; [30]; [31]; [32];
      [194; 133]; [194; 160]; [225; 154; 128];
      [226; 128; 128]; [226; 128; 129]; [226; 128; 130]; [226; 128; 131];
      [226; 128; 132]; [226; 128; 133]; [226; 128; 134]; [226; 128; 135];
      [226; 128; 136]; [226; 128; 137]; [226; 128; 138];
      [226; 128; 168]; [226; 128; 169]; [226; 128; 175];
      [226; 129; 159]; [227; 128; 128] ]%nat.

(** [s] without the leading [p], when [s] begins with [p]. *)
Fixpoint strip_prefix (p s : string) : option string :=
  match p with
  | EmptyString => Some s
  | String a p' =>
      match s with
      | EmptyString => None
      | String b s' =>
          if Ascii.eqb a b then strip_prefix p' s' else None
      end
  end.

(** [s] without the first of the prefixes [ps] that it begins with. *)
Fixpoint first_prefix (ps : list string) (s : string) : option string :=
  match ps with
  | [] => None
  | p :: ps' =>
      match strip_prefix p s with
      | Some rest => Some rest
      | None => first_prefix ps' s
      end
  end.

(** [s] without its first character, when that character is whitespace. *)
Definition drop_space (s : string) : option string := first_prefix ISSPACE s.

Fixpoint lstrip_upto (fuel : nat) (s : string) : string :=
  match fuel with
  | O => s
  | S fuel' =>
      match drop_space s with
      | Some rest => lstrip_upto fuel' rest
      | None => s
      end
  end.

(** [s.lstrip()]; a string of [n] bytes has at most [n] leading
    whitespace characters. *)
Definition lstrip (s : string) : string := lstrip_upto (String.length s) s.

(** [s.rstrip()]: cut at the first position from which only whitespace
    follows. *)
Fixpoint rstrip (s : string) : string :=
  match s with
  | EmptyString => EmptyString
  | String c rest =>
      if bool_decide (lstrip s = "") then EmptyString
      else String c (rstrip rest)
  end.

(** [s.strip()]. *)
Definition strip (s : string) : string := rstrip (lstrip s).

(** *** Documents as text *)

(** The number of nodes of a document. *)
Fixpoint json_size (doc : json) : nat :=
  match doc with
  | JList l => S (foldr (fun v n => json_size v + n) 0 l)
  | JDict m => S (map_fold (fun _ v n => json_size v + n) 0 m)
  | _ => 1
  end.

(** What [json.dumps(doc, ensure_ascii=False)] followed by encoding to
    UTF-8 needs of [doc]: no surrogate in any string or key. *)
Fixpoint json_encodable (doc : json) : bool :=
  match doc with
  | JStr s => negb (has_surrogate s)
  | JList l => forallb json_encodable l
  | JDict m =>
      map_fold (fun k v ok => negb (has_surrogate k) && json_encodable v && ok)
               true m
  | _ => true
  end.

(** *** Paths

    [pathlib.PurePosixPath]: a path is a root ([""], ["/"] or ["//"]) and
    the parts between slashes, empty parts and ["."] dropped; [..] is
    kept. *)

Definition SLASH : Ascii.ascii := "/"%char.

Fixpoint split_slash (s : string) : list string :=
  match s with
  | EmptyString => [""]
  | String c rest =>
      if Ascii.eqb c SLASH then "" :: split_slash rest
      else match split_slash rest with
           | part :: parts => String c part :: parts
           | [] => [String c ""]
           end
  end.

Definition path_parts (s : string) : list string :=
  filter (fun part => part ≠ "" ∧ part ≠ ".") (split_slash s).

(** Exactly two leading slashes are kept; one, or three and more, are one
    root. *)
Definition path_root (s : string) : string :=
  match s with
  | String "/" (String "/" (String "/" _)) => "/"
  | String "/" (String "/" _) => "//"
  | String "/" _ => "/"
  | _ => ""
  end.

(** [str(path)]. *)
Definition path_str (root : string) (parts : list string) : string :=
  match root, parts with
  | "", [] => "."
  | _, _ => root +:+ join "/" parts
  end.

(** [str(Path(dir) / seg)]: an absolute [seg] replaces [dir]. *)
Definition path_join (dir seg : string) : string :=
  match path_root seg with
  | "" => path_str (path_root dir) (path_parts dir ++ path_parts seg)
  | root => path_str root (path_parts seg)
  end.

(** [min(a, b)] on floats: Python keeps the first argument unless the
    second is strictly smaller. *)
Definition min (a b : float) : float :=
  if PrimFloat.ltb b a then b else a.

(** *** The [requests] library *)

Record request : Type := {
  req_url : string;
  req_params : gmap string string;
  req_headers : list (string * string);
  req_timeout : Z;
}.

(** What the scripts read of a [requests.Response]: the status line, the
    body text, and the result of [r.json()], which either decodes the body
    or raises. *)
Record response : Type := {
  status_code : Z;
  text : string;
  json_body : outcome json;
}.

(** [r.raise_for_status()]: [requests] raises [HTTPError] for client errors
    (400 to 499) and server errors (500 to 599) and for nothing else. *)
Definition raise_for_status (r : response) : outcome unit :=
  if (400 <=? status_code r)%Z && (status_code r <? 600)%Z
  then Raise (HTTPError (status_code r))
  else Ok tt.

(** *** The world the scripts act on *)

Inductive event : Type :=
| EvGet (q : request)
| EvSleep (secs : float)
| EvPrint (line : string).

(** What a path of the file system holds: a JSON document written in
    full, nothing (a file opened for writing whose content never arrived),
    or a file that cannot be opened for writing, with the error the
    operating system answers. *)
Inductive file : Type :=
| Document (doc : json)
| Truncated
| Locked (e : exn).

(** The events so far and the file system, a POSIX one: a file is known by
    its normalised path, compared byte for byte, and there are no links. *)
Record world : Type := {
  trace : list event;
  files : gmap string file;
}.

Definition empty_world : world := {| trace := []; files := ∅ |}.

Definition is_get (e : event) : bool :=
  match e with EvGet _ => true | _ => false end.

(** Number of network requests issued so far. *)
Definition requests_made (w : world) : nat :=
  length (filter (fun e => is_get e = true) (trace w)).

(** The delays slept so far, oldest first. *)
Definition sleeps (tr : list event) : list float :=
  omap (fun e => match e with EvSleep d => Some d | _ => None end) tr.

(** The events that happened between the worlds [w] and [w']. *)
Definition events_since (w w' : world) : list event :=
  drop (length (trace w)) (trace w').

Definition log (e : event) (w : world) : world :=
  {| trace := trace w ++ [e]; files := files w |}.

(** State-and-exception monad: a raised exception keeps the effects that
    happened before it. *)
Definition M (A : Type) : Type := world -> outcome A * world.

Definition ret {A} (a : A) : M A := fun w => (Ok a, w).

Definition raise {A} (e : exn) : M A := fun w => (Raise e, w).

Definition bind {A B} (m : M A) (k : A -> M B) : M B :=
  fun w =>
    match m w with
    | (Ok a, w') => k a w'
    | (Raise e, w') => (Raise e, w')
    end.

(** [try: m  except Exception as e: h e]. *)
Definition try_except {A} (m : M A) (h : exn -> M A) : M A :=
  fun w =>
    match m w with
    | (Ok a, w') => (Ok a, w')
    | (Raise e, w') => h e w'
    end.

Definition lift {A} (o : outcome A) : M A := fun w => (o, w).

Notation "'do' x <- m ; k" := (bind m (fun x => k))
  (at level 10, x name, m at level 100, k at level 200).

Section Effects.

(** The remote server: the outcome of the n-th request the process
    issues (counting from 0), either a response or an exception raised
    inside [requests.get]. *)
Variable transport : nat -> outcome response.

Definition requests_get (q : request) : M response :=
  fun w => (transport (requests_made w), log (EvGet q) w).

Definition time_sleep (secs : float) : M unit :=
  fun w => (Ok tt, log (EvSleep secs) w).

(** [print(line)]: standard output is UTF-8, so a line with a surrogate
    raises and prints nothing. *)
Definition print (line : string) : M unit :=
  fun w =>
    if has_surrogate line then (Raise UnicodeEncodeError, w)
    else (Ok tt, log (EvPrint line) w).

Definition store (path : string) (f : file) (w : world) : world :=
  {| trace := trace w; files := <[path := f]> (files w) |}.

(** [Path(path).write_text(json.dumps(doc, ensure_ascii=False),
    encoding="utf-8")].  [open] refuses a path with a NUL byte or with a
    surrogate the file-system encoding cannot carry, and passes on the
    error of a file that cannot be opened; all three leave the file
    system as it was.  Otherwise the file is created or emptied, and the
    text is encoded and written: when encoding raises, the file stays
    empty. *)
Definition write_json (path : string) (doc : json) : M unit :=
  fun w =>
    if has_nul path then (Raise (ValueError "embedded null byte"), w)
    else if has_unescapable_surrogate path then (Raise UnicodeEncodeError, w)
    else match files w !! path with
         | Some (Locked e) => (Raise e, w)
         | _ =>
             if json_encodable doc then (Ok tt, store path (Document doc) w)
             else (Raise UnicodeEncodeError, store path Truncated w)
         end.

End Effects.

End Py.

(** ** The JSON-endpoint script
    [CBL_Free_Agent_Pool_native_tables_v3/scripts/fetch_fangraphs_fa_pool.py] *)

Module Structured.
Import Py.

Definition OUT_DIR : string := "data/fa".

Definition SEASON : Z := 2025.

Definition API : string :=
  "https://www.fangraphs.com/api/leaders/major-league/data".

Definition SEGMENT_hit_am : list Z :=
  [ 26546; 27915; 19455; 23802; 16925; 15654; 30028; 21496; 16398; 33280;
    29646; 35108; 30038; 21587; 31912; 21547; 25629; 21535; 19458; 25183;
    25705; 23395; 23695; 31363; 24878; 23372; 25477; 29830; 31661; 26202;
    31370; 28253; 27690; 23968; 27501; 26374; 26244; 29844; 27963; 24605 ]%Z.

Definition SEGMENT_hit_nz : list Z :=
  [ 10655; 18054; 27789; 22766; 19960; 29571; 19877; 30063; 26148; 26143;
    10200; 29949; 31396; 25999; 31583; 19562 ]%Z.

Definition SEGMENT_sp : list Z :=
  [ 31764; 13050; 26056; 20370; 31815; 19736; 30113; 31312; 26171; 27932;
    31623; 23301; 19666; 26482; 19222; 14120; 31475; 23735; 17732; 15094;
    26440; 13580; 16358; 20629 ]%Z.

Definition SEGMENT_rp_am : list Z :=
  [ 31764; 25327; 29633; 26203; 13050; 26136; 21345; 33568; 27695; 19804;
    31815; 19736; 13607; 30161; 9174; 30113; 30206; 27662; 15256; 27481;
    22113; 31312; 25873; 33248; 27974; 26260; 22176; 27626; 19586; 23324;
    27583; 21863; 19835; 20546; 26259; 27932; 21212; 18674; 23301; 19666;
    26482; 16631; 19205; 30016; 24591; 16128; 24590; 13190; 27984; 25957;
    27271; 21924; 15514; 29615; 20515; 19222; 14120; 31884; 23811; 25839;
    24710; 26353; 22288; 29770; 20827 ]%Z.

Definition SEGMENT_rp_nz : list Z :=
  [ 17732; 19281; 29564; 33821; 15094; 24094; 26440; 13580; 26344; 26285;
    20629; 20379 ]%Z.

Definition SEGMENTS : gmap string (list Z) :=
  list_to_map
    [ ("hit_am", SEGMENT_hit_am);
      ("hit_nz", SEGMENT_hit_nz);
      ("sp", SEGMENT_sp);
      ("rp_am", SEGMENT_rp_am);
      ("rp_nz", SEGMENT_rp_nz) ].

(** The status codes [call_api] turns into a [RuntimeError] itself. *)
Definition RETRY_STATUS : list Z := [429; 403; 502; 503; 504]%Z.

Definition api_request (params : gmap string string) : request :=
  {| req_url := API;
     req_params := params;
     req_headers :=
       [ ("User-Agent", "Mozilla/5.0 (CBL dashboard bot)");
         ("Accept", "application/json,text/plain,*/*");
         ("Referer", "https://www.fangraphs.com/leaders/major-league") ];
     req_timeout := 60 |}.

(** [range(lo, hi)]. *)
Definition range (lo hi : Z) : list Z := seqZ lo (hi - lo).

(** [delay = min(delay * 1.8, 20.0)]. *)
Definition next_delay (delay : float) : float :=
  min (delay * 1.8)%float 20.0%float.

Section CallApi.

Variable transport : nat -> outcome response.

(** The body of the [try] block of [call_api]. *)
Definition attempt_once (params : gmap string string) : M json :=
  do r <- requests_get transport (api_request params);
  if bool_decide (status_code r ∈ RETRY_STATUS)
  then raise (RuntimeError
                ("HTTP " +:+ str (status_code r) +:+ ": "
                 +:+ take_chars 200 (text r)))
  else
    do _ <- lift (raise_for_status r);
    lift (json_body r).

(** The [for attempt in range(1, tries + 1)] loop of [call_api], one
    list element per iteration, followed by the statement after the
    loop. *)
Fixpoint call_api_loop (params : gmap string string) (tries : Z)
    (attempts : list Z) (delay : float) (last_err : option exn) : M json :=
  match attempts with
  | [] => raise (default (RuntimeError "Unknown error") last_err)
  | attempt :: rest =>
      try_except (attempt_once params)
        (fun e =>
           if bool_decide (attempt = tries) then raise e
           else
             do _ <- time_sleep delay;
             call_api_loop params tries rest (next_delay delay) (Some e))
  end.

Definition call_api (params : gmap string string) (tries : Z) : M json :=
  call_api_loop params tries (range 1 (tries + 1)) 2.0%float None.

End CallApi.

Definition leaders_params (players : list Z) (stats : string) (month : Z)
  : gmap string string :=
  list_to_map
    [ ("ind", "0");
      ("lg", "all");
      ("pos", "all");
      ("qual", "0");
      ("season", str SEASON);
      ("season1", str SEASON);
      ("stats", stats);
      ("month", str month);
      ("players", join "," (map str players));
      ("team", "0,ts");
      ("rost", "0");
      ("type", "8");
      ("sortcol", "17");
      ("sortdir", "default");
      ("pageitems", "2000");
      ("pagenum", "1");
      ("filter", "") ].

(** The [for key in ("rows", "result", "results")] loop of [normalize] and
    the [return []] after it. *)
Fixpoint normalize_fallback (payload : json) (keys : list string)
  : outcome (list json) :=
  match keys with
  | [] => Ok []
  | key :: keys' =>
      match dict_get payload key with
      | Raise e => Raise e
      | Ok (JList v) => Ok (filter (fun r => isinstance_dict r = true) v)
      | Ok _ => normalize_fallback payload keys'
      end
  end.

Definition normalize (payload : json) : outcome (list json) :=
  match dict_get payload "data" with
  | Raise e => Raise e
  | Ok (JList data) => Ok (filter (fun r => isinstance_dict r = true) data)
  | Ok _ => normalize_fallback payload ["rows"; "result"; "results"]
  end.

(** [OUT_DIR / f"{name}.json"] is a [pathlib] join, so [name] may change
    the directory. *)
Definition save_json (name : string) (rows : list json) : M unit :=
  write_json (path_join OUT_DIR (name +:+ ".json")) (JList rows).

(** The two statements of [fetch_one] that build the request descriptor,
    with the registry they read as an argument. *)
Definition build_params (segments : gmap string (list Z))
    (seg_key stats : string) (month : Z) : outcome (gmap string string) :=
  match subscript segments seg_key with
  | Raise e => Raise e
  | Ok players => Ok (leaders_params players stats month)
  end.

Definition tasks : list (string * string * string * Z) :=
  [ ("hit_am_bat_all", "hit_am", "bat", 0);
    ("hit_am_bat_lhp", "hit_am", "bat", 13);
    ("hit_am_bat_rhp", "hit_am", "bat", 14);
    ("hit_nz_bat_all", "hit_nz", "bat", 0);
    ("hit_nz_bat_lhp", "hit_nz", "bat", 13);
    ("hit_nz_bat_rhp", "hit_nz", "bat", 14);
    ("sp_pit_all", "sp", "pit", 0);
    ("sp_pit_lhb", "sp", "pit", 13);
    ("sp_pit_rhb", "sp", "pit", 14);
    ("rp_am_pit_all", "rp_am", "pit", 0);
    ("rp_am_pit_lhb", "rp_am", "pit", 13);
    ("rp_am_pit_rhb", "rp_am", "pit", 14);
    ("rp_nz_pit_all", "rp_nz", "pit", 0);
    ("rp_nz_pit_lhb", "rp_nz", "pit", 13);
    ("rp_nz_pit_rhb", "rp_nz", "pit", 14) ]%Z.

Section FetchOne.

Variable transport : nat -> outcome response.

Definition fetch_one (out_name seg_key stats : string) (month : Z) : M unit :=
  do params <- lift (build_params SEGMENTS seg_key stats month);
  do payload <- call_api transport params 6;
  do rows <- lift (normalize payload);
  do _ <- save_json out_name rows;
  print ("Saved " +:+ out_name +:+ ": "
         +:+ str (Z.of_nat (length rows)) +:+ " rows").

(** The [for ... in tasks] loop of [main]. *)
Fixpoint main_loop (ts : list (string * string * string * Z)) : M unit :=
  match ts with
  | [] => ret tt
  | (out_name, seg_key, stats, month) :: ts' =>
      do _ <- fetch_one out_name seg_key stats month;
      do _ <- time_sleep 1.2%float;
      main_loop ts'
  end.

Definition main : M unit := main_loop tasks.

End FetchOne.

End Structured.

(** ** The HTML-scraping script [scripts/fetch_fangraphs_fa_pool.py] *)

Module Html.
Import Py.

Definition OUT_DIR : string := "data/fa".

Definition SEASON : Z := 2025.

Definition SEGMENT_hit_am : list Z :=
  [ 26546; 27915; 19455; 23802; 16925; 15654; 30028; 21496; 16398; 33280;
    29646; 35108; 30038; 21587; 31912; 21547; 25629; 21535; 19458; 25183;
    25705; 23395; 23695; 31363; 24878; 23372; 25477; 29830; 31661; 26202;
    31370; 28253; 27690; 23968; 27501; 26374; 26244; 29844; 27963; 24605 ]%Z.

Definition SEGMENT_hit_nz : list Z :=
  [ 10655; 18054; 27789; 22766; 19960; 29571; 19877; 30063; 26148; 26143;
    10200; 29949; 31396; 25999; 31583; 19562 ]%Z.

Definition SEGMENT_sp : list Z :=
  [ 31764; 13050; 26056; 20370; 31815; 19736; 30113; 31312; 26171; 27932;
    31623; 23301; 19666; 26482; 19222; 14120; 31475; 23735; 17732; 15094;
    26440; 13580; 16358; 20629 ]%Z.

Definition SEGMENT_rp_am : list Z :=
  [ 31764; 25327; 29633; 26203; 13050; 26136; 21345; 33568; 27695; 19804;
    31815; 19736; 13607; 30161; 9174; 30113; 30206; 27662; 15256; 27481;
    22113; 31312; 25873; 33248; 27974; 26260; 22176; 27626; 19586; 23324;
    27583; 21863; 19835; 20546; 26259; 27932; 21212; 18674; 23301; 19666;
    26482; 16631; 19205; 30016; 24591; 16128; 24590; 13190; 27984; 25957;
    27271; 21924; 15514; 29615; 20515; 19222; 14120; 31884; 23811; 25839;
    24710; 26353; 22288; 29770; 20827 ]%Z.

Definition SEGMENT_rp_nz : list Z :=
  [ 17732; 19281; 29564; 33821; 15094; 24094; 26440; 13580; 26344; 26285;
    20629; 20379 ]%Z.

Definition SEGMENTS : gmap string (list Z) :=
  list_to_map
    [ ("hit_am", SEGMENT_hit_am);
      ("hit_nz", SEGMENT_hit_nz);
      ("sp", SEGMENT_sp);
      ("rp_am", SEGMENT_rp_am);
      ("rp_nz", SEGMENT_rp_nz) ].

Definition leaders_url (players : list Z) (stats : string) (month : Z) : string :=
  "https://www.fangraphs.com/leaders/major-league?"
  +:+ ("ind=0&lg=all&pos=all&qual=0&season=" +:+ str SEASON
       +:+ "&season1=" +:+ str SEASON)
  +:+ ("&type=1&stats=" +:+ stats +:+ "&month=" +:+ str month +:+ "&players=")
  +:+ join "," (map str players)
  +:+ "&pageitems=2000000000".

(** *** The part of [pandas] that [scrape_table] uses

    A table cell holds what the HTML parser inferred: a string, an integer,
    a float, or the missing value.  A column label is a string, an integer
    when the table has no header row, or another object (the tuple of a
    header of several rows), kept as the text [str] gives for it.  A
    [DataFrame] is its number of rows and its columns in order, each a
    label with its cells; a cell a column does not have is missing. *)

Inductive cell : Type :=
| NaN
| CStr (s : string)
| CInt (z : Z)
| CFloat (f : float).

Inductive label : Type :=
| LStr (s : string)
| LInt (z : Z)
| LOther (text : string).

Record DataFrame (L : Type) : Type := {
  index : nat;
  columns : list (L * list cell);
}.
Arguments index {L} d.
Arguments columns {L} d.

(** [pandas.isna]: the missing value, and a float that is not a number. *)
Definition isna (c : cell) : bool :=
  match c with
  | NaN => true
  | CFloat f => negb (PrimFloat.eqb f f)
  | _ => false
  end.

Definition cell_at {L} (col : L * list cell) (i : nat) : cell :=
  default NaN (col.2 !! i).

(** Every cell of the column is missing, over the rows of the frame. *)
Definition all_na {L} (rows : nat) (col : L * list cell) : bool :=
  forallb (fun i => isna (cell_at col i)) (seq 0 rows).

(** [df.dropna(axis=1, how="all")]: the columns with at least one value. *)
Definition dropna_columns {L} (df : DataFrame L) : DataFrame L :=
  {| index := index df;
     columns := filter (fun col => all_na (index df) col = false) (columns df) |}.

(** [str(c)] on a column label. *)
Definition label_str (c : label) : string :=
  match c with LStr s => s | LInt z => str z | LOther text => text end.

(** [df.columns = [str(c).strip() for c in df.columns]]. *)
Definition strip_columns (df : DataFrame label) : DataFrame string :=
  {| index := index df;
     columns := map (fun col => (strip (label_str col.1), col.2)) (columns df) |}.

(** The dict of row [i]: one entry per column, and where two columns carry
    the same label the later one replaces the earlier. *)
Definition row_record {L} `{Countable L} (df : DataFrame L) (i : nat)
  : gmap L cell :=
  foldl (fun rec col => <[col.1 := cell_at col i]> rec) ∅ (columns df).

(** [df.to_dict(orient="records")]: one dict per row of the frame.  The
    rows are read by zipping the columns, so a frame without columns
    gives no dict, whatever its number of rows. *)
Definition to_dict_records {L} `{Countable L} (df : DataFrame L)
  : list (gmap L cell) :=
  match columns df with
  | [] => []
  | _ :: _ => map (row_record df) (seq 0 (index df))
  end.

(** The statements of [scrape_table] that follow [df = tables[0]]. *)
Definition table_records (df : DataFrame label) : list (gmap string cell) :=
  to_dict_records (strip_columns (dropna_columns df)).

Definition page_request (url : string) : request :=
  {| req_url := url;
     req_params := ∅;
     req_headers := [ ("User-Agent", "Mozilla/5.0 (CBL dashboard bot)") ];
     req_timeout := 60 |}.

(** What [json.dumps] writes for a cell. *)
Definition cell_json (c : cell) : json :=
  match c with
  | NaN => JFloat nan
  | CStr s => JStr s
  | CInt z => JInt z
  | CFloat f => JFloat f
  end.

Definition save_json (name : string) (records : list (gmap string cell))
  : M unit :=
  write_json (path_join OUT_DIR (name +:+ ".json"))
    (JList (map (fun rec => JDict (cell_json <$> rec)) records)).

(** The two statements of the loop of [main] that build the request
    descriptor, with the registry they read as an argument. *)
Definition build_url (segments : gmap string (list Z))
    (seg_key stats : string) (month : Z) : outcome string :=
  match subscript segments seg_key with
  | Raise e => Raise e
  | Ok players => Ok (leaders_url players stats month)
  end.

Definition tasks : list (string * string * string * Z) :=
  [ ("hit_am_bat_all", "hit_am", "bat", 0);
    ("hit_am_bat_lhp", "hit_am", "bat", 13);
    ("hit_am_bat_rhp", "hit_am", "bat", 14);
    ("hit_nz_bat_all", "hit_nz", "bat", 0);
    ("hit_nz_bat_lhp", "hit_nz", "bat", 13);
    ("hit_nz_bat_rhp", "hit_nz", "bat", 14);
    ("sp_pit_all", "sp", "pit", 0);
    ("sp_pit_lhb", "sp", "pit", 13);
    ("sp_pit_rhb", "sp", "pit", 14);
    ("rp_am_pit_all", "rp_am", "pit", 0);
    ("rp_am_pit_lhb", "rp_am", "pit", 13);
    ("rp_am_pit_rhb", "rp_am", "pit", 14);
    ("rp_nz_pit_all", "rp_nz", "pit", 0);
    ("rp_nz_pit_lhb", "rp_nz", "pit", 13);
    ("rp_nz_pit_rhb", "rp_nz", "pit", 14) ]%Z.

Section Scrape.

Variable transport : nat -> outcome response.

(** [pd.read_html]: the tables of a document, or an exception. *)
Variable read_html : string -> outcome (list (DataFrame label)).

Definition scrape_table (url : string) : M (list (gmap string cell)) :=
  do r <- requests_get transport (page_request url);
  do _ <- lift (raise_for_status r);
  do tables <- lift (read_html (text r));
  match tables with
  | [] => ret []
  | df :: _ => ret (table_records df)
  end.

(** The [for ... in tasks] loop of [main]. *)
Fixpoint main_loop (ts : list (string * string * string * Z)) : M unit :=
  match ts with
  | [] => ret tt
  | (out_name, seg_key, stats, month) :: ts' =>
      do url <- lift (build_url SEGMENTS seg_key stats month);
      do _ <- print ("Fetching " +:+ out_name +:+ "…");
      do recs <- scrape_table url;
      do _ <- save_json out_name recs;
      do _ <- time_sleep 1.0%float;
      main_loop ts'
  end.

Definition main : M unit := main_loop tasks.

End Scrape.

(** [pandas.read_html] on the text of a document, as pandas before 3.0
    reads a string that is neither a path nor a URL.  [tables_of] is the
    HTML parser: the table elements of the document in order, each with
    the frame built from it, or with nothing when the element has no data.
    pandas raises [ValueError] when the document has no table element,
    and leaves out the elements without data: its result is the empty
    list when there are table elements and all of them are empty. *)
Definition pandas_read_html
    (tables_of : string -> list (option (DataFrame label)))
    (text : string) : outcome (list (DataFrame label)) :=
  match tables_of text with
  | [] => Raise (ValueError "No tables found")
  | elements => Ok (omap id elements)
  end.

(** From pandas 3.0 on a string is a path or a URL and never the document
    itself: given the text of a page, which names no file, [read_html]
    raises [FileNotFoundError]. *)
Definition pandas3_read_html (text : string)
  : outcome (list (DataFrame label)) :=
  Raise (FileNotFoundError text).

End Html.

(** ** Vocabulary of the properties

    Definitions used to state what the scripts do.  Those that follow the
    wording of the design document rather than a source function say so. *)

Module Spec.
Import Py.

(** The value of one pass through the [try] block of [call_api], as a
    function of what [requests.get] produced. *)
Definition attempt_result (o : outcome response) : outcome json :=
  match o with
  | Raise e => Raise e
  | Ok r =>
      if bool_decide (status_code r ∈ Structured.RETRY_STATUS)
      then Raise (RuntimeError
                    ("HTTP " +:+ str (status_code r) +:+ ": "
                     +:+ take_chars 200 (text r)))
      else
        match raise_for_status r with
        | Raise e => Raise e
        | Ok _ => json_body r
        end
  end.

(** The design document's retry condition: the status is one of the five
    transient codes, or something in the attempt raises (the request
    itself, the status check, or the decoding of the body). *)
Definition retry_condition (o : outcome response) : bool :=
  match o with
  | Raise _ => true
  | Ok r =>
      bool_decide (status_code r ∈ [429; 403; 502; 503; 504]%Z)
      || raised (raise_for_status r)
      || raised (json_body r)
  end.

(** The design document's backoff: base 2.0, growth factor 1.8, ceiling
    20.0.  [delay_at j] is the delay after the failed attempt number
    [j + 1]. *)
Fixpoint delay_at (j : nat) : float :=
  match j with
  | 0 => 2.0%float
  | S j' => min (delay_at j' * 1.8)%float 20.0%float
  end.

(** [m] requests of [q] with a sleep between each two of them, the first
    sleep lasting [d] and each later one the backoff of the one before. *)
Fixpoint schedule (q : request) (m : nat) (d : float) : list event :=
  match m with
  | 0 => []
  | S m' =>
      EvGet q ::
        match m' with
        | 0 => []
        | S _ => EvSleep d :: schedule q m' (Structured.next_delay d)
        end
  end.

(** A list of floats in strictly increasing order. *)
Fixpoint increasing (ds : list float) : bool :=
  match ds with
  | d1 :: ((d2 :: _) as rest) => PrimFloat.ltb d1 d2 && increasing rest
  | _ => true
  end.

(** The candidate keys of the JSON normalizer in priority order. *)
Definition CANDIDATE_KEYS : list string :=
  ["data"; "rows"; "result"; "results"].

(** [key] holds a sequence in the payload. *)
Definition holds_sequence (m : gmap string json) (key : string) : bool :=
  match m !! key with
  | Some (JList _) => true
  | _ => false
  end.

(** The design document's choice of the row sequence: the value of the
    first key, in the order given, that holds a sequence. *)
Fixpoint first_sequence (m : gmap string json) (keys : list string)
  : option (list json) :=
  match keys with
  | [] => None
  | key :: keys' =>
      match m !! key with
      | Some (JList v) => Some v
      | _ => first_sequence m keys'
      end
  end.

(** The elements of a sequence that are mappings, in their order. *)
Abbreviation keep_dicts := (filter (fun r => isinstance_dict r = true)).

(** A JSON object. *)
Definition is_object (v : json) : Prop :=
  exists fields : gmap string json, v = JDict fields.

(** The split selector of a job, and its month code as the comment in
    [leaders_params] gives it: 0 all, 13 vs L, 14 vs R. *)
Inductive split : Type := All | VsLeft | VsRight.

Definition month_code (s : split) : Z :=
  match s with All => 0 | VsLeft => 13 | VsRight => 14 end.

(** The query parameters of the JSON endpoint that are the same for every
    job. *)
Definition FIXED_PARAMS : gmap string string :=
  list_to_map
    [ ("ind", "0"); ("lg", "all"); ("pos", "all"); ("qual", "0");
      ("season", "2025"); ("season1", "2025"); ("team", "0,ts");
      ("rost", "0"); ("type", "8"); ("sortcol", "17");
      ("sortdir", "default"); ("pageitems", "2000"); ("pagenum", "1");
      ("filter", "") ].

(** The part of the leaderboard URL that is the same for every job. *)
Definition URL_HEAD : string :=
  "https://www.fangraphs.com/leaders/major-league?"
  +:+ "ind=0&lg=all&pos=all&qual=0&season=2025&season1=2025&type=1".

(** The stat categories and the splits of the job tables. *)
Definition STATS : list string := ["bat"; "pit"].

Definition SPLITS : list split := [All; VsLeft; VsRight].

(** A job of a task table names a registered segment, a stat category and
    the month code of a split. *)
Definition job_ok (segments : gmap string (list Z))
    (job : string * string * string * Z) : bool :=
  match job with
  | (_, seg_key, stats, month) =>
      bool_decide (is_Some (segments !! seg_key))
      && bool_decide (stats ∈ STATS)
      && bool_decide (month ∈ map month_code SPLITS)
  end.

(** Every character of the string passes the test. *)
Fixpoint string_forallb (P : Ascii.ascii -> bool) (s : string) : bool :=
  match s with
  | EmptyString => true
  | String c s' => P c && string_forallb P s'
  end.

(** A decimal digit or the minus sign. *)
Definition is_number_char (c : Ascii.ascii) : bool :=
  bool_decide (c ∈ String.list_ascii_of_string "0123456789-").

(** The character does not occur in the string. *)
Definition char_free (c : Ascii.ascii) (s : string) : bool :=
  string_forallb (fun a => negb (Ascii.eqb a c)) s.

(** An output name that stays inside the output directory and that the
    file system and the standard output take: no slash, no NUL, no
    surrogate. *)
Definition plain_name (name : string) : bool :=
  char_free SLASH name && negb (has_nul name) && negb (has_surrogate name).

(** The file of an output name that is plain, in either script. *)
Definition job_path (name : string) : string :=
  "data/fa" +:+ "/" +:+ name +:+ ".json".

(** The output name of a job of a task table. *)
Definition job_name (job : string * string * string * Z) : string :=
  job.1.1.1.

Definition is_print (e : event) : bool :=
  match e with EvPrint _ => true | _ => false end.

(** No string of the document, key or value, holds a surrogate: the
    documents that have a UTF-8 text. *)
Inductive utf8_text : json -> Prop :=
| text_null : utf8_text JNull
| text_bool b : utf8_text (JBool b)
| text_int z : utf8_text (JInt z)
| text_float f : utf8_text (JFloat f)
| text_str s : has_surrogate s = false -> utf8_text (JStr s)
| text_list l : Forall utf8_text l -> utf8_text (JList l)
| text_dict m :
    (forall k v, m !! k = Some v -> has_surrogate k = false /\ utf8_text v) ->
    utf8_text (JDict m).

(** The file of the job holds an array of JSON objects. *)
Definition stored (w : world) (job : string * string * string * Z) : Prop :=
  exists rows,
    Forall is_object rows /\
    files w !! job_path (job_name job) = Some (Document (JList rows)).

(** The file of the job is in [w'] what it was in [w]. *)
Definition untouched (w w' : world) (job : string * string * string * Z)
  : Prop :=
  files w' !! job_path (job_name job) = files w !! job_path (job_name job).

(** The file of the job was opened for writing and is empty. *)
Definition emptied (w : world) (job : string * string * string * Z) : Prop :=
  files w !! job_path (job_name job) = Some Truncated.

(** No file is locked against writing. *)
Definition writable (w : world) : Prop :=
  forall p e, files w !! p <> Some (Locked e).

(** What [json.dumps] writes for a cell: a string, an integer or a float
    as such, and the missing value as the float NaN. *)
Inductive written_as : Html.cell -> json -> Prop :=
| written_nan : written_as Html.NaN (JFloat nan)
| written_str s : written_as (Html.CStr s) (JStr s)
| written_int z : written_as (Html.CInt z) (JInt z)
| written_float f : written_as (Html.CFloat f) (JFloat f).

(** No header and no string cell of the record holds a surrogate. *)
Definition record_text (rec : gmap string Html.cell) : Prop :=
  forall key c,
    rec !! key = Some c ->
    has_surrogate key = false /\
    forall s, c = Html.CStr s -> has_surrogate s = false.

(** *** Whitespace

    The code points for which [str.isspace] is true: the ASCII controls
    TAB to CR and FS to US, the space, NEL, the no-break space, the ogham
    space mark, the spaces U+2000 to U+200A, the line and paragraph
    separators, the narrow no-break space, the medium mathematical space
    and the ideographic space. *)
Definition WHITESPACE : list N :=
  [ 0x09; 0x0A; 0x0B; 0x0C; 0x0D; 0x1C; 0x1D; 0x1E; 0x1F; 0x20;
    0x85; 0xA0; 0x1680;
    0x2000; 0x2001; 0x2002; 0x2003; 0x2004; 0x2005; 0x2006; 0x2007;
    0x2008; 0x2009; 0x200A;
    0x2028; 0x2029; 0x202F; 0x205F; 0x3000 ]%N.

(** The UTF-8 encoding of a code point. *)
Definition utf8 (cp : N) : string :=
  of_bytes
    (N.to_nat <$>
       (if cp <? 0x80 then [cp]
        else if cp <? 0x800 then [0xC0 + cp / 64; 0x80 + cp mod 64]
        else if cp <? 0x10000 then
          [0xE0 + cp / 4096; 0x80 + (cp / 64) mod 64; 0x80 + cp mod 64]
        else
          [0xF0 + cp / 262144; 0x80 + (cp / 4096) mod 64;
           0x80 + (cp / 64) mod 64; 0x80 + cp mod 64]))%N.

(** One whitespace character. *)
Definition blank (p : string) : Prop :=
  exists cp, cp ∈ WHITESPACE /\ p = utf8 cp.

(** A string of whitespace characters only. *)
Inductive blank_run : string -> Prop :=
| blank_nil : blank_run ""
| blank_cons p s : blank p -> blank_run s -> blank_run (p +:+ s).

Definition begins_blank (t : string) : Prop :=
  exists p rest, blank p /\ t = p +:+ rest.

Definition ends_blank (t : string) : Prop :=
  exists front p, blank p /\ t = front +:+ p.

(** [t] is [s] without its surrounding whitespace. *)
Definition trim_of (s t : string) : Prop :=
  exists pre post,
    s = pre +:+ t +:+ post /\ blank_run pre /\ blank_run post /\
    ~ begins_blank t /\ ~ ends_blank t.

(** *** Tables *)

(** A column label as text: a string as it is, an integer in decimal,
    another object by the text that stands for it. *)
Definition label_text (c : Html.label) : string :=
  match c with
  | Html.LStr s => s
  | Html.LInt z => pretty z
  | Html.LOther text => text
  end.

(** The cell holds a value: it is not the missing value and not a float
    that is not a number. *)
Definition is_value (c : Html.cell) : Prop :=
  match c with
  | Html.NaN => False
  | Html.CFloat f => PrimFloat.is_nan f = false
  | _ => True
  end.

(** The column has a value in one of the first [rows] rows. *)
Definition has_value (rows : nat) (col : Html.label * list Html.cell) : Prop :=
  exists i c, i < rows /\ col.2 !! i = Some c /\ is_value c.

(** The header of a column as the records carry it. *)
Definition header (col : Html.label * list Html.cell) (key : string) : Prop :=
  trim_of (label_text col.1) key.

End Spec.

(** ** Sample servers and payloads *)

Module Samples.
Import Py.

(** A gateway error, as the endpoint sends it under load. *)
Definition busy : response :=
  {| status_code := 503; text := "busy"; json_body := Raise JSONDecodeError |}.

Definition row (name : string) (hr : Z) : json :=
  JDict (list_to_map [("Name", JStr name); ("HR", JInt hr)]).

Definition two_rows : json :=
  JDict (list_to_map [("data", JList [row "Ott" 3; JNull; row "Pena" 7])]).

Definition good : response :=
  {| status_code := 200; text := "{...}"; json_body := Ok two_rows |}.

(** A server that is always busy. *)
Definition always_busy (n : nat) : outcome response := Ok busy.

(** A server that is busy five times and then answers. *)
Definition busy_five_times (n : nat) : outcome response :=
  if (n <? 5)%nat then Ok busy else Ok good.

(** A payload with sequences under two candidate keys and a string under
    the primary one. *)
Definition mixed_payload : gmap string json :=
  list_to_map
    [ ("data", JStr "n/a");
      ("result", JList [row "Ott" 3; JInt 5; JList []; row "Pena" 7]);
      ("results", JList [row "Ruiz" 1]) ].

(** A payload with no sequence under any candidate key. *)
Definition drifted_payload : gmap string json :=
  list_to_map [ ("data", JNull); ("players", JList [row "Ott" 3]) ].

(** A row whose name ends in the lone surrogate U+D800, which JSON text
    can carry as an escape and UTF-8 cannot. *)
Definition broken_row : json :=
  JDict (list_to_map [("Name", JStr (of_bytes [79; 116; 116; 237; 160; 128]));
                      ("HR", JInt 3)]).

Definition broken_payload : json :=
  JDict (list_to_map [("data", JList [broken_row; JInt 1])]).

(** A leaderboard of three players whose last column is empty, and whose
    second header carries stray blanks. *)
Definition leaderboard : Html.DataFrame Html.label :=
  {| Html.index := 3;
     Html.columns :=
       [ (Html.LStr "Name", [Html.CStr "Ott"; Html.CStr "Pena"; Html.CStr "Ruiz"]);
         (Html.LStr " HR ", [Html.CInt 3; Html.CInt 7; Html.NaN]);
         (Html.LStr "Unnamed: 5", [Html.NaN; Html.NaN; Html.NaN]) ] |}.

(** The records of [leaderboard]. *)
Definition leaderboard_records : list (gmap string Html.cell) :=
  [ list_to_map [("Name", Html.CStr "Ott"); ("HR", Html.CInt 3)];
    list_to_map [("Name", Html.CStr "Pena"); ("HR", Html.CInt 7)];
    list_to_map [("Name", Html.CStr "Ruiz"); ("HR", Html.NaN)] ].

(** Three rows under two headers, and no value in any cell. *)
Definition blank_table : Html.DataFrame Html.label :=
  {| Html.index := 3;
     Html.columns :=
       [ (Html.LStr "Unnamed: 4", [Html.NaN; Html.NaN; Html.NaN]);
         (Html.LStr "Unnamed: 5", [Html.NaN; Html.NaN; Html.NaN]) ] |}.

(** A table without a header row, so that pandas numbers the columns; the
    second column has its only value in the last row, the third has
    none, the fourth holds a float that is not a number, and the last
    header is wrapped in an em space (U+2003) and a no-break space
    (U+00A0). *)
Definition roster : Html.DataFrame Html.label :=
  {| Html.index := 3;
     Html.columns :=
       [ (Html.LInt 0, [Html.CStr "Ott"; Html.CStr "Pena"; Html.CStr "Ruiz"]);
         (Html.LInt 1, [Html.NaN; Html.NaN; Html.CInt 7]);
         (Html.LInt 2, [Html.NaN; Html.NaN]);
         (Html.LStr "ERA", [Html.CFloat nan; Html.NaN; Html.CFloat nan]);
         (Html.LStr (of_bytes [226; 128; 131; 87; 65; 82; 194; 160]),
          [Html.CFloat 1.5; Html.NaN; Html.NaN]) ] |}.

(** A toy HTML parser: it knows the page that shows [leaderboard] and a
    page whose only table has no data, and finds no table element in
    any other document. *)
Definition tables_of (text : string)
  : list (option (Html.DataFrame Html.label)) :=
  if String.eqb text "<table>leaderboard</table>" then [Some leaderboard]
  else if String.eqb text "<table></table>" then [None]
  else [].

(** A page whose only table has no data, served with status 200. *)
Definition empty_table_page : response :=
  {| status_code := 200;
     text := "<table></table>";
     json_body := Raise JSONDecodeError |}.

(** A page without any table, served with status 200. *)
Definition no_table_page : response :=
  {| status_code := 200;
     text := "<html><body><p>No results</p></body></html>";
     json_body := Raise JSONDecodeError |}.

(** The leaderboard page served with status 300 (Multiple Choices), which
    [requests] hands to the caller as it is. *)
Definition multiple_choices : response :=
  {| status_code := 300;
     text := "<table>leaderboard</table>";
     json_body := Raise JSONDecodeError |}.

Definition not_found : response :=
  {| status_code := 404; text := "Not Found"; json_body := Raise JSONDecodeError |}.

Definition sample_url : string :=
  Html.leaders_url [17732; 19281]%Z "pit" 13.

(** A registry with a segment that has no player. *)
Definition sparse_registry : gmap string (list Z) :=
  list_to_map [ ("bench", []); ("sp", [31764; 13050]%Z) ].

(** A server whose every answer carries the broken row. *)
Definition always_broken (n : nat) : outcome response :=
  Ok {| status_code := 200; text := "{...}"; json_body := Ok broken_payload |}.

(** A server that answers every request with [good]. *)
Definition always_good (n : nat) : outcome response := Ok good.

(** An answer whose JSON body is an array, not an object. *)
Definition array_body : response :=
  {| status_code := 200; text := "[]"; json_body := Ok (JList []) |}.

(** [mixed_payload] with other keys around its candidate keys. *)
Definition noisy_payload : gmap string json :=
  <["total" := JInt 4]> (<["players" := JList [row "Ruiz" 1]]> mixed_payload).

(** A parser that finds the leaderboard followed by a second table. *)
Definition two_tables (text : string)
  : outcome (list (Html.DataFrame Html.label)) :=
  Ok [leaderboard; {| Html.index := 0; Html.columns := [] |}].

(** A server that answers every request with the leaderboard page. *)
Definition always_leaderboard (n : nat) : outcome response :=
  Ok {| status_code := 200;
        text := "<table>leaderboard</table>";
        json_body := Raise JSONDecodeError |}.

End Samples.

(** ** Properties of the JSON-endpoint fetcher *)

Module CallApi.
Import Py Structured Spec.

Lemma requests_made_log_get q w :
  requests_made (log (EvGet q) w) = S (requests_made w).
Proof.
  unfold requests_made, log; simpl.
  rewrite filter_app, length_app. simpl. lia.
Qed.

Lemma requests_made_log_sleep d w :
  requests_made (log (EvSleep d) w) = requests_made w.
Proof.
  unfold requests_made, log; simpl.
  rewrite filter_app, length_app. simpl. lia.
Qed.

Lemma retry_condition_raised o :
  raised (attempt_result o) = retry_condition o.
Proof.
  destruct o as [r|e]; [|reflexivity].
  unfold attempt_result, retry_condition, RETRY_STATUS.
  destruct (bool_decide _); [reflexivity|].
  destruct (raise_for_status r); reflexivity.
Qed.

Lemma schedule_gets q m d :
  length (filter (fun e => is_get e = true) (schedule q m d)) = m.
Proof.
  revert d. induction m as [|m IH]; intros d; [reflexivity|].
  destruct m as [|m]; [reflexivity|].
  change (schedule q (S (S m)) d)
    with (EvGet q :: EvSleep d :: schedule q (S m) (next_delay d)).
  rewrite filter_cons_True by reflexivity.
  rewrite filter_cons_False by (simpl; congruence).
  cbn [length]. f_equal. apply IH.
Qed.

Section Run.

Variable transport : nat -> outcome response.
Variable params : gmap string string.

Lemma attempt_once_run w :
  attempt_once transport params w =
    (attempt_result (transport (requests_made w)),
     log (EvGet (api_request params)) w).
Proof.
  unfold attempt_once, bind, requests_get, attempt_result.
  destruct (transport (requests_made w)) as [r|e]; [|reflexivity].
  destruct (bool_decide _); [reflexivity|].
  unfold lift. destruct (raise_for_status r); reflexivity.
Qed.

(** The loop, started with [k] attempts left: it makes [m] requests, all
    but the last of them failed, its value is that of the last one, and it
    raises only when the budget is spent. *)
Lemma call_api_loop_run (tries : Z) (k : nat) :
  forall (a : Z) (d : float) (le : option exn) (w : world),
    (a + Z.of_nat k = tries + 1)%Z -> 0 < k ->
    exists m,
      1 <= m <= k /\
      trace (call_api_loop transport params tries (seqZ a (Z.of_nat k)) d le w).2
        = trace w ++ schedule (api_request params) m d /\
      files (call_api_loop transport params tries (seqZ a (Z.of_nat k)) d le w).2
        = files w /\
      (forall j, j < m - 1 ->
         retry_condition (transport (requests_made w + j)) = true) /\
      (call_api_loop transport params tries (seqZ a (Z.of_nat k)) d le w).1
        = attempt_result (transport (requests_made w + (m - 1))) /\
      (raised (call_api_loop transport params tries (seqZ a (Z.of_nat k)) d le w).1
         = true -> m = k).
Proof.
  induction k as [|k IH]; intros a d le w Ha Hk; [lia|].
  rewrite seqZ_cons by lia.
  replace (Z.pred (Z.of_nat (S k))) with (Z.of_nat k) by lia.
  cbn [call_api_loop]. unfold try_except.
  rewrite attempt_once_run.
  destruct (attempt_result (transport (requests_made w))) as [v|e] eqn:Hres.
  - exists 1. cbn [fst snd]. rewrite Nat.add_0_r.
    repeat split; try lia; try done.
  - case_bool_decide as Hlast.
    + exists 1. assert (k = 0) by lia. subst k.
      unfold raise; cbn [fst snd]. rewrite Nat.add_0_r.
      repeat split; try lia; try done.
    + assert (0 < k) as Hk' by lia.
      unfold bind, time_sleep.
      destruct (IH (Z.succ a) (next_delay d) (Some e)
                   (log (EvSleep d) (log (EvGet (api_request params)) w)))
        as (m & Hm & Htr & Hfi & Hfail & Hval & Hraise); [lia|lia|].
      rewrite requests_made_log_sleep, requests_made_log_get in Hfail, Hval.
      exists (S m). repeat split; try lia.
      * rewrite Htr. cbn [log trace].
        destruct m as [|m]; [lia|].
        rewrite <- !app_assoc. reflexivity.
      * rewrite Hfi. reflexivity.
      * intros j Hj. destruct j as [|j].
        -- rewrite Nat.add_0_r, <- retry_condition_raised, Hres. reflexivity.
        -- replace (requests_made w + S j) with (S (requests_made w) + j) by lia.
           apply Hfail. lia.
      * rewrite Hval. f_equal. f_equal. lia.
      * intros Hr. apply Hraise in Hr. lia.
Qed.

Lemma range_attempts (k : nat) :
  range 1 (Z.of_nat k + 1) = seqZ 1 (Z.of_nat k).
Proof. unfold range. f_equal. lia. Qed.

(** [call_api] with a budget of [k] attempts, [k] positive. *)
Lemma call_api_run (k : nat) (w : world) :
  0 < k ->
  exists m,
    1 <= m <= k /\
    trace (call_api transport params (Z.of_nat k) w).2
      = trace w ++ schedule (api_request params) m 2.0%float /\
    files (call_api transport params (Z.of_nat k) w).2 = files w /\
    (forall j, j < m - 1 ->
       retry_condition (transport (requests_made w + j)) = true) /\
    (call_api transport params (Z.of_nat k) w).1
      = attempt_result (transport (requests_made w + (m - 1))) /\
    (raised (call_api transport params (Z.of_nat k) w).1 = true -> m = k).
Proof.
  intros Hk. unfold call_api. rewrite range_attempts.
  apply call_api_loop_run; lia.
Qed.

Lemma requests_made_run (w w' : world) (m : nat) (d : float) :
  trace w' = trace w ++ schedule (api_request params) m d ->
  requests_made w' = requests_made w + m.
Proof.
  intros H. unfold requests_made. rewrite H, filter_app, length_app.
  now rewrite schedule_gets.
Qed.

End Run.

(** *** Shape of a schedule *)

Lemma iter_delay_at (j : nat) : Nat.iter j next_delay 2.0%float = delay_at j.
Proof. induction j as [|j IH]; [reflexivity|]. simpl. now rewrite IH. Qed.

Lemma schedule_sleeps q m d :
  sleeps (schedule q m d)
    = map (fun j => Nat.iter j next_delay d) (seq 0 (m - 1)).
Proof.
  revert d. induction m as [|m IH]; intros d; [reflexivity|].
  destruct m as [|m]; [reflexivity|].
  change (schedule q (S (S m)) d)
    with (EvGet q :: EvSleep d :: schedule q (S m) (next_delay d)).
  replace (S (S m) - 1) with (S (S m - 1)) by lia.
  cbn [sleeps omap list_omap seq map]. fold (sleeps (schedule q (S m) (next_delay d))).
  rewrite IH. f_equal.
  rewrite <- seq_shift, map_map.
  apply map_ext. intros j. now rewrite Nat.iter_succ_r.
Qed.

Lemma schedule_sleep_between q m :
  forall d i d',
    schedule q m d !! i = Some (EvSleep d') ->
    exists i', i = S i' /\
      schedule q m d !! i' = Some (EvGet q) /\
      schedule q m d !! S i = Some (EvGet q).
Proof.
  induction m as [|m IH]; intros d i d' H; [discriminate|].
  destruct m as [|m].
  - destruct i as [|i]; simpl in H; [discriminate|].
    destruct i; discriminate.
  - change (schedule q (S (S m)) d)
      with (EvGet q :: EvSleep d :: schedule q (S m) (next_delay d)) in *.
    destruct i as [|[|i]]; [discriminate| |].
    + exists 0. repeat split; reflexivity.
    + cbn [lookup list_lookup] in H.
      apply IH in H as (i' & -> & Hget & Hnext).
      exists (S (S i')). repeat split; assumption.
Qed.

Lemma app_new_events (w w' : world) (ev : list event) :
  trace w' = trace w ++ ev -> drop (length (trace w)) (trace w') = ev.
Proof. intros ->. apply drop_app_length. Qed.

(** C1. [call_api] with its budget of 6 attempts, from any world and
    against any server.  It makes between one and six requests.  An attempt
    that is not the sixth is followed by another one exactly when it met
    the retry condition: its status is 429, 403, 502, 503 or 504, or
    something in the attempt raised.  The value of the call is the value
    of its last attempt, and when all six attempts fail the call raises
    the error of the sixth. *)
Theorem call_api_retry_policy
    (transport : nat -> outcome response) (params : gmap string string)
    (w : world) :
  let run := call_api transport params 6 w in
  let n := requests_made w in
  let m := requests_made run.2 - n in
  1 <= m <= 6 /\
  requests_made run.2 = n + m /\
  (forall j, j < m -> S j < 6 ->
     (S j < m <-> retry_condition (transport (n + j)) = true)) /\
  run.1 = attempt_result (transport (n + (m - 1))) /\
  ((forall j, j < 6 -> retry_condition (transport (n + j)) = true) ->
   m = 6 /\
   exists e, attempt_result (transport (n + 5)) = Raise e /\ run.1 = Raise e).
Proof.
  intros run n m.
  destruct (call_api_run transport params 6 w) as
    (m0 & Hm & Htr & _ & Hfail & Hval & Hraise); [lia|].
  change (Z.of_nat 6) with 6%Z in *. fold run in Htr, Hval, Hraise.
  pose proof (requests_made_run params w run.2 m0 _ Htr) as Hn.
  assert (m = m0) as -> by (unfold m, n; lia). fold n in Hn, Hfail, Hval.
  split; [lia|]. split; [exact Hn|]. split; [|split; [exact Hval|]].
  - intros j Hj Hbudget. split.
    + intros Hnext. apply Hfail. lia.
    + intros Hretry.
      destruct (decide (S j < m0)) as [|Hlast]; [assumption|].
      assert (j = m0 - 1) as -> by lia.
      rewrite <- retry_condition_raised, <- Hval in Hretry.
      apply Hraise in Hretry. lia.
  - intros Hall.
    assert (raised run.1 = true) as Hr.
    { rewrite Hval, retry_condition_raised. apply Hall. lia. }
    pose proof (Hraise Hr) as ->. split; [reflexivity|].
    change (6 - 1) with 5 in Hval.
    destruct (attempt_result (transport (n + 5))) as [v|e] eqn:He.
    + rewrite Hval in Hr. discriminate.
    + exists e. split; [reflexivity | exact Hval].
Qed.

(** A server that is always busy: six requests, then the error of the
    sixth. *)
Lemma call_api_retry_policy_always_busy :
  requests_made (call_api Samples.always_busy ∅ 6 empty_world).2 = 6 /\
  (call_api Samples.always_busy ∅ 6 empty_world).1
    = Raise (RuntimeError "HTTP 503: busy").
Proof.
  destruct (call_api_retry_policy Samples.always_busy ∅ empty_world)
    as (_ & Hn & _ & _ & Hall).
  destruct Hall as (Hm & e & He & Hr); [intros j _; reflexivity|].
  split.
  - rewrite Hn, Hm. reflexivity.
  - rewrite Hr. vm_compute in He. congruence.
Defined.

(** C2. The delays of [call_api], from any world and against any server.
    The call only appends events; the j-th delay it sleeps is [delay_at j],
    which starts at 2.0 and is multiplied by 1.8 and capped at 20.0 from
    one to the next, and there is one delay fewer than there are requests;
    every sleep comes right after a request and right before the next one,
    so none precedes the first attempt or follows the last; and when the
    first five attempts fail and the sixth succeeds, the five delays are
    strictly increasing. *)
Theorem call_api_backoff
    (transport : nat -> outcome response) (params : gmap string string)
    (w : world) :
  let run := call_api transport params 6 w in
  let n := requests_made w in
  let ev := events_since w run.2 in
  trace run.2 = trace w ++ ev /\
  sleeps ev
    = map delay_at (seq 0 (length (filter (fun e => is_get e = true) ev) - 1)) /\
  (forall i d, ev !! i = Some (EvSleep d) ->
     exists i', i = S i' /\
       is_get <$> ev !! i' = Some true /\ is_get <$> ev !! S i = Some true) /\
  ((forall j, j < 5 -> retry_condition (transport (n + j)) = true) ->
   retry_condition (transport (n + 5)) = false ->
   sleeps ev = map delay_at [0; 1; 2; 3; 4] /\ increasing (sleeps ev) = true).
Proof.
  intros run n ev.
  destruct (call_api_run transport params 6 w) as
    (m & Hm & Htr & _ & Hfail & Hval & Hraise); [lia|].
  change (Z.of_nat 6) with 6%Z in *. fold run in Htr, Hval, Hraise.
  fold n in Hfail, Hval.
  assert (ev = schedule (api_request params) m 2.0%float) as Hev
    by (apply app_new_events; exact Htr).
  assert (sleeps ev = map delay_at (seq 0 (m - 1))) as Hsl.
  { rewrite Hev, schedule_sleeps. apply map_ext, iter_delay_at. }
  split; [now rewrite Hev|]. split; [|split].
  - rewrite Hsl. now rewrite Hev, schedule_gets.
  - rewrite Hev. intros i d Hi.
    apply schedule_sleep_between in Hi as (i' & -> & Hget & Hnext).
    exists i'. rewrite Hget, Hnext. repeat split.
  - intros Hfive Hsixth.
    assert (m = 6) as ->.
    { destruct (decide (m = 6)) as [|Hne]; [assumption|].
      assert (raised run.1 = true) as Hr.
      { rewrite Hval, retry_condition_raised. apply Hfive. lia. }
      apply Hraise in Hr. lia. }
    rewrite Hsl. split; reflexivity.
Qed.

(** Five gateway errors and then an answer: the call returns the answer
    after sleeping 2.0, 3.6, 6.48, 11.664 and 20.0 seconds. *)
Lemma call_api_backoff_busy_five_times :
  sleeps (events_since empty_world
            (call_api Samples.busy_five_times ∅ 6 empty_world).2)
    = [2.0; 3.6; 6.48; 11.664000000000001; 20.0]%float /\
  increasing
    (sleeps (events_since empty_world
               (call_api Samples.busy_five_times ∅ 6 empty_world).2)) = true.
Proof.
  destruct (call_api_backoff Samples.busy_five_times ∅ empty_world)
    as (_ & _ & _ & Hfive).
  destruct Hfive as (Hsl & Hinc); [intros j Hj | reflexivity |].
  - do 5 (destruct j as [|j]; [reflexivity|]). lia.
  - split; [rewrite Hsl; reflexivity | exact Hinc].
Defined.

End CallApi.

(** ** Strings, paths and files *)

Module Text.
Import Stdlib.Strings.Ascii.
Import Py Spec.

Lemma string_app_assoc (s1 s2 s3 : string) :
  (s1 +:+ s2) +:+ s3 = s1 +:+ (s2 +:+ s3).
Proof.
  induction s1 as [|c s1 IH]; [reflexivity|].
  change (String c ((s1 +:+ s2) +:+ s3) = String c (s1 +:+ (s2 +:+ s3))).
  now rewrite IH.
Qed.


Lemma length_app (s1 s2 : string) :
  String.length (s1 +:+ s2) = String.length s1 + String.length s2.
Proof.
  induction s1 as [|c s1 IH]; [reflexivity|].
  change (S (String.length (s1 +:+ s2))
          = S (String.length s1 + String.length s2)).
  now rewrite IH.
Qed.

Lemma app_inj_r (s1 s2 t : string) : s1 +:+ t = s2 +:+ t -> s1 = s2.
Proof.
  revert s2. induction s1 as [|c s1 IH]; intros [|c' s2] Heq.
  - reflexivity.
  - apply (f_equal String.length) in Heq.
    change (String.length t = S (String.length (s2 +:+ t))) in Heq.
    rewrite length_app in Heq. lia.
  - apply (f_equal String.length) in Heq.
    change (S (String.length (s1 +:+ t)) = String.length t) in Heq.
    rewrite length_app in Heq. lia.
  - change (String c (s1 +:+ t) = String c' (s2 +:+ t)) in Heq.
    injection Heq as -> Heq. f_equal. now apply IH.
Qed.

(** Distinct output names are stored in distinct files. *)
Lemma job_path_inj (name1 name2 : string) :
  job_path name1 = job_path name2 -> name1 = name2.
Proof.
  unfold job_path. intros Heq.
  apply (inj (String.append "data/fa")) in Heq.
  apply (inj (String.append "/")) in Heq.
  now apply app_inj_r in Heq.
Qed.

Lemma string_forallb_app (P : Ascii.ascii -> bool) (s1 s2 : string) :
  string_forallb P (s1 +:+ s2) = string_forallb P s1 && string_forallb P s2.
Proof.
  induction s1 as [|c s1 IH]; [reflexivity|].
  change (P c && string_forallb P (s1 +:+ s2)
          = P c && string_forallb P s1 && string_forallb P s2).
  rewrite IH. now destruct (P c).
Qed.

Lemma string_forallb_impl (P Q : Ascii.ascii -> bool) (s : string) :
  (forall c, P c = true -> Q c = true) ->
  string_forallb P s = true -> string_forallb Q s = true.
Proof.
  intros HPQ. induction s as [|c s IH]; [reflexivity|]. cbn.
  intros [Hc Hs]%andb_true_iff. now rewrite (HPQ c Hc), IH.
Qed.

Lemma pretty_N_char_number (x : N) : is_number_char (pretty_N_char x) = true.
Proof.
  unfold pretty_N_char. repeat case_match; reflexivity.
Qed.

Lemma pretty_N_go_number (x : N) :
  forall s,
    string_forallb is_number_char s = true ->
    string_forallb is_number_char (pretty_N_go x s) = true.
Proof.
  induction (N.lt_wf_0 x) as [x _ IH]. intros s Hs.
  destruct (decide (x = 0)%N) as [->|Hx]; [exact Hs|].
  rewrite pretty_N_go_step by lia.
  apply IH; [apply N.div_lt; lia|].
  cbn [string_forallb]. now rewrite pretty_N_char_number.
Qed.

Lemma pretty_N_go_length (x : N) :
  forall s, String.length s <= String.length (pretty_N_go x s).
Proof.
  induction (N.lt_wf_0 x) as [x _ IH]. intros s.
  destruct (decide (x = 0)%N) as [->|Hx]; [reflexivity|].
  rewrite pretty_N_go_step by lia.
  etransitivity; [|apply IH; apply N.div_lt; lia]. cbn. lia.
Qed.

Lemma pretty_N_number (x : N) :
  string_forallb is_number_char (pretty x) = true /\ pretty x <> "".
Proof.
  unfold pretty, pretty_N. case_decide; [split; [reflexivity|discriminate]|].
  split; [now apply pretty_N_go_number|].
  rewrite pretty_N_go_step by lia. intros Hempty.
  pose proof (pretty_N_go_length (x `div` 10)
                (String (pretty_N_char (x `mod` 10)) "")) as Hlen.
  rewrite Hempty in Hlen. cbn in Hlen. lia.
Qed.

(** [str(n)] is made of digits and at most a sign, and is not empty. *)
Lemma str_number (z : Z) :
  string_forallb is_number_char (str z) = true /\ str z <> "".
Proof.
  unfold str, pretty, pretty_Z. destruct z as [|p|p].
  - split; [reflexivity|discriminate].
  - apply pretty_N_number.
  - destruct (pretty_N_number (N.pos p)) as [Hchars _].
    split; [|discriminate].
    change (is_number_char "-"%char && string_forallb is_number_char (pretty (N.pos p))
            = true).
    now rewrite Hchars.
Qed.

Lemma app_empty_r (s : string) : s +:+ "" = s.
Proof.
  induction s as [|c s IH]; [reflexivity|].
  change (String c (s +:+ "") = String c s). now rewrite IH.
Qed.

Lemma app_cons (c : ascii) (s t : string) :
  String c s +:+ t = String c (s +:+ t).
Proof. reflexivity. Qed.

(** *** Whitespace and [strip] *)

Lemma strip_prefix_Some (p s rest : string) :
  strip_prefix p s = Some rest <-> s = p +:+ rest.
Proof.
  revert s. induction p as [|a p IH]; intros s; cbn [strip_prefix].
  - split; [intros [= ->]; reflexivity | intros ->; reflexivity].
  - destruct s as [|b s]; [split; discriminate|].
    rewrite app_cons. destruct (Ascii.eqb a b) eqn:Hab.
    + apply Ascii.eqb_eq in Hab as ->. rewrite IH.
      split; [intros ->; reflexivity | intros [= ->]; reflexivity].
    + apply Ascii.eqb_neq in Hab.
      split; [discriminate | intros [= -> _]; contradiction].
Qed.

Lemma first_prefix_Some (ps : list string) (s rest : string) :
  first_prefix ps s = Some rest -> exists p, p ∈ ps /\ s = p +:+ rest.
Proof.
  induction ps as [|p ps IH]; cbn [first_prefix]; [discriminate|].
  destruct (strip_prefix p s) as [r|] eqn:Hp.
  - intros [= ->]. exists p. split; [left | now apply strip_prefix_Some].
  - intros (q & Hq & Hs)%IH. exists q. split; [now right | exact Hs].
Qed.

Lemma first_prefix_None (ps : list string) (s : string) :
  first_prefix ps s = None -> forall p rest, p ∈ ps -> s <> p +:+ rest.
Proof.
  induction ps as [|p ps IH]; cbn [first_prefix]; intros Hnone q rest Hq.
  - inversion Hq.
  - destruct (strip_prefix p s) as [r|] eqn:Hp; [discriminate|].
    apply elem_of_cons in Hq as [->|Hq].
    + intros Hs. apply strip_prefix_Some in Hs. congruence.
    + now apply IH.
Qed.

(** The table of [str.isspace] holds the UTF-8 encodings of the
    whitespace code points. *)
Lemma ISSPACE_utf8 : ISSPACE = utf8 <$> WHITESPACE.
Proof. reflexivity. Qed.

Lemma blank_ISSPACE (p : string) : blank p <-> p ∈ ISSPACE.
Proof.
  unfold blank. rewrite ISSPACE_utf8, list_elem_of_fmap.
  split; intros (cp & H1 & H2); eauto.
Qed.

Lemma blank_cons_char (p : string) : blank p -> exists c r, p = String c r.
Proof.
  intros Hp%blank_ISSPACE. apply list_elem_of_In in Hp.
  assert (forallb (fun p => match p with "" => false | _ => true end) ISSPACE
          = true) as Hall by (vm_compute; reflexivity).
  rewrite forallb_forall in Hall. apply Hall in Hp.
  destruct p as [|c r]; [discriminate|]. eauto.
Qed.

Lemma app_prefix_cases (p q x y : string) :
  p +:+ x = q +:+ y ->
  (exists z, strip_prefix p q = Some z) \/ (exists z, strip_prefix q p = Some z).
Proof.
  revert q. induction p as [|a p IH]; intros q Heq.
  - left. now exists q.
  - destruct q as [|b q]; [right; now eexists|].
    rewrite !app_cons in Heq. injection Heq as -> Heq.
    cbn [strip_prefix]. rewrite Ascii.eqb_refl. now apply IH.
Qed.

(** No whitespace character's encoding begins another's. *)
Lemma blank_prefix_free (p q x y : string) :
  blank p -> blank q -> p +:+ x = q +:+ y -> p = q.
Proof.
  intros Hp%blank_ISSPACE%list_elem_of_In Hq%blank_ISSPACE%list_elem_of_In Heq.
  assert (forallb (fun p =>
            forallb (fun q =>
              match strip_prefix p q with
              | Some (String _ _) => false
              | _ => true
              end) ISSPACE) ISSPACE = true) as Hall by (vm_compute; reflexivity).
  rewrite forallb_forall in Hall.
  pose proof (Hall p Hp) as Hpq. rewrite forallb_forall in Hpq.
  pose proof (Hall q Hq) as Hqp. rewrite forallb_forall in Hqp.
  specialize (Hpq q Hq). specialize (Hqp p Hp).
  destruct (app_prefix_cases p q x y Heq) as [[z Hz]|[z Hz]].
  - rewrite Hz in Hpq. destruct z; [|discriminate].
    apply strip_prefix_Some in Hz. now rewrite app_empty_r in Hz.
  - rewrite Hz in Hqp. destruct z; [|discriminate].
    apply strip_prefix_Some in Hz. now rewrite app_empty_r in Hz.
Qed.

Lemma drop_space_Some (s rest : string) :
  drop_space s = Some rest -> exists p, blank p /\ s = p +:+ rest.
Proof.
  intros (p & Hp & Hs)%first_prefix_Some. exists p.
  split; [now apply blank_ISSPACE | exact Hs].
Qed.

Lemma drop_space_None (s : string) : drop_space s = None -> ~ begins_blank s.
Proof.
  intros Hnone (p & rest & Hp & Hs).
  apply blank_ISSPACE in Hp.
  exact (first_prefix_None ISSPACE s Hnone p rest Hp Hs).
Qed.

Lemma drop_space_blank (p x : string) :
  blank p -> drop_space (p +:+ x) = Some x.
Proof.
  intros Hp. destruct (drop_space (p +:+ x)) as [rest|] eqn:Hdrop.
  - apply drop_space_Some in Hdrop as (q & Hq & Heq).
    pose proof (blank_prefix_free p q x rest Hp Hq Heq) as <-.
    now apply (inj (String.append p)) in Heq as ->.
  - apply drop_space_None in Hdrop. destruct Hdrop. now exists p, x.
Qed.

Lemma drop_space_shorter (s rest : string) :
  drop_space s = Some rest -> String.length rest < String.length s.
Proof.
  intros (p & Hp & ->)%drop_space_Some.
  apply blank_cons_char in Hp as (c & r & ->).
  rewrite length_app. cbn [String.length]. lia.
Qed.

Lemma lstrip_upto_stable (n : nat) :
  forall m s,
    String.length s <= n -> String.length s <= m ->
    lstrip_upto n s = lstrip_upto m s.
Proof.
  induction n as [|n IH]; intros m s Hn Hm.
  - destruct s; [|cbn in Hn; lia]. now destruct m.
  - destruct m as [|m]; [destruct s; [reflexivity | cbn in Hm; lia]|].
    cbn [lstrip_upto]. destruct (drop_space s) as [rest|] eqn:Hdrop; [|reflexivity].
    apply drop_space_shorter in Hdrop. apply IH; lia.
Qed.

Lemma lstrip_blank (p x : string) : blank p -> lstrip (p +:+ x) = lstrip x.
Proof.
  intros Hp. unfold lstrip.
  destruct (blank_cons_char p Hp) as (c & r & Hcr).
  assert (String.length (p +:+ x) = S (String.length (r +:+ x))) as ->
    by now rewrite Hcr.
  cbn [lstrip_upto]. rewrite drop_space_blank by exact Hp.
  apply lstrip_upto_stable; rewrite ?length_app; lia.
Qed.

Lemma lstrip_fixed (s : string) : drop_space s = None -> lstrip s = s.
Proof.
  intros Hnone. unfold lstrip.
  destruct (String.length s); cbn [lstrip_upto]; [reflexivity|].
  now rewrite Hnone.
Qed.

(** [lstrip] removes a run of whitespace, and what it leaves does not
    begin with whitespace. *)
Lemma lstrip_spec (s : string) :
  exists pre, s = pre +:+ lstrip s /\ blank_run pre /\ ~ begins_blank (lstrip s).
Proof.
  remember (String.length s) as n eqn:Hn. revert s Hn.
  induction (lt_wf n) as [n _ IH]. intros s ->.
  destruct (drop_space s) as [rest|] eqn:Hdrop.
  - pose proof (drop_space_shorter s rest Hdrop) as Hlt.
    apply drop_space_Some in Hdrop as (p & Hp & ->).
    destruct (IH _ Hlt rest eq_refl) as (pre & Hrest & Hrun & Hnot).
    rewrite lstrip_blank by exact Hp.
    exists (p +:+ pre). split; [|split].
    + rewrite string_app_assoc. now rewrite <- Hrest.
    + now constructor.
    + exact Hnot.
  - rewrite lstrip_fixed by exact Hdrop. exists "".
    split; [reflexivity|]. split; [constructor | now apply drop_space_None].
Qed.

Lemma lstrip_run (s : string) : blank_run s <-> lstrip s = "".
Proof.
  split.
  - induction 1 as [|p s Hp _ IH]; [reflexivity|]. now rewrite lstrip_blank.
  - intros Hempty. destruct (lstrip_spec s) as (pre & Hs & Hrun & _).
    rewrite Hempty, app_empty_r in Hs. now subst.
Qed.

Lemma blank_run_app (a b : string) :
  blank_run a -> blank_run b -> blank_run (a +:+ b).
Proof.
  induction 1 as [|p a Hp _ IH]; intros Hb; [exact Hb|].
  rewrite string_app_assoc. constructor; auto.
Qed.

Lemma rstrip_cons (c : ascii) (s : string) :
  rstrip (String c s) =
    if bool_decide (lstrip (String c s) = "") then "" else String c (rstrip s).
Proof. reflexivity. Qed.

(** [rstrip] removes a run of whitespace, and no end of what it leaves
    is, with that run, a run of whitespace. *)
Lemma rstrip_spec (s : string) :
  exists post,
    s = rstrip s +:+ post /\ blank_run post /\
    forall front tail,
      rstrip s = front +:+ tail -> tail <> "" -> ~ blank_run (tail +:+ post).
Proof.
  induction s as [|c s (post & Hs & Hrun & Hends)].
  - exists "". split; [reflexivity|]. split; [constructor|].
    intros [|a front] tail Heq Htail; [|discriminate].
    change ("" = tail) in Heq. congruence.
  - rewrite rstrip_cons. case_bool_decide as Hblank.
    + exists (String c s). split; [reflexivity|].
      split; [now apply lstrip_run|].
      intros [|a front] tail Heq Htail; [|discriminate].
      change ("" = tail) in Heq. congruence.
    + exists post. split; [|split].
      * rewrite app_cons. now rewrite <- Hs.
      * exact Hrun.
      * intros [|a front] tail Heq Htail.
        -- change (String c (rstrip s) = tail) in Heq. subst tail.
           rewrite app_cons, <- Hs. intros Hall. now apply lstrip_run in Hall.
        -- rewrite app_cons in Heq. injection Heq as -> Heq.
           now apply (Hends front tail).
Qed.

Lemma rstrip_ends (s : string) : ~ ends_blank (rstrip s).
Proof.
  intros (front & p & Hp & Heq).
  destruct (rstrip_spec s) as (post & _ & Hrun & Hends).
  apply (Hends front p Heq).
  - destruct (blank_cons_char p Hp) as (c & r & ->). discriminate.
  - now constructor.
Qed.

(** [strip] gives the string without its surrounding whitespace. *)
Lemma strip_trim (s : string) : trim_of s (strip s).
Proof.
  unfold strip.
  destruct (lstrip_spec s) as (pre & Hs & Hpre & Hbegin).
  destruct (rstrip_spec (lstrip s)) as (post & Hl & Hpost & _).
  exists pre, post. split; [|split; [|split; [|split]]].
  - now rewrite <- Hl.
  - exact Hpre.
  - exact Hpost.
  - intros (p & rest & Hp & Heq). apply Hbegin.
    exists p, (rest +:+ post). split; [exact Hp|].
    rewrite Hl at 1. rewrite Heq. apply string_app_assoc.
  - apply rstrip_ends.
Qed.

(** *** Trimming is [strip]

    The first byte of a whitespace character's encoding is no
    continuation byte, and every later byte is one.  So a run of
    whitespace is cut into its characters in one way only. *)

Lemma blank_lead (v : string) :
  blank v -> exists c r, v = String c r /\ is_continuation c = false.
Proof.
  intros Hv%blank_ISSPACE%list_elem_of_In.
  assert (forallb (fun p => match p with
                            | String c _ => negb (is_continuation c)
                            | "" => false
                            end) ISSPACE = true) as Hall
    by (vm_compute; reflexivity).
  rewrite forallb_forall in Hall. apply Hall in Hv.
  destruct v as [|c r]; [discriminate|].
  exists c, r. split; [reflexivity | now apply negb_true_iff].
Qed.

Lemma blank_tail (c : ascii) (r : string) :
  blank (String c r) -> string_forallb is_continuation r = true.
Proof.
  intros Hv%blank_ISSPACE%list_elem_of_In.
  assert (forallb (fun p => match p with
                            | String _ r => string_forallb is_continuation r
                            | "" => true
                            end) ISSPACE = true) as Hall
    by (vm_compute; reflexivity).
  rewrite forallb_forall in Hall. exact (Hall _ Hv).
Qed.

Lemma blank_run_lead (x : string) :
  blank_run x ->
  x = "" \/ exists c r, x = String c r /\ is_continuation c = false.
Proof.
  destruct 1 as [|p s Hp _]; [now left|]. right.
  destruct (blank_lead p Hp) as (c & r & -> & Hc).
  exists c, (r +:+ s). split; [reflexivity | exact Hc].
Qed.

(** A whitespace character cut in two, with whitespace behind the first
    part: impossible. *)
Lemma blank_not_cut (t z x post : string) :
  blank (t +:+ z) -> t <> "" -> z <> "" ->
  blank_run post -> post = z +:+ x -> False.
Proof.
  intros Hu Ht Hz Hpost Heq.
  destruct t as [|ct t]; [congruence|]. destruct z as [|cz z]; [congruence|].
  rewrite app_cons in Hu. apply blank_tail in Hu.
  rewrite string_forallb_app in Hu. apply andb_true_iff in Hu as [_ Hu].
  cbn [string_forallb] in Hu. apply andb_true_iff in Hu as [Hcz _].
  destruct (blank_run_lead post Hpost) as [->|(c & r & -> & Hc)].
  - discriminate.
  - rewrite app_cons in Heq. injection Heq as -> _. congruence.
Qed.

Lemma app_cases (p q x y : string) :
  p +:+ x = q +:+ y ->
  (exists z, q = p +:+ z /\ x = z +:+ y) \/
  (exists z, p = q +:+ z /\ y = z +:+ x).
Proof.
  intros Heq.
  destruct (app_prefix_cases p q x y Heq) as [[z Hz]|[z Hz]];
    apply strip_prefix_Some in Hz; subst; [left|right]; exists z;
    (split; [reflexivity|]);
    rewrite string_app_assoc in Heq;
    [apply (inj (String.append p)) in Heq
    |apply (inj (String.append q)) in Heq]; congruence.
Qed.

Lemma blank_run_cancel (x : string) :
  blank_run x ->
  forall t post, x = t +:+ post -> blank_run post -> blank_run t.
Proof.
  induction 1 as [|u x' Hu Hx' IH]; intros t post Heq Hpost.
  - destruct t; [constructor | discriminate].
  - destruct (app_cases u t x' post Heq) as [(z & -> & Hx)|(z & -> & Hp)].
    + constructor; [exact Hu|]. now apply (IH z post).
    + destruct t as [|ct t]; [constructor|].
      destruct z as [|cz z].
      * rewrite app_empty_r in Hu.
        rewrite <- (app_empty_r (String ct t)). constructor; [exact Hu|constructor].
      * destruct (blank_not_cut (String ct t) (String cz z) x' post);
          [exact Hu | discriminate | discriminate | exact Hpost | exact Hp].
Qed.

Lemma blank_run_ends (x : string) : blank_run x -> x = "" \/ ends_blank x.
Proof.
  induction 1 as [|p s Hp _ [->|(front & q & Hq & ->)]]; [now left| |]; right.
  - exists "", p. split; [exact Hp | now rewrite app_empty_r].
  - exists (p +:+ front), q. split; [exact Hq|].
    now rewrite string_app_assoc.
Qed.

Lemma lstrip_run_app (pre x : string) :
  blank_run pre -> lstrip (pre +:+ x) = lstrip x.
Proof.
  induction 1 as [|p s Hp _ IH]; [reflexivity|].
  now rewrite string_app_assoc, lstrip_blank.
Qed.

Lemma lstrip_core (x : string) : ~ begins_blank x -> lstrip x = x.
Proof.
  intros Hx. apply lstrip_fixed.
  destruct (drop_space x) as [rest|] eqn:Hdrop; [|reflexivity].
  apply drop_space_Some in Hdrop as (p & Hp & ->).
  destruct Hx. now exists p, rest.
Qed.

Lemma rstrip_run (post : string) : blank_run post -> rstrip post = "".
Proof.
  intros Hpost. destruct post as [|c post]; [reflexivity|].
  rewrite rstrip_cons. apply lstrip_run in Hpost.
  now rewrite bool_decide_eq_true_2.
Qed.

Lemma rstrip_core (t post : string) :
  blank_run post -> ~ ends_blank t -> rstrip (t +:+ post) = t.
Proof.
  intros Hpost. induction t as [|c t IH]; intros Hends.
  - now apply rstrip_run.
  - rewrite app_cons, rstrip_cons, <- app_cons.
    rewrite bool_decide_eq_false_2.
    + f_equal. apply IH. intros (front & p & Hp & ->).
      apply Hends. now exists (String c front), p.
    + intros Hrun%lstrip_run.
      pose proof (blank_run_cancel _ Hrun (String c t) post eq_refl Hpost) as Ht.
      destruct (blank_run_ends _ Ht) as [|]; [discriminate | contradiction].
Qed.

Lemma begins_blank_core (t post : string) :
  t <> "" -> ~ begins_blank t -> blank_run post -> ~ begins_blank (t +:+ post).
Proof.
  intros Ht Hbegin Hpost (u & rest & Hu & Heq).
  destruct (app_cases t u post rest Heq) as [(z & -> & Hp)|(z & -> & _)].
  - destruct z as [|cz z].
    + apply Hbegin. exists t, "". rewrite app_empty_r in Hu.
      split; [exact Hu | now rewrite app_empty_r].
    + destruct (blank_not_cut t (String cz z) rest post);
        [exact Hu | exact Ht | discriminate | exact Hpost | exact Hp].
  - apply Hbegin. now exists u, z.
Qed.

(** The string that [trim_of] describes is the one [strip] returns. *)
Lemma trim_of_strip (s t : string) : trim_of s t <-> t = strip s.
Proof.
  split; [|intros ->; apply strip_trim].
  intros (pre & post & -> & Hpre & Hpost & Hbegin & Hends).
  unfold strip. rewrite lstrip_run_app by exact Hpre.
  destruct t as [|c t].
  - change ("" +:+ post) with post.
    apply lstrip_run in Hpost. now rewrite Hpost.
  - rewrite lstrip_core by (apply begins_blank_core; [discriminate|auto..]).
    symmetry. now apply rstrip_core.
Qed.

(** *** Surrogates *)

Lemma has_surrogate_cons (c : ascii) (s : string) :
  has_surrogate (String c s) =
    match s with
    | "" => false
    | String c' _ =>
        ((byte_code c =? 237) && (160 <=? byte_code c')
         && (byte_code c' <=? 191))%nat
        || has_surrogate s
    end.
Proof. now destruct s. Qed.

(** A string without the byte [ED] in front of [b] adds no surrogate. *)
Lemma has_surrogate_app_l (a b : string) :
  string_forallb (fun c => negb (byte_code c =? 237)%nat) a = true ->
  has_surrogate (a +:+ b) = has_surrogate b.
Proof.
  induction a as [|c a IH]; [reflexivity|]. cbn [string_forallb].
  intros [Hc Ha]%andb_true_iff. rewrite app_cons, has_surrogate_cons.
  specialize (IH Ha). apply negb_true_iff in Hc. rewrite Hc. cbn [andb orb].
  destruct (a +:+ b); exact IH.
Qed.

(** A string [b] without surrogate that does not begin with a byte from
    [A0] to [BF] adds no surrogate behind [a]. *)
Lemma has_surrogate_app_r (a b : string) :
  has_surrogate b = false ->
  match b with
  | String c _ => ((160 <=? byte_code c) && (byte_code c <=? 191))%nat = false
  | "" => True
  end ->
  has_surrogate (a +:+ b) = has_surrogate a.
Proof.
  intros Hb Hfirst. induction a as [|c a IH]; [exact Hb|].
  rewrite app_cons, (has_surrogate_cons c (a +:+ b)), (has_surrogate_cons c a).
  destruct a as [|c' a].
  - change ("" +:+ b) with b. destruct b as [|c' b]; [reflexivity|].
    rewrite Hb, <- andb_assoc, Hfirst, andb_false_r. reflexivity.
  - rewrite app_cons. rewrite app_cons in IH. now rewrite IH.
Qed.

Lemma unescapable_surrogate (s : string) :
  has_surrogate s = false -> has_unescapable_surrogate s = false.
Proof.
  induction s as [|c s IH]; [reflexivity|].
  destruct s as [|c' s]; [reflexivity|].
  rewrite has_surrogate_cons. intros [Hc Hs]%orb_false_iff.
  change (has_unescapable_surrogate (String c (String c' s)))
    with (((byte_code c =? 237) && (160 <=? byte_code c')
           && (byte_code c' <=? 191)
           && negb ((byte_code c' =? 178) || (byte_code c' =? 179)))%nat
          || has_unescapable_surrogate (String c' s)).
  now rewrite Hc, IH.
Qed.

Lemma has_nul_app (a b : string) : has_nul (a +:+ b) = has_nul a || has_nul b.
Proof.
  induction a as [|c a IH]; [reflexivity|].
  rewrite app_cons. cbn [has_nul]. now rewrite IH, orb_assoc.
Qed.

Lemma number_no_lead (s : string) :
  string_forallb is_number_char s = true ->
  string_forallb (fun c => negb (byte_code c =? 237)%nat) s = true.
Proof.
  apply string_forallb_impl. intros c Hc.
  unfold is_number_char in Hc. apply bool_decide_eq_true in Hc.
  cbn [String.list_ascii_of_string] in Hc.
  repeat (apply elem_of_cons in Hc as [->|Hc]; [reflexivity|]).
  inversion Hc.
Qed.

(** The line [fetch_one] prints has a surrogate only when the output name
    has one. *)
Lemma saved_line (name : string) (n : Z) :
  has_surrogate ("Saved " +:+ name +:+ ": " +:+ str n +:+ " rows")
    = has_surrogate name.
Proof.
  rewrite has_surrogate_app_l by reflexivity.
  apply has_surrogate_app_r; [|reflexivity].
  rewrite has_surrogate_app_l by reflexivity.
  rewrite has_surrogate_app_l; [reflexivity|].
  apply number_no_lead, str_number.
Qed.

(** Likewise the line the scraper prints. *)
Lemma fetching_line (name : string) :
  has_surrogate ("Fetching " +:+ name +:+ "…") = has_surrogate name.
Proof.
  rewrite has_surrogate_app_l by reflexivity.
  apply has_surrogate_app_r; reflexivity.
Qed.

(** *** Paths *)

Lemma split_slash_plain (s : string) :
  char_free SLASH s = true -> split_slash s = [s].
Proof.
  induction s as [|c s IH]; [reflexivity|].
  unfold char_free. cbn [string_forallb]. intros [Hc Hs]%andb_true_iff.
  cbn [split_slash]. apply negb_true_iff in Hc. rewrite Hc.
  now rewrite IH.
Qed.

Lemma path_root_plain (c : ascii) (s : string) :
  c <> SLASH -> path_root (String c s) = "".
Proof.
  intros Hc. destruct c as [[] [] [] [] [] [] [] []]; try reflexivity.
  now destruct Hc.
Qed.

(** For a plain output name the [pathlib] join is the concatenation. *)
Lemma path_join_plain (name : string) :
  plain_name name = true ->
  path_join "data/fa" (name +:+ ".json") = job_path name.
Proof.
  unfold plain_name. intros [[Hslash _]%andb_true_iff _]%andb_true_iff.
  assert (char_free SLASH (name +:+ ".json") = true) as Hfree.
  { unfold char_free in *. now rewrite string_forallb_app, Hslash. }
  unfold path_join.
  assert (path_root (name +:+ ".json") = "") as ->.
  { destruct name as [|c name]; [reflexivity|].
    rewrite app_cons. apply path_root_plain. intros ->.
    unfold char_free in Hslash. cbn [string_forallb] in Hslash.
    rewrite Ascii.eqb_refl in Hslash. discriminate. }
  unfold path_parts at 2. rewrite split_slash_plain by exact Hfree.
  rewrite filter_cons_True, filter_nil; [reflexivity|].
  split.
  - destruct name; discriminate.
  - intros Heq. apply (f_equal String.length) in Heq.
    rewrite length_app in Heq. cbn in Heq. lia.
Qed.

Lemma job_path_openable (name : string) :
  plain_name name = true ->
  has_nul (job_path name) = false /\
  has_unescapable_surrogate (job_path name) = false.
Proof.
  unfold plain_name.
  intros [[_ Hnul%negb_true_iff]%andb_true_iff Hsur%negb_true_iff]%andb_true_iff.
  unfold job_path. split.
  - rewrite !has_nul_app, Hnul. reflexivity.
  - apply unescapable_surrogate.
    rewrite !has_surrogate_app_l by reflexivity.
    rewrite has_surrogate_app_r; [exact Hsur | reflexivity | reflexivity].
Qed.

(** *** Documents *)

Lemma json_size_dict (m : gmap string json) (k : string) (v : json) :
  m !! k = Some v -> json_size v < json_size (JDict m).
Proof.
  change (json_size (JDict m))
    with (S (map_fold (fun _ v n => json_size v + n) 0 m)).
  revert k v.
  apply (map_fold_weak_ind
           (fun r (m : gmap string json) =>
              forall k v, m !! k = Some v -> json_size v < S r)).
  - intros k v Hkv. rewrite lookup_empty in Hkv. discriminate.
  - intros i x m' r Hi IH k v Hkv. destruct (decide (k = i)) as [->|Hne].
    + rewrite lookup_insert_eq in Hkv. injection Hkv as ->. lia.
    + rewrite lookup_insert_ne in Hkv by done. specialize (IH k v Hkv). lia.
Qed.

Lemma json_size_list (l : list json) (v : json) :
  v ∈ l -> json_size v < json_size (JList l).
Proof.
  change (json_size (JList l))
    with (S (foldr (fun v n => json_size v + n) 0 l)).
  induction 1 as [v l|v u l _ IH]; cbn [foldr]; lia.
Qed.

(** Induction on documents. *)
Lemma json_induction (P : json -> Prop) :
  P JNull ->
  (forall b, P (JBool b)) ->
  (forall z, P (JInt z)) ->
  (forall f, P (JFloat f)) ->
  (forall s, P (JStr s)) ->
  (forall l, Forall P l -> P (JList l)) ->
  (forall m, (forall k v, m !! k = Some v -> P v) -> P (JDict m)) ->
  forall doc, P doc.
Proof.
  intros Hnull Hbool Hint Hfloat Hstr Hlist Hdict doc.
  remember (json_size doc) as n eqn:Hn. revert doc Hn.
  induction (lt_wf n) as [n _ IH]. intros doc ->.
  destruct doc as [| | | | |l|m]; auto.
  - apply Hlist, Forall_forall. intros v Hv.
    exact (IH _ (json_size_list l v Hv) v eq_refl).
  - apply Hdict. intros k v Hkv.
    exact (IH _ (json_size_dict m k v Hkv) v eq_refl).
Qed.

Lemma json_encodable_dict (m : gmap string json) :
  json_encodable (JDict m) = true <->
  forall k v, m !! k = Some v ->
    has_surrogate k = false /\ json_encodable v = true.
Proof.
  change (json_encodable (JDict m))
    with (map_fold (fun k v ok =>
                      negb (has_surrogate k) && json_encodable v && ok) true m).
  apply (map_fold_weak_ind
           (fun r (m : gmap string json) =>
              r = true <->
              forall k v, m !! k = Some v ->
                has_surrogate k = false /\ json_encodable v = true)).
  - split; [|reflexivity]. intros _ k v Hkv.
    rewrite lookup_empty in Hkv. discriminate.
  - intros i x m' r Hi IH. rewrite !andb_true_iff, negb_true_iff, IH. split.
    + intros [[Hk Hx] Hrest] k v Hkv. destruct (decide (k = i)) as [->|Hne].
      * rewrite lookup_insert_eq in Hkv. injection Hkv as <-. auto.
      * rewrite lookup_insert_ne in Hkv by done. auto.
    + intros Hall. split.
      * apply (Hall i x), lookup_insert_eq.
      * intros k v Hkv. apply Hall.
        rewrite lookup_insert_ne; [exact Hkv|]. intros ->. congruence.
Qed.

(** [json.dumps] and the UTF-8 encoder accept exactly the documents
    without surrogate. *)
Lemma json_encodable_text (doc : json) :
  json_encodable doc = true <-> utf8_text doc.
Proof.
  induction doc as [|b|z|f|s|l IH|m IH] using json_induction;
    try (split; [constructor | reflexivity]).
  - cbn [json_encodable]. rewrite negb_true_iff.
    split; [now constructor | now inversion 1].
  - change (json_encodable (JList l)) with (forallb json_encodable l).
    rewrite forallb_forall. setoid_rewrite <- list_elem_of_In.
    rewrite Forall_forall in IH. split.
    + intros Hall. constructor. apply Forall_forall.
      intros v Hv. apply IH; auto.
    + inversion 1 as [| | | | |l' Hl|]; subst.
      rewrite Forall_forall in Hl. intros v Hv. apply IH; auto.
  - rewrite json_encodable_dict. split.
    + intros Hall. constructor. intros k v Hkv.
      destruct (Hall k v Hkv). split; [assumption|]. now apply (IH k v).
    + inversion 1 as [| | | | | |m' Hm]; subst. intros k v Hkv.
      destruct (Hm k v Hkv). split; [assumption|]. now apply (IH k v).
Qed.

(** *** Files *)

(** [write_json] on the file of a plain output name that is not locked:
    the document is written when it has a UTF-8 text, and the file is left
    empty with a [UnicodeEncodeError] otherwise. *)
Lemma write_json_plain (name : string) (doc : json) (w : world) :
  plain_name name = true ->
  (forall e, files w !! job_path name <> Some (Locked e)) ->
  write_json (job_path name) doc w =
    if json_encodable doc
    then (Ok tt, store (job_path name) (Document doc) w)
    else (Raise UnicodeEncodeError, store (job_path name) Truncated w).
Proof.
  intros [Hnul Hsur]%job_path_openable Hfree. unfold write_json.
  rewrite Hnul, Hsur.
  destruct (files w !! job_path name) as [[| |e]|] eqn:Hfile;
    try reflexivity.
  now destruct (Hfree e).
Qed.

End Text.

(** ** Properties of the JSON normalizer *)

Module Normalize.
Import Py Structured Spec.

Lemma normalize_fallback_first (m : gmap string json) (keys : list string) :
  normalize_fallback (JDict m) keys
    = Ok (keep_dicts (default [] (first_sequence m keys))).
Proof.
  induction keys as [|key keys IH]; [reflexivity|].
  cbn [normalize_fallback first_sequence dict_get].
  destruct (m !! key) as [[]|]; cbn [default]; first [exact IH | reflexivity].
Qed.

(** [normalize] on a mapping computes what the design document describes. *)
Lemma normalize_refines (m : gmap string json) :
  normalize (JDict m)
    = Ok (keep_dicts (default [] (first_sequence m CANDIDATE_KEYS))).
Proof.
  unfold normalize, CANDIDATE_KEYS. cbn [first_sequence dict_get].
  destruct (m !! "data") as [[]|]; cbn [default];
    first [apply normalize_fallback_first | reflexivity].
Qed.

Lemma first_sequence_at (m : gmap string json) (keys : list string) :
  forall (i : nat) (key : string) (v : list json),
    keys !! i = Some key ->
    m !! key = Some (JList v) ->
    (forall j key', j < i -> keys !! j = Some key' ->
       holds_sequence m key' = false) ->
    first_sequence m keys = Some v.
Proof.
  induction keys as [|k keys IH]; intros i key v Hi Hv Hbefore; [discriminate|].
  cbn [first_sequence]. destruct i as [|i].
  - injection Hi as ->. now rewrite Hv.
  - assert (holds_sequence m k = false) as Hk
      by (apply (Hbefore 0 k); [lia | reflexivity]).
    unfold holds_sequence in Hk.
    destruct (m !! k) as [[]|]; try discriminate;
      (apply (IH i key v); [exact Hi | exact Hv |];
       intros j key' Hj Hkey'; apply (Hbefore (S j) key'); [lia | exact Hkey']).
Qed.

Lemma first_sequence_none (m : gmap string json) (keys : list string) :
  (forall key, key ∈ keys -> holds_sequence m key = false) ->
  first_sequence m keys = None.
Proof.
  induction keys as [|k keys IH]; intros Hnone; [reflexivity|].
  cbn [first_sequence].
  assert (holds_sequence m k = false) as Hk by (apply Hnone; left).
  unfold holds_sequence in Hk.
  destruct (m !! k) as [[]|]; try discriminate;
    (apply IH; intros key Hkey; apply Hnone; now right).
Qed.

Lemma keep_dicts_objects (v : list json) : Forall is_object (keep_dicts v).
Proof.
  apply Forall_forall. intros r Hr.
  apply list_elem_of_filter in Hr as [Hdict _].
  destruct r; try discriminate. now eexists.
Qed.

(** C3. A payload mapping in which [key] is the first of "data", "rows",
    "result", "results" to hold a sequence: [normalize] returns the
    elements of that sequence that are mappings, and nothing from any
    other key.  The rows keep the order they have in the sequence, and an
    element is a row exactly when it is in the sequence and is a
    mapping. *)
Theorem normalize_first_candidate
    (m : gmap string json) (i : nat) (key : string) (v : list json) :
  CANDIDATE_KEYS !! i = Some key ->
  m !! key = Some (JList v) ->
  (forall j key', j < i -> CANDIDATE_KEYS !! j = Some key' ->
     holds_sequence m key' = false) ->
  exists rows,
    normalize (JDict m) = Ok rows /\
    rows = filter (fun r => isinstance_dict r = true) v /\
    sublist rows v /\
    (forall r, r ∈ rows <-> r ∈ v /\ isinstance_dict r = true).
Proof.
  intros Hi Hv Hbefore. exists (keep_dicts v).
  split; [|split; [reflexivity|split]].
  - rewrite normalize_refines.
    now rewrite (first_sequence_at m CANDIDATE_KEYS i key v).
  - apply sublist_filter.
  - intros r. rewrite list_elem_of_filter. tauto.
Qed.

(** "result" wins over "results" when "data" holds a string and "rows" is
    absent; the integer and the nested list are dropped. *)
Lemma normalize_first_candidate_mixed :
  normalize (JDict Samples.mixed_payload)
    = Ok [Samples.row "Ott" 3; Samples.row "Pena" 7].
Proof.
  destruct (normalize_first_candidate Samples.mixed_payload 2 "result"
              [Samples.row "Ott" 3; JInt 5; JList []; Samples.row "Pena" 7])
    as (rows & Hrows & -> & _).
  - reflexivity.
  - vm_compute. reflexivity.
  - intros j key' Hj Hkey'.
    destruct j as [|[|j]]; [| |lia]; injection Hkey' as <-; vm_compute; reflexivity.
  - exact Hrows.
Defined.

(** C4. A payload mapping in which none of the candidate keys holds a
    sequence: [normalize] returns the empty list and does not raise. *)
Theorem normalize_no_candidate (m : gmap string json) :
  (forall key, key ∈ CANDIDATE_KEYS -> holds_sequence m key = false) ->
  normalize (JDict m) = Ok [].
Proof.
  intros Hnone. rewrite normalize_refines.
  now rewrite first_sequence_none.
Qed.

Lemma normalize_no_candidate_drifted :
  normalize (JDict Samples.drifted_payload) = Ok [].
Proof.
  apply normalize_no_candidate.
  intros key Hkey. unfold CANDIDATE_KEYS in Hkey.
  repeat (apply elem_of_cons in Hkey as [->|Hkey]; [vm_compute; reflexivity|]).
  inversion Hkey.
Defined.

Lemma save_json_plain (name : string) (rows : list json) (w : world) :
  plain_name name = true ->
  (forall e, files w !! job_path name <> Some (Locked e)) ->
  save_json name rows w =
    if json_encodable (JList rows)
    then (Ok tt, store (job_path name) (Document (JList rows)) w)
    else (Raise UnicodeEncodeError, store (job_path name) Truncated w).
Proof.
  intros Hname Hfree. unfold save_json, OUT_DIR.
  rewrite Text.path_join_plain by exact Hname.
  now apply Text.write_json_plain.
Qed.

Lemma rows_text (rows : list json) :
  json_encodable (JList rows) = true <-> Forall utf8_text rows.
Proof.
  rewrite Text.json_encodable_text.
  split; [now inversion 1 | now constructor].
Qed.


(** C10 as stated fails twice.  A payload that is an array is not a
    mapping: [normalize] raises [AttributeError] and returns no list.  And
    a payload whose rows carry a lone surrogate is normalized to a list of
    mappings that the persister cannot serialize: [save_json] raises
    [UnicodeEncodeError] and leaves the file empty. *)
Lemma normalize_array_payload :
  normalize (JList [Samples.row "Ott" 3]) = Raise (AttributeError "get") /\
  normalize Samples.broken_payload = Ok [Samples.broken_row] /\
  save_json "sp_pit_all" [Samples.broken_row] empty_world
    = (Raise UnicodeEncodeError,
       {| trace := []; files := {["data/fa/sp_pit_all.json" := Truncated]} |}).
Proof.
  split; [reflexivity|]. split.
  - vm_compute. reflexivity.
  - rewrite save_json_plain; [|reflexivity|intros e; vm_compute; discriminate].
    vm_compute. reflexivity.
Qed.

(** C10, amended.  A payload that is a mapping: [normalize] returns a
    list, and every element of it is a JSON object, whose keys are
    strings.  A payload of another shape: [normalize] raises
    [AttributeError].  The list that [normalize] returned, saved under a
    plain output name whose file is not locked: when no string of the rows
    holds a surrogate, the file holds the array of these objects; when one
    does, [save_json] raises [UnicodeEncodeError] and the file is left
    empty. *)
Theorem normalize_rows_are_mappings (payload : json) :
  match payload with
  | JDict m =>
      exists rows, normalize payload = Ok rows /\ Forall is_object rows
  | _ => normalize payload = Raise (AttributeError "get")
  end /\
  forall rows name w,
    normalize payload = Ok rows ->
    plain_name name = true ->
    (forall e, files w !! job_path name <> Some (Locked e)) ->
    (Forall utf8_text rows ->
     (save_json name rows w).1 = Ok tt /\
     files (save_json name rows w).2
       = <[job_path name := Document (JList rows)]> (files w)) /\
    (~ Forall utf8_text rows ->
     (save_json name rows w).1 = Raise UnicodeEncodeError /\
     files (save_json name rows w).2
       = <[job_path name := Truncated]> (files w)).
Proof.
  split.
  - destruct payload as [| | | | | |m]; try reflexivity.
    rewrite normalize_refines. eexists. split; [reflexivity|].
    apply keep_dicts_objects.
  - intros rows name w _ Hname Hfree.
    rewrite save_json_plain by assumption.
    destruct (json_encodable (JList rows)) eqn:Henc.
    + split; [split; reflexivity|]. intros Hnot. destruct Hnot.
      now apply rows_text.
    + split; [|split; reflexivity]. intros Htext%rows_text. congruence.
Qed.

(** A payload with a row whose name ends in a lone surrogate: the row is
    a mapping and is kept, and saving it raises and leaves the file
    empty. *)
Lemma normalize_rows_are_mappings_broken :
  (exists rows,
     normalize Samples.broken_payload = Ok rows /\ Forall is_object rows) /\
  (save_json "sp_pit_all" [Samples.broken_row] empty_world).1
    = Raise UnicodeEncodeError /\
  files (save_json "sp_pit_all" [Samples.broken_row] empty_world).2
    = {["data/fa/sp_pit_all.json" := Truncated]}.
Proof.
  destruct (normalize_rows_are_mappings Samples.broken_payload)
    as [Hrows Hsave].
  split; [exact Hrows|].
  destruct (Hsave [Samples.broken_row] "sp_pit_all" empty_world)
    as [_ Hbroken].
  - vm_compute. reflexivity.
  - reflexivity.
  - intros e. vm_compute. discriminate.
  - apply Hbroken. intros Htext%rows_text. vm_compute in Htext. discriminate.
Defined.

End Normalize.

(** ** Properties of the HTML scraper *)

Module Scrape.
Import Py Html Spec.

Section InsertFold.

Context {L : Type} `{Countable L}.
Variable value : L * list cell -> cell.

Lemma fill_dom (cols : list (L * list cell)) :
  forall acc : gmap L cell,
    dom (foldl (fun rec col => <[col.1 := value col]> rec) acc cols)
      = dom acc ∪ list_to_set (map fst cols).
Proof.
  induction cols as [|col cols IH]; intros acc; cbn [foldl map list_to_set].
  - set_solver.
  - rewrite IH, dom_insert_L. set_solver.
Qed.

Lemma fill_lookup_other (cols : list (L * list cell)) (k : L) :
  forall acc : gmap L cell,
    k ∉ map fst cols ->
    foldl (fun rec col => <[col.1 := value col]> rec) acc cols !! k = acc !! k.
Proof.
  induction cols as [|col cols IH]; intros acc Hk; cbn [foldl]; [reflexivity|].
  cbn [map] in Hk. apply not_elem_of_cons in Hk as [Hne Hk].
  rewrite IH by exact Hk. now apply lookup_insert_ne.
Qed.

Lemma fill_lookup_Some (cols : list (L * list cell)) (k : L) (v : cell) :
  forall acc : gmap L cell,
    foldl (fun rec col => <[col.1 := value col]> rec) acc cols !! k = Some v ->
    (exists col, col ∈ cols /\ col.1 = k /\ v = value col) \/ acc !! k = Some v.
Proof.
  induction cols as [|col cols IH]; intros acc; cbn [foldl]; [now right|].
  intros [(c & Hc & Hk & Hv)|Hacc]%IH.
  - left. exists c. split; [now right | auto].
  - destruct (decide (col.1 = k)) as [Heq|Hne].
    + rewrite <- Heq, lookup_insert_eq in Hacc. injection Hacc as <-.
      left. exists col. split; [left | auto].
    + rewrite lookup_insert_ne in Hacc by exact Hne. now right.
Qed.

Lemma fill_lookup (cols : list (L * list cell)) (col : L * list cell) :
  forall acc : gmap L cell,
    NoDup (map fst cols) -> col ∈ cols ->
    foldl (fun rec col => <[col.1 := value col]> rec) acc cols !! col.1
      = Some (value col).
Proof.
  induction cols as [|c cols IH]; intros acc Hnd Hin; [inversion Hin|].
  cbn [map] in Hnd. apply NoDup_cons in Hnd as [Hfresh Hnd].
  cbn [foldl]. apply elem_of_cons in Hin as [->|Hin].
  - rewrite fill_lookup_other by exact Hfresh. apply lookup_insert_eq.
  - now apply IH.
Qed.

End InsertFold.

Lemma forallb_false {A} (f : A -> bool) (l : list A) :
  forallb f l = false <-> exists x, x ∈ l /\ f x = false.
Proof.
  induction l as [|a l IH]; cbn [forallb].
  - split; [discriminate | intros (x & Hx & _); inversion Hx].
  - rewrite andb_false_iff, IH. split.
    + intros [Ha|(x & Hx & Hf)]; [exists a | exists x]; split; auto; now constructor.
    + intros (x & [->|Hx]%elem_of_cons & Hf); [now left | right; eauto].
Qed.

Lemma isna_value (c : cell) : isna c = false <-> is_value c.
Proof.
  destruct c as [|s|z|f]; cbn [isna is_value];
    first [tauto | split; [discriminate | contradiction] | reflexivity].
Qed.

(** [dropna] keeps the columns that have a value in some row. *)
Lemma all_na_value (rows : nat) (col : label * list cell) :
  all_na rows col = false <-> has_value rows col.
Proof.
  unfold all_na, has_value. rewrite forallb_false. split.
  - intros (i & [_ Hi]%elem_of_seq & Hna). unfold cell_at in Hna.
    destruct (col.2 !! i) as [c|] eqn:Hc; [|discriminate].
    exists i, c. split; [lia|]. split; [exact Hc | now apply isna_value].
  - intros (i & c & Hi & Hc & Hv). exists i.
    split; [apply elem_of_seq; lia|].
    unfold cell_at. rewrite Hc. now apply isna_value.
Qed.

Lemma kept_columns (df : DataFrame label) (col : label * list cell) :
  col ∈ columns (dropna_columns df)
  <-> col ∈ columns df /\ has_value (index df) col.
Proof.
  unfold dropna_columns. cbn [columns].
  rewrite list_elem_of_filter, all_na_value. tauto.
Qed.

Lemma label_str_text (c : label) : label_str c = label_text c.
Proof. now destruct c. Qed.

(** The relabelling gives each kept column its header. *)
Lemma header_strip (col : label * list cell) (key : string) :
  header col key <-> key = strip (label_str col.1).
Proof.
  unfold header. rewrite Text.trim_of_strip.
  now destruct col as [[] cells].
Qed.

Lemma relabelled_columns (df : DataFrame label) (c : string * list cell) :
  c ∈ columns (strip_columns (dropna_columns df)) <->
  exists col,
    col ∈ columns df /\ has_value (index df) col /\ header col c.1 /\
    c.2 = col.2.
Proof.
  unfold strip_columns. cbn [columns]. change map with (@fmap list _).
  rewrite list_elem_of_fmap. split.
  - intros (col & -> & [Hcol Hv]%kept_columns). exists col.
    cbn [fst snd]. now rewrite header_strip.
  - intros (col & Hcol & Hv & Hh%header_strip & Hcells). exists col.
    split; [|now apply kept_columns].
    destruct c as [k cells]. cbn [fst snd] in *. congruence.
Qed.

Lemma table_records_lookup (df : DataFrame label) (i : nat)
    (rec : gmap string cell) :
  table_records df !! i = Some rec ->
  i < index df /\
  rec = row_record (strip_columns (dropna_columns df)) i.
Proof.
  unfold table_records, to_dict_records.
  destruct (columns (strip_columns (dropna_columns df))); [discriminate|].
  cbn [index strip_columns dropna_columns].
  intros Hi. change map with (@fmap list _) in Hi.
  apply list_lookup_fmap_Some in Hi as (j & -> & Hj).
  apply lookup_seq in Hj as [-> Hlt]. auto.
Qed.

(** A field of a record comes from a column with a value that carries
    this header, and holds the cell of that column. *)
Lemma record_field (df : DataFrame label) (i : nat) (key : string) (v : cell) :
  row_record (strip_columns (dropna_columns df)) i !! key = Some v ->
  exists col,
    col ∈ columns df /\ has_value (index df) col /\ header col key /\
    v = default NaN (col.2 !! i).
Proof.
  unfold row_record.
  intros [(c & Hc & <- & ->)|Hempty]%(fill_lookup_Some (fun c => cell_at c i)).
  - apply relabelled_columns in Hc as (col & Hcol & Hv & Hh & Hcells).
    exists col. unfold cell_at. now rewrite Hcells.
  - rewrite lookup_empty in Hempty. discriminate.
Qed.

(** Every column with a value gives a field under its header. *)
Lemma record_key (df : DataFrame label) (i : nat) (key : string)
    (col : label * list cell) :
  col ∈ columns df -> has_value (index df) col -> header col key ->
  is_Some (row_record (strip_columns (dropna_columns df)) i !! key).
Proof.
  intros Hcol Hv Hh. apply elem_of_dom. unfold row_record.
  rewrite fill_dom. apply elem_of_union_r, elem_of_list_to_set.
  change map with (@fmap list _). apply list_elem_of_fmap.
  exists (key, col.2). split; [reflexivity|].
  apply relabelled_columns. now exists col.
Qed.

(** C7 as stated fails on the count: a table of three data rows whose
    columns are all empty has no column left after the cleanup, and
    [to_dict] gives no record for a frame without columns. *)
Lemma table_records_blank_table :
  index Samples.blank_table = 3 /\
  table_records Samples.blank_table = [].
Proof. split; reflexivity. Qed.

(** C7, amended.  The records of a parsed table.  When some column has a
    value there is one record per data row; when every column is empty in
    every row there is no record at all.  In every record, a field is
    present exactly when it is the header, coerced to a string and
    stripped of surrounding whitespace, of a column that has a value in
    some row; so a column that is empty in every row contributes no
    field.  The value of a field is the cell, in the row of the record, of
    a column with a value that has this header, and of the only such
    column when there is only one. *)
Theorem table_records_fields (df : DataFrame label) :
  ((exists col, col ∈ columns df /\ has_value (index df) col) ->
   length (table_records df) = index df) /\
  ((forall col, col ∈ columns df -> ~ has_value (index df) col) ->
   table_records df = []) /\
  forall i rec,
    table_records df !! i = Some rec ->
    i < index df /\
    (forall key,
       is_Some (rec !! key) <->
       exists col,
         col ∈ columns df /\ has_value (index df) col /\ header col key) /\
    (forall key v,
       rec !! key = Some v ->
       exists col,
         col ∈ columns df /\ has_value (index df) col /\ header col key /\
         v = default NaN (col.2 !! i)) /\
    (forall col key,
       col ∈ columns df -> has_value (index df) col -> header col key ->
       (forall col',
          col' ∈ columns df -> has_value (index df) col' ->
          header col' key -> col' = col) ->
       rec !! key = Some (default NaN (col.2 !! i))).
Proof.
  split; [|split].
  - intros (col & Hcol & Hv).
    assert ((strip (label_str col.1), col.2)
              ∈ columns (strip_columns (dropna_columns df))) as Hin.
    { apply relabelled_columns. exists col. cbn [fst snd].
      now rewrite header_strip. }
    unfold table_records, to_dict_records.
    destruct (columns (strip_columns (dropna_columns df))); [inversion Hin|].
    cbn [index strip_columns dropna_columns].
    now rewrite length_map, length_seq.
  - intros Hnone. unfold table_records, to_dict_records.
    destruct (columns (strip_columns (dropna_columns df))) as [|c cols] eqn:Hcols;
      [reflexivity|].
    assert (c ∈ columns (strip_columns (dropna_columns df))) as Hc
      by (rewrite Hcols; left).
    apply relabelled_columns in Hc as (col & Hcol & Hv & _).
    now destruct (Hnone col Hcol).
  - intros i rec [Hi ->]%table_records_lookup.
    split; [exact Hi|]. split; [|split].
    + intros key. split.
      * intros [v (col & Hcol & Hv & Hh & _)%record_field]. now exists col.
      * intros (col & Hcol & Hv & Hh). now apply (record_key df i key col).
    + intros key v. apply record_field.
    + intros col key Hcol Hv Hh Honly.
      destruct (record_key df i key col Hcol Hv Hh) as [v Hkey].
      rewrite Hkey.
      apply record_field in Hkey as (col' & Hcol' & Hv' & Hh' & ->).
      now rewrite (Honly col' Hcol' Hv' Hh').
Qed.

(** Going through the columns of a concrete table: a column is ruled out
    because it has no value or because its header is another one. *)
Ltac each_column Hcol Hv Hh :=
  apply list_elem_of_In in Hcol; simpl in Hcol;
  repeat (destruct Hcol as [<-|Hcol];
          [first [ apply all_na_value in Hv; vm_compute in Hv; discriminate Hv
                 | apply header_strip in Hh; vm_compute in Hh; discriminate Hh
                 | reflexivity ]|]);
  destruct Hcol.

(** A table without a header row, whose third column is empty and whose
    fourth holds only floats that are not numbers: three records, none
    with the fields "2" and "ERA"; the header wrapped in an em space and a
    no-break space gives the field "WAR"; and the last record holds the
    only value of the second column. *)
Lemma table_records_fields_roster :
  length (table_records Samples.roster) = 3 /\
  Forall (fun rec : gmap string cell =>
            rec !! "2" = None /\ rec !! "ERA" = None /\
            is_Some (rec !! "0") /\ is_Some (rec !! "WAR"))
    (table_records Samples.roster) /\
  exists rec,
    table_records Samples.roster !! 2 = Some rec /\
    rec !! "1" = Some (CInt 7).
Proof.
  destruct (table_records_fields Samples.roster) as (Hlen & _ & Hrec).
  assert (length (table_records Samples.roster) = 3) as Hthree.
  { apply Hlen. exists (LInt 0, [CStr "Ott"; CStr "Pena"; CStr "Ruiz"]).
    split; [apply list_elem_of_In; simpl; auto|].
    exists 0, (CStr "Ott"). split; [cbn; lia|]. split; [reflexivity | exact I]. }
  split; [exact Hthree|]. split.
  - apply Forall_lookup. intros i rec Hi.
    destruct (Hrec i rec Hi) as (_ & Hkeys & Hfield & _).
    split; [|split; [|split]].
    + destruct (rec !! "2") as [v|] eqn:Hv2; [|reflexivity].
      apply Hfield in Hv2 as (col & Hcol & Hv & Hh & _).
      each_column Hcol Hv Hh.
    + destruct (rec !! "ERA") as [v|] eqn:Hera; [|reflexivity].
      apply Hfield in Hera as (col & Hcol & Hv & Hh & _).
      each_column Hcol Hv Hh.
    + apply Hkeys. exists (LInt 0, [CStr "Ott"; CStr "Pena"; CStr "Ruiz"]).
      split; [apply list_elem_of_In; simpl; auto|]. split.
      * exists 0, (CStr "Ott").
        split; [cbn; lia|]. split; [reflexivity | exact I].
      * apply header_strip. vm_compute. reflexivity.
    + apply Hkeys.
      exists (LStr (of_bytes [226; 128; 131; 87; 65; 82; 194; 160]),
              [CFloat 1.5; NaN; NaN]).
      split; [apply list_elem_of_In; simpl; auto 10|]. split.
      * exists 0, (CFloat 1.5).
        split; [cbn; lia|]. split; reflexivity.
      * apply header_strip. vm_compute. reflexivity.
  - destruct (lookup_lt_is_Some_2 (table_records Samples.roster) 2)
      as [rec Hrec2]; [rewrite Hthree; lia|].
    exists rec. split; [exact Hrec2|].
    destruct (Hrec 2 rec Hrec2) as (_ & _ & _ & Honly).
    apply (Honly (LInt 1, [NaN; NaN; CInt 7]) "1").
    + apply list_elem_of_In. simpl. auto.
    + exists 2, (CInt 7). split; [cbn; lia|]. split; [reflexivity | exact I].
    + apply header_strip. vm_compute. reflexivity.
    + intros col Hcol Hv Hh. each_column Hcol Hv Hh.
Defined.

Section Fetch.

Variable transport : nat -> outcome response.
Variable read_html : string -> outcome (list (DataFrame label)).

(** [scrape_table] issues its request and then either raises what the
    request, the status check or the parser raised, or returns the records
    of the first table, or the empty list when the parser returned no
    table. *)
Lemma scrape_table_run (url : string) (w : world) :
  scrape_table transport read_html url w =
    (match transport (requests_made w) with
     | Raise e => Raise e
     | Ok r =>
         match raise_for_status r with
         | Raise e => Raise e
         | Ok _ =>
             match read_html (text r) with
             | Raise e => Raise e
             | Ok [] => Ok []
             | Ok (df :: _) => Ok (table_records df)
             end
         end
     end,
     log (EvGet (page_request url)) w).
Proof.
  unfold scrape_table, bind, requests_get, lift.
  destruct (transport (requests_made w)) as [r|e]; [|reflexivity].
  destruct (raise_for_status r); [|reflexivity].
  destruct (read_html (text r)) as [[|df tables]|e]; reflexivity.
Qed.

(** The guard [if not tables: return []]. *)
Lemma scrape_table_guard (url : string) (w : world) (r : response) :
  transport (requests_made w) = Ok r ->
  raise_for_status r = Ok tt ->
  read_html (text r) = Ok [] ->
  (scrape_table transport read_html url w).1 = Ok [].
Proof. intros Hr Hs Ht. now rewrite scrape_table_run, Hr, Hs, Ht. Qed.

End Fetch.

(** With [pandas.read_html] as the parser: a document without a table
    element makes the parser raise, which [scrape_table] does not catch;
    the guard is reached when the document has table elements and none of
    them has data. *)
Lemma scrape_table_pandas_run
    (transport : nat -> outcome response)
    (tables_of : string -> list (option (DataFrame label)))
    (url : string) (w : world) :
  (scrape_table transport (pandas_read_html tables_of) url w).1 =
    match transport (requests_made w) with
    | Raise e => Raise e
    | Ok r =>
        match raise_for_status r with
        | Raise e => Raise e
        | Ok _ =>
            match tables_of (text r) with
            | [] => Raise (ValueError "No tables found")
            | elements =>
                match omap id elements with
                | [] => Ok []
                | df :: _ => Ok (table_records df)
                end
            end
        end
    end.
Proof.
  rewrite scrape_table_run. cbn [fst]. unfold pandas_read_html.
  destruct (transport (requests_made w)) as [r|e]; [|reflexivity].
  destruct (raise_for_status r); [|reflexivity].
  destruct (tables_of (text r)); reflexivity.
Qed.

(** The frames of a list of table elements begin with the frame of the
    first element that has data. *)
Lemma omap_first (elements : list (option (DataFrame label))) :
  forall i df,
    elements !! i = Some (Some df) ->
    (forall j, j < i -> elements !! j = Some None) ->
    exists rest, omap id elements = df :: rest.
Proof.
  induction elements as [|el elements IH]; intros i df Hi Hbefore;
    [discriminate|].
  destruct i as [|i].
  - injection Hi as ->. now eexists.
  - assert (el = None) as ->.
    { specialize (Hbefore 0 ltac:(lia)). now injection Hbefore. }
    cbn [omap list_omap id]. apply (IH i df Hi).
    intros j Hj. apply (Hbefore (S j)). lia.
Qed.

Lemma omap_none (elements : list (option (DataFrame label))) :
  (forall el, el ∈ elements -> el = None) -> omap id elements = [].
Proof.
  induction elements as [|el elements IH]; intros Hnone; [reflexivity|].
  rewrite (Hnone el) by left. cbn [omap list_omap id].
  apply IH. intros el' Hel'. apply Hnone. now right.
Qed.

(** C5 as stated fails: a page served with status 200 whose document has
    no table, read with [pandas.read_html]: [scrape_table] raises the
    parser's [ValueError] instead of returning the empty list, after its
    single request. *)
Lemma scrape_table_no_table_page :
  scrape_table (fun _ => Ok Samples.no_table_page)
      (pandas_read_html Samples.tables_of) Samples.sample_url empty_world
    = (Raise (ValueError "No tables found"),
       {| trace := [EvGet (page_request Samples.sample_url)]; files := ∅ |}).
Proof.
  rewrite (surjective_pairing (scrape_table _ _ _ _)).
  rewrite scrape_table_pandas_run.
  rewrite scrape_table_run. reflexivity.
Qed.

(** C5, amended.  A document fetched with a status that passes the status
    check.  Whatever the parser: when it returns no table the result is
    the empty list; when it returns tables the result is the records of
    the first; when it raises, the exception reaches the caller.  With
    [pandas.read_html] as the parser: a document without a table element
    makes the parser raise [ValueError], so the missing table is surfaced
    as an exception; a document whose table elements all lack data gives
    the empty list; and otherwise the records are those of the first
    table element that has data.  With pandas 3.0 or later, which takes
    the text for a path, every call raises [FileNotFoundError]. *)
Theorem scrape_table_tables
    (transport : nat -> outcome response) (url : string) (w : world)
    (r : response) :
  transport (requests_made w) = Ok r ->
  raise_for_status r = Ok tt ->
  (forall read_html,
     (scrape_table transport read_html url w).1 =
       match read_html (text r) with
       | Raise e => Raise e
       | Ok tables =>
           Ok (match head tables with
               | None => []
               | Some df => table_records df
               end)
       end) /\
  (forall tables_of,
     let result :=
       (scrape_table transport (pandas_read_html tables_of) url w).1 in
     (tables_of (text r) = [] ->
      result = Raise (ValueError "No tables found")) /\
     (tables_of (text r) <> [] ->
      (forall el, el ∈ tables_of (text r) -> el = None) ->
      result = Ok []) /\
     (forall i df,
        tables_of (text r) !! i = Some (Some df) ->
        (forall j, j < i -> tables_of (text r) !! j = Some None) ->
        result = Ok (table_records df))) /\
  (scrape_table transport pandas3_read_html url w).1
    = Raise (FileNotFoundError (text r)).
Proof.
  intros Hr Hs.
  assert (forall read_html,
            (scrape_table transport read_html url w).1 =
              match read_html (text r) with
              | Raise e => Raise e
              | Ok tables =>
                  Ok (match head tables with
                      | None => []
                      | Some df => table_records df
                      end)
              end) as Hany.
  { intros read_html. rewrite scrape_table_run, Hr, Hs. cbn [fst].
    destruct (read_html (text r)) as [[|df tables]|e]; reflexivity. }
  split; [exact Hany|]. split; [|apply Hany].
  - intros tables_of result. unfold result.
    rewrite scrape_table_pandas_run, Hr, Hs. split; [|split].
    + now intros ->.
    + intros Hsome Hnone.
      destruct (tables_of (text r)) as [|el els]; [congruence|].
      now rewrite (omap_none (el :: els) Hnone).
    + intros i df Hi Hbefore.
      destruct (tables_of (text r)) as [|el els]; [discriminate|].
      now destruct (omap_first (el :: els) i df Hi Hbefore) as [rest ->].
Qed.

(** A page whose only table has no data, served with status 200: the
    parser returns no table and [scrape_table] returns the empty list. *)
Lemma scrape_table_tables_empty_table :
  Samples.tables_of (text Samples.empty_table_page) = [None] /\
  (scrape_table (fun _ => Ok Samples.empty_table_page)
     (pandas_read_html Samples.tables_of) Samples.sample_url empty_world).1
    = Ok [].
Proof.
  split; [reflexivity|].
  destruct (scrape_table_tables (fun _ => Ok Samples.empty_table_page)
              Samples.sample_url empty_world Samples.empty_table_page
              eq_refl eq_refl) as (_ & Hpandas & _).
  destruct (Hpandas Samples.tables_of) as (_ & Hempty & _).
  apply Hempty.
  - discriminate.
  - intros el Hel. apply list_elem_of_In in Hel. cbn in Hel. now destruct Hel.
Defined.

(** C6 as stated fails: a response with status 300 is not a 2xx response,
    and [scrape_table] goes on to parse its body and returns records. *)
Lemma scrape_table_status_300 :
  status_code Samples.multiple_choices = 300%Z /\
  (scrape_table (fun _ => Ok Samples.multiple_choices)
     (pandas_read_html Samples.tables_of) Samples.sample_url empty_world).1
    = Ok Samples.leaderboard_records.
Proof.
  split; [reflexivity|].
  rewrite scrape_table_pandas_run. vm_compute. reflexivity.
Qed.

(** C6, amended.  [scrape_table] issues exactly one request and sleeps
    never, whatever the server and the parser do.  An exception raised by
    the request, and an [HTTPError] for any status from 400 to 599, reach
    the caller as they are. *)
Theorem scrape_table_single_request
    (transport : nat -> outcome response)
    (read_html : string -> outcome (list (DataFrame label)))
    (url : string) (w : world) :
  let run := scrape_table transport read_html url w in
  let n := requests_made w in
  events_since w run.2 = [EvGet (page_request url)] /\
  requests_made run.2 = S n /\
  (forall e, transport n = Raise e -> run.1 = Raise e) /\
  (forall r, transport n = Ok r ->
     (400 <= status_code r < 600)%Z ->
     run.1 = Raise (HTTPError (status_code r))).
Proof.
  intros run n. unfold run. rewrite scrape_table_run. cbn [fst snd].
  split; [|split; [|split]].
  - unfold events_since, log. cbn [trace]. apply drop_app_length.
  - unfold n. apply CallApi.requests_made_log_get.
  - intros e He. fold n. now rewrite He.
  - intros r Hr Hstatus. fold n. rewrite Hr. unfold raise_for_status.
    replace (400 <=? status_code r)%Z with true by (symmetry; lia).
    replace (status_code r <? 600)%Z with true by (symmetry; lia).
    reflexivity.
Qed.

(** A page that is not found: one request, and the [HTTPError] reaches
    the caller. *)
Lemma scrape_table_single_request_not_found :
  (scrape_table (fun _ => Ok Samples.not_found)
     (pandas_read_html Samples.tables_of) Samples.sample_url empty_world).1
    = Raise (HTTPError 404) /\
  requests_made
    (scrape_table (fun _ => Ok Samples.not_found)
       (pandas_read_html Samples.tables_of) Samples.sample_url empty_world).2
    = 1.
Proof.
  destruct (scrape_table_single_request (fun _ => Ok Samples.not_found)
              (pandas_read_html Samples.tables_of) Samples.sample_url
              empty_world) as (_ & Hn & _ & Hstatus).
  split; [|exact Hn].
  apply (Hstatus Samples.not_found); [reflexivity|].
  cbn. lia.
Defined.

End Scrape.

(** ** Properties of the request descriptors *)

Module Descriptor.
Import Py Spec Text.

Lemma segments_agree : Html.SEGMENTS = Structured.SEGMENTS.
Proof. reflexivity. Qed.

Lemma tasks_agree : Html.tasks = Structured.tasks.
Proof. reflexivity. Qed.

(** Case distinction on a dictionary key: is it the literal [k]? *)
Ltac split_key key k :=
  destruct (decide (key = k)) as [->|?]; [vm_compute; reflexivity|].

(** The parameters of a job are the fixed ones with the three job fields
    put in. *)
Lemma leaders_params_fields (players : list Z) (stats : string) (month : Z) :
  Structured.leaders_params players stats month
    = <["stats" := stats]>
        (<["month" := str month]>
           (<["players" := join "," (map str players)]> FIXED_PARAMS)).
Proof.
  apply map_eq. intros key.
  unfold Structured.leaders_params, FIXED_PARAMS.
  cbn [list_to_map foldr fst snd].
  change (str Structured.SEASON) with "2025".
  split_key key "stats". split_key key "month". split_key key "players".
  split_key key "ind". split_key key "lg". split_key key "pos".
  split_key key "qual". split_key key "season". split_key key "season1".
  split_key key "team". split_key key "rost". split_key key "type".
  split_key key "sortcol". split_key key "sortdir".
  split_key key "pageitems". split_key key "pagenum". split_key key "filter".
  rewrite !lookup_insert_ne by congruence. reflexivity.
Qed.

Lemma leaders_url_fields (players : list Z) (stats : string) (month : Z) :
  Html.leaders_url players stats month
    = URL_HEAD +:+ "&stats=" +:+ stats +:+ "&month=" +:+ str month
      +:+ "&players=" +:+ join "," (map str players)
      +:+ "&pageitems=2000000000".
Proof.
  unfold Html.leaders_url, URL_HEAD.
  change (str Html.SEASON) with "2025".
  rewrite !string_app_assoc. reflexivity.
Qed.

Lemma month_code_str (sp : split) :
  str (month_code sp)
    = match sp with All => "0" | VsLeft => "13" | VsRight => "14" end.
Proof. destruct sp; reflexivity. Qed.
(** C8. For a segment of the registry, a stat category and a split, the
    descriptor of either script varies with the job in three fields only:
    the stat category as given, the split as its month code (0 for all, 13
    for vs-left, 14 for vs-right), and the ids of the segment joined by
    commas in the order of the registry.  Every other parameter of the
    JSON endpoint is a fixed one, and the rest of the URL is fixed.  The
    jobs of both task tables are of this kind. *)
Theorem descriptor_job_fields
    (seg_key : string) (players : list Z) (stats : string) (sp : split) :
  Structured.SEGMENTS !! seg_key = Some players ->
  let code := match sp with All => "0" | VsLeft => "13" | VsRight => "14" end in
  let ids := join "," (map str players) in
  (exists params,
     Structured.build_params Structured.SEGMENTS seg_key stats (month_code sp)
       = Ok params /\
     params !! "stats" = Some stats /\
     params !! "month" = Some code /\
     params !! "players" = Some ids /\
     forall key, key ∉ ["stats"; "month"; "players"] ->
       params !! key = FIXED_PARAMS !! key) /\
  Html.build_url Html.SEGMENTS seg_key stats (month_code sp)
    = Ok (URL_HEAD +:+ "&stats=" +:+ stats +:+ "&month=" +:+ code
          +:+ "&players=" +:+ ids +:+ "&pageitems=2000000000") /\
  forallb (job_ok Structured.SEGMENTS) Structured.tasks = true /\
  forallb (job_ok Html.SEGMENTS) Html.tasks = true.
Proof.
  intros Hseg code ids. split; [|split; [|split]].
  - exists (Structured.leaders_params players stats (month_code sp)).
    unfold Structured.build_params, subscript. rewrite Hseg.
    rewrite leaders_params_fields, month_code_str. fold code ids.
    split; [reflexivity|]. split; [apply lookup_insert_eq|].
    split; [rewrite lookup_insert_ne by done; apply lookup_insert_eq|].
    split; [rewrite !lookup_insert_ne by done; apply lookup_insert_eq|].
    intros key Hkey.
    rewrite !lookup_insert_ne; [reflexivity|..];
      intros <-; apply Hkey; set_solver.
  - unfold Html.build_url, subscript. rewrite segments_agree, Hseg.
    now rewrite leaders_url_fields, month_code_str.
  - vm_compute. reflexivity.
  - vm_compute. reflexivity.
Qed.

(** The job "rp_nz_pit_lhb". *)
Lemma descriptor_job_fields_rp_nz :
  exists params,
    Structured.build_params Structured.SEGMENTS "rp_nz" "pit" 13 = Ok params /\
    params !! "stats" = Some "pit" /\
    params !! "month" = Some "13" /\
    params !! "players"
      = Some ("17732,19281,29564,33821,15094,24094,"
              +:+ "26440,13580,26344,26285,20629,20379").
Proof.
  destruct (descriptor_job_fields "rp_nz" Structured.SEGMENT_rp_nz "pit" VsLeft)
    as [(params & Hbuild & Hstats & Hmonth & Hplayers & _) _].
  - vm_compute. reflexivity.
  - exists params. split; [exact Hbuild|]. split; [exact Hstats|].
    split; [exact Hmonth|]. rewrite Hplayers. vm_compute. reflexivity.
Defined.

(** C9. For any registry and any key it holds, whatever the stat category
    and the month code, both scripts build their descriptor without
    raising: the lookup succeeds and the rest is the evaluation of
    [leaders_params], or of [leaders_url], on the players found, which may
    be none. *)
Theorem descriptor_never_raises
    (segments : gmap string (list Z)) (seg_key stats : string) (month : Z) :
  seg_key ∈ dom segments ->
  exists players,
    segments !! seg_key = Some players /\
    Structured.build_params segments seg_key stats month
      = Ok (Structured.leaders_params players stats month) /\
    Html.build_url segments seg_key stats month
      = Ok (Html.leaders_url players stats month).
Proof.
  intros Hkey. apply elem_of_dom in Hkey as [players Hplayers].
  exists players. split; [exact Hplayers|].
  unfold Structured.build_params, Html.build_url, subscript.
  now rewrite Hplayers.
Qed.

(** A segment without players: the descriptors are built, with an empty
    list of ids. *)
Lemma descriptor_never_raises_empty_segment :
  (exists params,
     Structured.build_params Samples.sparse_registry "bench" "bat" 0 = Ok params /\
     params !! "players" = Some "") /\
  Html.build_url Samples.sparse_registry "bench" "bat" 0
    = Ok (URL_HEAD +:+ "&stats=bat&month=0&players=&pageitems=2000000000").
Proof.
  destruct (descriptor_never_raises Samples.sparse_registry "bench" "bat" 0)
    as (players & Hplayers & Hparams & Hurl).
  - apply (bool_decide_unpack _). vm_compute. exact I.
  - assert (players = []) as -> by (vm_compute in Hplayers; congruence).
    split.
    + eexists. split; [exact Hparams|]. vm_compute. reflexivity.
    + rewrite Hurl. vm_compute. reflexivity.
Defined.

End Descriptor.

(** ** Further properties of [call_api] *)

Module Budget.
Import Py Structured Spec.

Lemma call_api_sleeps
    (transport : nat -> outcome response) (params : gmap string string)
    (k : nat) (w : world) :
  0 < k ->
  exists m,
    1 <= m <= k /\
    events_since w (call_api transport params (Z.of_nat k) w).2
      = schedule (api_request params) m 2.0%float /\
    trace (call_api transport params (Z.of_nat k) w).2
      = trace w ++ schedule (api_request params) m 2.0%float /\
    files (call_api transport params (Z.of_nat k) w).2 = files w /\
    (raised (call_api transport params (Z.of_nat k) w).1 = true -> m = k).
Proof.
  intros Hk.
  destruct (CallApi.call_api_run transport params k w Hk)
    as (m & Hm & Htr & Hfi & _ & _ & Hraise).
  exists m. repeat split; try lia; try assumption.
  now apply CallApi.app_new_events.
Qed.

Lemma schedule_no_print q m d :
  Forall (fun e => is_print e = false) (schedule q m d).
Proof.
  revert d. induction m as [|m IH]; intros d; [constructor|].
  destruct m as [|m]; [repeat constructor|].
  change (schedule q (S (S m)) d)
    with (EvGet q :: EvSleep d :: schedule q (S m) (next_delay d)).
  apply Forall_cons; split; [reflexivity|].
  apply Forall_cons; split; [reflexivity|]. apply IH.
Qed.

Lemma delay_at_ceiling (j : nat) : 4 <= j -> delay_at j = 20.0%float.
Proof.
  induction 1 as [|j Hj IH]; [reflexivity|].
  cbn [delay_at]. rewrite IH. reflexivity.
Qed.

Lemma delay_at_bounds (j : nat) :
  PrimFloat.leb 2.0 (delay_at j) && PrimFloat.leb (delay_at j) 20.0 = true.
Proof.
  destruct (decide (4 <= j)) as [Hj|Hj].
  - rewrite (delay_at_ceiling j Hj). reflexivity.
  - do 4 (destruct j as [|j]; [reflexivity|]). lia.
Qed.

(** X1. Without a positive budget [call_api] issues no request: the loop
    is empty, and the statement after it raises
    [RuntimeError("Unknown error")] in an unchanged world. *)
Theorem call_api_no_budget
    (transport : nat -> outcome response) (params : gmap string string)
    (tries : Z) (w : world) :
  (tries <= 0)%Z ->
  call_api transport params tries w
    = (Raise (RuntimeError "Unknown error"), w).
Proof.
  intros Htries. unfold call_api, range.
  rewrite seqZ_nil by lia. reflexivity.
Qed.

Lemma call_api_no_budget_zero :
  call_api Samples.always_good ∅ 0 empty_world
    = (Raise (RuntimeError "Unknown error"), empty_world).
Proof. apply call_api_no_budget. lia. Defined.

(** X2. With any positive budget [call_api] makes at least one request and
    at most [tries], sleeps once less than it makes requests, prints
    nothing and leaves every file alone; it raises only after it has made
    all [tries] requests. *)
Theorem call_api_budget
    (transport : nat -> outcome response) (params : gmap string string)
    (tries : Z) (w : world) :
  (1 <= tries)%Z ->
  let run := call_api transport params tries w in
  let ev := events_since w run.2 in
  let gets := length (filter (fun e => is_get e = true) ev) in
  trace run.2 = trace w ++ ev /\
  files run.2 = files w /\
  1 <= gets <= Z.to_nat tries /\
  length (sleeps ev) = gets - 1 /\
  Forall (fun e => is_print e = false) ev /\
  (raised run.1 = true -> gets = Z.to_nat tries).
Proof.
  intros Htries run ev gets.
  destruct (call_api_sleeps transport params (Z.to_nat tries) w)
    as (m & Hm & Hev & Htr & Hfi & Hraise); [lia|].
  rewrite Z2Nat.id in Hev, Htr, Hfi, Hraise by lia.
  fold run in Hev, Htr, Hfi, Hraise. fold ev in Hev.
  assert (gets = m) as -> by (unfold gets; rewrite Hev; apply CallApi.schedule_gets).
  rewrite Hev. split; [exact Htr|]. split; [exact Hfi|]. split; [exact Hm|].
  split; [|split; [apply schedule_no_print | exact Hraise]].
  now rewrite CallApi.schedule_sleeps, length_map, length_seq.
Qed.

(** A budget of two against a server that is always busy: two requests,
    one sleep, then the error. *)
Lemma call_api_budget_two :
  length (filter (fun e => is_get e = true)
            (events_since empty_world
               (call_api Samples.always_busy ∅ 2 empty_world).2)) = 2 /\
  length (sleeps (events_since empty_world
                    (call_api Samples.always_busy ∅ 2 empty_world).2)) = 1.
Proof.
  destruct (call_api_budget Samples.always_busy ∅ 2 empty_world)
    as (_ & _ & _ & Hsleeps & _ & Hraise); [lia|].
  assert (length (filter (fun e => is_get e = true)
                    (events_since empty_world
                       (call_api Samples.always_busy ∅ 2 empty_world).2)) = 2)
    as Hgets by (apply Hraise; reflexivity).
  split; [exact Hgets|]. rewrite Hsleeps, Hgets. reflexivity.
Defined.

(** X3. Whatever the budget, every delay [call_api] sleeps lies between
    2.0 and 20.0 seconds, and from the fifth delay on it is exactly 20.0:
    the backoff reaches its ceiling after four multiplications and stays
    there. *)
Theorem call_api_delay_ceiling
    (transport : nat -> outcome response) (params : gmap string string)
    (tries : Z) (w : world) (j : nat) (d : float) :
  sleeps (events_since w (call_api transport params tries w).2) !! j = Some d ->
  PrimFloat.leb 2.0 d && PrimFloat.leb d 20.0 = true /\
  (4 <= j -> d = 20.0%float).
Proof.
  intros Hd.
  destruct (decide (tries <= 0)%Z) as [Hno|Hpos].
  { assert (call_api transport params tries w
            = (Raise (RuntimeError "Unknown error"), w)) as Hempty
      by (unfold call_api, range; rewrite seqZ_nil by lia; reflexivity).
    rewrite Hempty in Hd.
    unfold events_since in Hd. cbn [snd] in Hd.
    rewrite drop_all in Hd. discriminate. }
  destruct (call_api_sleeps transport params (Z.to_nat tries) w)
    as (m & _ & Hev & _); [lia|].
  rewrite Z2Nat.id in Hev by lia.
  rewrite Hev, CallApi.schedule_sleeps in Hd.
  change map with (@fmap list _) in Hd.
  apply list_lookup_fmap_Some in Hd as (i & -> & Hi).
  apply lookup_seq in Hi as [-> _]. cbn [Nat.add].
  rewrite CallApi.iter_delay_at.
  split; [apply delay_at_bounds | apply delay_at_ceiling].
Qed.

(** A budget of eight against a server that is always busy: the sixth
    delay is 20.0. *)
Lemma call_api_delay_ceiling_sixth :
  sleeps (events_since empty_world
            (call_api Samples.always_busy ∅ 8 empty_world).2) !! 5
    = Some 20.0%float.
Proof.
  assert (exists d,
            sleeps (events_since empty_world
                      (call_api Samples.always_busy ∅ 8 empty_world).2) !! 5
              = Some d) as [d Hd] by (eexists; vm_compute; reflexivity).
  destruct (call_api_delay_ceiling Samples.always_busy ∅ 8 empty_world 5 d Hd)
    as [_ Hceil].
  rewrite Hd. f_equal. apply Hceil. lia.
Defined.

End Budget.

(** ** Properties of [fetch_one] *)

Module FetchOne.
Import Py Structured Spec.

Lemma requests_made_log_print line w :
  requests_made (log (EvPrint line) w) = requests_made w.
Proof.
  unfold requests_made, log; simpl.
  rewrite filter_app, length_app. simpl. lia.
Qed.

Lemma normalize_ok_objects (payload : json) (rows : list json) :
  normalize payload = Ok rows -> Forall is_object rows.
Proof.
  destruct payload as [| | | | | |m]; try discriminate.
  rewrite Normalize.normalize_refines. intros [= <-].
  apply Normalize.keep_dicts_objects.
Qed.

Lemma normalize_not_dict (payload : json) :
  isinstance_dict payload = false ->
  normalize payload = Raise (AttributeError "get").
Proof. destruct payload; try reflexivity. discriminate. Qed.

Section Run.

Variable transport : nat -> outcome response.

(** [fetch_one], statement by statement. *)
Lemma fetch_one_run (out_name seg_key stats : string) (month : Z) (w : world) :
  fetch_one transport out_name seg_key stats month w =
    match SEGMENTS !! seg_key with
    | None => (Raise (KeyError seg_key), w)
    | Some players =>
        match call_api transport (leaders_params players stats month) 6 w with
        | (Raise e, w1) => (Raise e, w1)
        | (Ok payload, w1) =>
            match normalize payload with
            | Raise e => (Raise e, w1)
            | Ok rows =>
                match save_json out_name rows w1 with
                | (Raise e, w2) => (Raise e, w2)
                | (Ok _, w2) =>
                    print ("Saved " +:+ out_name +:+ ": "
                           +:+ str (Z.of_nat (length rows)) +:+ " rows") w2
                end
            end
        end
    end.
Proof.
  unfold fetch_one, bind, lift, build_params, subscript.
  destruct (SEGMENTS !! seg_key) as [players|]; [|reflexivity].
  destruct (call_api transport (leaders_params players stats month) 6 w)
    as [[payload|e] w1]; [|reflexivity].
  destruct (normalize payload) as [rows|e]; [|reflexivity].
  destruct (save_json out_name rows w1) as [[[]|e] w2]; reflexivity.
Qed.

(** The last two statements of [fetch_one] for a plain output name whose
    file is not locked. *)
Lemma save_and_print (out_name : string) (rows : list json) (w1 : world) :
  plain_name out_name = true ->
  (forall e, files w1 !! job_path out_name <> Some (Locked e)) ->
  match save_json out_name rows w1 with
  | (Raise e, w2) => (Raise e, w2)
  | (Ok _, w2) =>
      print ("Saved " +:+ out_name +:+ ": "
             +:+ str (Z.of_nat (length rows)) +:+ " rows") w2
  end =
  if json_encodable (JList rows)
  then (Ok tt,
        {| trace := trace w1 ++
                      [EvPrint ("Saved " +:+ out_name +:+ ": "
                                +:+ str (Z.of_nat (length rows)) +:+ " rows")];
           files := <[job_path out_name := Document (JList rows)]> (files w1) |})
  else (Raise UnicodeEncodeError,
        {| trace := trace w1;
           files := <[job_path out_name := Truncated]> (files w1) |}).
Proof.
  intros Hname Hfree. rewrite Normalize.save_json_plain by assumption.
  destruct (json_encodable (JList rows)); [|reflexivity].
  unfold print. rewrite Text.saved_line.
  unfold plain_name in Hname. apply andb_true_iff in Hname as [_ Hsur].
  apply negb_true_iff in Hsur. now rewrite Hsur.
Qed.

(** [call_api] when the first attempt goes through. *)
Lemma call_api_first_answer
    (params : gmap string string) (payload : json) (w : world) :
  attempt_result (transport (requests_made w)) = Ok payload ->
  call_api transport params 6 w = (Ok payload, log (EvGet (api_request params)) w).
Proof.
  intros Hfirst. unfold call_api.
  change (range 1 (6 + 1)) with [1; 2; 3; 4; 5; 6]%Z.
  cbn [call_api_loop]. unfold try_except.
  now rewrite CallApi.attempt_once_run, Hfirst.
Qed.

End Run.

Lemma write_json_trace (path : string) (doc : json) (w : world) :
  trace (write_json path doc w).2 = trace w.
Proof. unfold write_json. repeat case_match; reflexivity. Qed.

(** The requests of [fetch_one], against any server and whatever the
    files: at most six, and at least one when it returns. *)
Lemma fetch_one_requests
    (transport : nat -> outcome response)
    (out_name seg_key stats : string) (month : Z) (w : world) :
  (raised (fetch_one transport out_name seg_key stats month w).1 = false ->
   requests_made w
     < requests_made (fetch_one transport out_name seg_key stats month w).2) /\
  requests_made w
    <= requests_made (fetch_one transport out_name seg_key stats month w).2
    <= requests_made w + 6.
Proof.
  rewrite fetch_one_run.
  destruct (SEGMENTS !! seg_key) as [players|];
    [|cbn; split; [discriminate|lia]].
  destruct (CallApi.call_api_run transport
              (leaders_params players stats month) 6 w)
    as (m & Hm & Htr & _); [lia|].
  change (Z.of_nat 6) with 6%Z in *.
  apply CallApi.requests_made_run in Htr.
  destruct (call_api transport (leaders_params players stats month) 6 w)
    as [[payload|e] w1]; cbn [fst snd] in *; [|split; [discriminate|lia]].
  destruct (normalize payload) as [rows|e]; cbn [fst snd];
    [|split; [discriminate|lia]].
  pose proof (write_json_trace (path_join OUT_DIR (out_name +:+ ".json"))
                (JList rows) w1) as Hsave.
  fold (save_json out_name rows) in Hsave.
  assert (requests_made (save_json out_name rows w1).2 = requests_made w1)
    as Hsame by (unfold requests_made; now rewrite Hsave).
  destruct (save_json out_name rows w1) as [[[]|e] w2]; cbn [fst snd] in *;
    [|split; [discriminate|lia]].
  unfold print. destruct (has_surrogate _); cbn [fst snd];
    [split; [discriminate|lia]|].
  rewrite requests_made_log_print. split; [intros _|]; lia.
Qed.

(** X4. [fetch_one] for a segment key that the registry does not hold
    raises [KeyError] at once: no request is issued, nothing is printed
    and no file is written. *)
Theorem fetch_one_unknown_segment
    (transport : nat -> outcome response)
    (out_name seg_key stats : string) (month : Z) (w : world) :
  SEGMENTS !! seg_key = None ->
  fetch_one transport out_name seg_key stats month w
    = (Raise (KeyError seg_key), w).
Proof. intros Hkey. now rewrite fetch_one_run, Hkey. Qed.

Lemma fetch_one_unknown_segment_dh :
  fetch_one Samples.always_good "dh_bat_all" "dh" "bat" 0 empty_world
    = (Raise (KeyError "dh"), empty_world).
Proof. apply fetch_one_unknown_segment. vm_compute. reflexivity. Defined.

(** What [fetch_one] does for a plain output name whose file is not
    locked.  When it returns, the rows are the normalized payload of the
    last request and the file holds them; when it raises, the files are
    as before, or the file of the job is empty because the rows have no
    UTF-8 text. *)
Lemma fetch_one_effect
    (transport : nat -> outcome response)
    (out_name seg_key stats : string) (month : Z) (w : world) :
  plain_name out_name = true ->
  (forall e, files w !! job_path out_name <> Some (Locked e)) ->
  match (fetch_one transport out_name seg_key stats month w).1 with
  | Ok _ =>
      (exists n payload rows,
         n < 6 /\
         attempt_result (transport (requests_made w + n)) = Ok payload /\
         normalize payload = Ok rows /\
         Forall utf8_text rows /\
         files (fetch_one transport out_name seg_key stats month w).2
           = <[job_path out_name := Document (JList rows)]> (files w)) /\
      requests_made w
        < requests_made (fetch_one transport out_name seg_key stats month w).2
  | Raise e =>
      files (fetch_one transport out_name seg_key stats month w).2 = files w \/
      (e = UnicodeEncodeError /\
       exists n payload rows,
         n < 6 /\
         attempt_result (transport (requests_made w + n)) = Ok payload /\
         normalize payload = Ok rows /\
         ~ Forall utf8_text rows /\
         files (fetch_one transport out_name seg_key stats month w).2
           = <[job_path out_name := Truncated]> (files w))
  end /\
  requests_made w
    <= requests_made (fetch_one transport out_name seg_key stats month w).2
    <= requests_made w + 6.
Proof.
  intros Hname Hfree. rewrite fetch_one_run.
  destruct (SEGMENTS !! seg_key) as [players|];
    [|cbn; split; [now left|lia]].
  destruct (CallApi.call_api_run transport
              (leaders_params players stats month) 6 w)
    as (m & Hm & Htr & Hfi & _ & Hval & _); [lia|].
  change (Z.of_nat 6) with 6%Z in *.
  apply CallApi.requests_made_run in Htr.
  destruct (call_api transport (leaders_params players stats month) 6 w)
    as [[payload|e] w1]; cbn [fst snd] in *; [|split; [now left|lia]].
  destruct (normalize payload) as [rows|e] eqn:Hrows; cbn [fst snd];
    [|split; [now left|lia]].
  rewrite save_and_print by (rewrite ?Hfi; assumption).
  destruct (json_encodable (JList rows)) eqn:Henc; cbn [fst snd files trace].
  - match goal with
    | |- context [requests_made {| trace := trace w1 ++ [EvPrint ?l];
                                   files := ?f |}] =>
        change (requests_made {| trace := trace w1 ++ [EvPrint l]; files := f |})
          with (requests_made (log (EvPrint l) w1))
    end.
    rewrite requests_made_log_print.
    split; [split|]; [|lia|lia].
    exists (m - 1), payload, rows.
    split; [lia|]. split; [now symmetry|]. split; [exact Hrows|].
    split; [now apply Normalize.rows_text | now rewrite Hfi].
  - change (requests_made {| trace := trace w1; files := _ |})
      with (requests_made w1).
    split; [|lia]. right. split; [reflexivity|].
    exists (m - 1), payload, rows.
    split; [lia|]. split; [now symmetry|]. split; [exact Hrows|]. split.
    + intros Htext%Normalize.rows_text. congruence.
    + now rewrite Hfi.
Qed.

(** X5. What [fetch_one] does to the files, against any server, for a
    plain output name whose file is not locked.  When it returns, one of
    its at most six requests was answered with a payload that [normalize]
    accepts, and the file of the output name holds the array of the
    normalized rows of that payload, none of which holds a surrogate; no
    other file has changed.  When it raises, either no file has changed,
    or the exception is [UnicodeEncodeError], the normalized rows hold a
    surrogate, and the file of the output name is left empty.  Either way
    it has issued at most six requests. *)
Theorem fetch_one_files
    (transport : nat -> outcome response)
    (out_name seg_key stats : string) (month : Z) (w : world) :
  plain_name out_name = true ->
  (forall e, files w !! job_path out_name <> Some (Locked e)) ->
  let run := fetch_one transport out_name seg_key stats month w in
  match run.1 with
  | Ok _ =>
      exists n payload rows,
        n < 6 /\
        attempt_result (transport (requests_made w + n)) = Ok payload /\
        normalize payload = Ok rows /\
        Forall utf8_text rows /\
        files run.2 = <[job_path out_name := Document (JList rows)]> (files w)
  | Raise e =>
      files run.2 = files w \/
      (e = UnicodeEncodeError /\
       exists n payload rows,
         n < 6 /\
         attempt_result (transport (requests_made w + n)) = Ok payload /\
         normalize payload = Ok rows /\
         ~ Forall utf8_text rows /\
         files run.2 = <[job_path out_name := Truncated]> (files w))
  end /\
  requests_made w <= requests_made run.2 <= requests_made w + 6.
Proof.
  intros Hname Hfree run. unfold run.
  destruct (fetch_one_effect transport out_name seg_key stats month w
              Hname Hfree) as [Hfiles Hrequests].
  split; [|exact Hrequests].
  destruct (fetch_one transport out_name seg_key stats month w).1;
    [apply Hfiles | exact Hfiles].
Qed.

(** The job "sp_pit_all" against a server whose rows carry a lone
    surrogate: the job raises and its file is left empty. *)
Lemma fetch_one_files_broken :
  (fetch_one Samples.always_broken "sp_pit_all" "sp" "pit" 0 empty_world).1
    = Raise UnicodeEncodeError /\
  (files (fetch_one Samples.always_broken "sp_pit_all" "sp" "pit" 0
            empty_world).2 = ∅ \/
   files (fetch_one Samples.always_broken "sp_pit_all" "sp" "pit" 0
            empty_world).2 = {["data/fa/sp_pit_all.json" := Truncated]}).
Proof.
  assert ((fetch_one Samples.always_broken "sp_pit_all" "sp" "pit" 0
             empty_world).1 = Raise UnicodeEncodeError) as Hraise
    by (vm_compute; reflexivity).
  split; [exact Hraise|].
  destruct (fetch_one_files Samples.always_broken "sp_pit_all" "sp" "pit" 0
              empty_world) as [Hfiles _].
  - reflexivity.
  - intros e. vm_compute. discriminate.
  - rewrite Hraise in Hfiles.
    destruct Hfiles as [Hsame|(_ & n & payload & rows & _ & _ & _ & _ & Hcut)];
      [left; exact Hsame | right; exact Hcut].
Defined.

(** X6. [fetch_one] against a server whose first answer goes through, for
    a plain output name whose file is not locked.  For a registered
    segment, when the first attempt yields a payload that [normalize]
    accepts, [fetch_one] stops after this one request and does not sleep:
    when no row holds a surrogate it stores the rows under its output name
    and prints how many there are; when one does it raises
    [UnicodeEncodeError], prints nothing and leaves the file empty. *)
Theorem fetch_one_first_answer
    (transport : nat -> outcome response)
    (out_name seg_key stats : string) (month : Z) (w : world)
    (players : list Z) (payload : json) (rows : list json) :
  plain_name out_name = true ->
  (forall e, files w !! job_path out_name <> Some (Locked e)) ->
  SEGMENTS !! seg_key = Some players ->
  attempt_result (transport (requests_made w)) = Ok payload ->
  normalize payload = Ok rows ->
  (Forall utf8_text rows ->
   fetch_one transport out_name seg_key stats month w
     = (Ok tt,
        {| trace :=
             trace w ++
               [ EvGet (api_request (leaders_params players stats month));
                 EvPrint ("Saved " +:+ out_name +:+ ": "
                          +:+ str (Z.of_nat (length rows)) +:+ " rows") ];
           files :=
             <[job_path out_name := Document (JList rows)]> (files w) |})) /\
  (~ Forall utf8_text rows ->
   fetch_one transport out_name seg_key stats month w
     = (Raise UnicodeEncodeError,
        {| trace :=
             trace w ++
               [ EvGet (api_request (leaders_params players stats month)) ];
           files := <[job_path out_name := Truncated]> (files w) |})).
Proof.
  intros Hname Hfree Hkey Hfirst Hrows.
  rewrite fetch_one_run, Hkey, (call_api_first_answer _ _ payload) by exact Hfirst.
  rewrite Hrows, save_and_print by assumption.
  unfold log. cbn [trace files].
  destruct (json_encodable (JList rows)) eqn:Henc.
  - split.
    + intros _. now rewrite <- app_assoc.
    + intros Hnot. destruct Hnot. now apply Normalize.rows_text.
  - split; [|reflexivity]. intros Htext%Normalize.rows_text. congruence.
Qed.

(** The job "rp_nz_pit_lhb" against a server that answers at once with
    two rows and a null: the file holds the two rows. *)
Lemma fetch_one_first_answer_rp_nz :
  (fetch_one Samples.always_good "rp_nz_pit_lhb" "rp_nz" "pit" 13 empty_world).1
    = Ok tt /\
  files (fetch_one Samples.always_good "rp_nz_pit_lhb" "rp_nz" "pit" 13
           empty_world).2 !! "data/fa/rp_nz_pit_lhb.json"
    = Some (Document (JList [Samples.row "Ott" 3; Samples.row "Pena" 7])).
Proof.
  destruct (fetch_one_first_answer Samples.always_good "rp_nz_pit_lhb" "rp_nz"
              "pit" 13 empty_world SEGMENT_rp_nz Samples.two_rows
              [Samples.row "Ott" 3; Samples.row "Pena" 7]) as [Hgood _].
  - reflexivity.
  - intros e. vm_compute. discriminate.
  - vm_compute. reflexivity.
  - reflexivity.
  - vm_compute. reflexivity.
  - rewrite Hgood.
    + split; [reflexivity|]. cbn [snd files]. apply lookup_insert_eq.
    + apply Normalize.rows_text. vm_compute. reflexivity.
Defined.

(** X7. [fetch_one] against a server whose first answer decodes to
    something that is not a JSON object (an array, a string, null): the
    job raises [AttributeError] after its one request and writes no
    file. *)
Theorem fetch_one_not_an_object
    (transport : nat -> outcome response)
    (out_name seg_key stats : string) (month : Z) (w : world)
    (players : list Z) (payload : json) :
  SEGMENTS !! seg_key = Some players ->
  attempt_result (transport (requests_made w)) = Ok payload ->
  isinstance_dict payload = false ->
  fetch_one transport out_name seg_key stats month w
    = (Raise (AttributeError "get"),
       {| trace :=
            trace w ++ [EvGet (api_request (leaders_params players stats month))];
          files := files w |}).
Proof.
  intros Hkey Hfirst Hshape.
  rewrite fetch_one_run, Hkey, (call_api_first_answer _ _ payload) by exact Hfirst.
  now rewrite normalize_not_dict.
Qed.

Lemma fetch_one_not_an_object_array :
  (fetch_one (fun _ => Ok Samples.array_body) "sp_pit_all" "sp" "pit" 0
     empty_world).1
    = Raise (AttributeError "get") /\
  files (fetch_one (fun _ => Ok Samples.array_body) "sp_pit_all" "sp" "pit" 0
           empty_world).2 = ∅.
Proof.
  rewrite (fetch_one_not_an_object (fun _ => Ok Samples.array_body)
             "sp_pit_all" "sp" "pit" 0 empty_world SEGMENT_sp (JList [])).
  - split; reflexivity.
  - vm_compute. reflexivity.
  - reflexivity.
  - reflexivity.
Defined.

End FetchOne.

(** ** Properties of the run of the JSON-endpoint script *)

Module MainRun.
Import Py Structured Spec.

Lemma tasks_plain :
  Forall (fun job => plain_name (job_name job) = true) tasks.
Proof.
  apply Forall_forall. intros job Hjob. apply list_elem_of_In in Hjob.
  assert (forallb (fun job => plain_name (job_name job)) tasks = true) as Hall
    by (vm_compute; reflexivity).
  rewrite forallb_forall in Hall. now apply Hall.
Qed.

Lemma writable_insert (w w' : world) (p : string) (f : file) :
  writable w -> (forall e, f <> Locked e) ->
  files w' = <[p := f]> (files w) -> writable w'.
Proof.
  intros Hw Hf Hfiles q e. rewrite Hfiles.
  destruct (decide (q = p)) as [->|Hne].
  - rewrite lookup_insert_eq. intros [= ->]. now apply (Hf e).
  - rewrite lookup_insert_ne by done. apply Hw.
Qed.

Section Run.

Variable transport : nat -> outcome response.

Lemma main_loop_step (out_name seg_key stats : string) (month : Z)
    (ts : list (string * string * string * Z)) (w : world) :
  main_loop transport ((out_name, seg_key, stats, month) :: ts) w =
    match fetch_one transport out_name seg_key stats month w with
    | (Raise e, w1) => (Raise e, w1)
    | (Ok _, w1) => main_loop transport ts (log (EvSleep 1.2%float) w1)
    end.
Proof.
  cbn [main_loop]. unfold bind at 1.
  destruct (fetch_one transport out_name seg_key stats month w) as [[[]|e] w1];
    reflexivity.
Qed.

(** The files after the loop, for plain and distinct output names and no
    locked file: jobs that ran are stored, the file of the job that failed
    is untouched or empty, the jobs after it are untouched, and so is
    every file that belongs to no job. *)
Lemma main_loop_effect (ts : list (string * string * string * Z)) :
  forall w : world,
    Forall (fun job => plain_name (job_name job) = true) ts ->
    NoDup (map job_name ts) ->
    writable w ->
    (forall p, (forall job, job ∈ ts -> p <> job_path (job_name job)) ->
       files (main_loop transport ts w).2 !! p = files w !! p) /\
    match (main_loop transport ts w).1 with
    | Ok _ => Forall (stored (main_loop transport ts w).2) ts
    | Raise _ =>
        exists finished failed rest,
          ts = finished ++ failed :: rest /\
          Forall (stored (main_loop transport ts w).2) finished /\
          (untouched w (main_loop transport ts w).2 failed \/
           emptied (main_loop transport ts w).2 failed) /\
          Forall (untouched w (main_loop transport ts w).2) rest
    end.
Proof.
  induction ts as [|[[[out_name seg_key] stats] month] ts IH];
    intros w Hplain Hnd Hw.
  { split; [reflexivity | constructor]. }
  apply Forall_cons in Hplain as [Hname Hplain].
  change (job_name (out_name, seg_key, stats, month)) with out_name in Hname.
  cbn [map] in Hnd. apply NoDup_cons in Hnd as [Hfresh Hnd].
  change (job_name (out_name, seg_key, stats, month)) with out_name in Hfresh.
  assert (forall job, job ∈ ts ->
            job_path (job_name job) <> job_path out_name) as Hother.
  { intros job Hjob Heq. apply Text.job_path_inj in Heq.
    apply Hfresh. rewrite <- Heq.
    change map with (@fmap list _). now apply list_elem_of_fmap_2. }
  rewrite main_loop_step.
  pose proof (FetchOne.fetch_one_effect transport out_name seg_key stats month w
                Hname (fun e => Hw _ e)) as [Hfiles _].
  destruct (fetch_one transport out_name seg_key stats month w)
    as [[[]|e] w1]; cbn [fst snd] in Hfiles.
  - destruct Hfiles as [(n & payload & rows & _ & _ & Hrows & _ & Hfiles) _].
    assert (writable (log (EvSleep 1.2%float) w1)) as Hw1.
    { apply (writable_insert w _ (job_path out_name) (Document (JList rows)));
        [exact Hw | discriminate | exact Hfiles]. }
    destruct (IH (log (EvSleep 1.2%float) w1) Hplain Hnd Hw1) as [Hframe Hrest].
    cbn [log files] in Hframe.
    assert (stored (main_loop transport ts (log (EvSleep 1.2%float) w1)).2
              (out_name, seg_key, stats, month)) as Hhead.
    { exists rows. split; [now apply (FetchOne.normalize_ok_objects payload)|].
      change (job_name (out_name, seg_key, stats, month)) with out_name.
      rewrite Hframe, Hfiles; [apply lookup_insert_eq|].
      intros job Hjob Heq. now apply (Hother job). }
    assert (forall job, job ∈ ts ->
              files w1 !! job_path (job_name job)
                = files w !! job_path (job_name job)) as Hkeep.
    { intros job Hjob. rewrite Hfiles. apply lookup_insert_ne.
      intros Heq. symmetry in Heq. now apply (Hother job). }
    split.
    + intros p Hp. rewrite Hframe, Hfiles.
      * apply lookup_insert_ne. intros <-.
        apply (Hp (out_name, seg_key, stats, month)); [left | reflexivity].
      * intros job Hjob. apply Hp. now right.
    + destruct (main_loop transport ts (log (EvSleep 1.2%float) w1)).1.
      * now constructor.
      * destruct Hrest as (finished & failed & rest & -> & Hdone & Hfail & Hleft).
        exists ((out_name, seg_key, stats, month) :: finished), failed, rest.
        split; [reflexivity|]. split; [now constructor|]. split.
        -- destruct Hfail as [Hsame|Hcut]; [left | now right].
           unfold untouched in *. rewrite Hsame. cbn [log files].
           apply Hkeep. apply elem_of_app. right. left.
        -- apply Forall_forall. intros job Hjob.
           rewrite Forall_forall in Hleft. unfold untouched.
           rewrite (Hleft job Hjob). cbn [log files].
           apply Hkeep. apply elem_of_app. right. now right.
  - cbn [fst snd].
    assert (forall p, p <> job_path out_name ->
              files w1 !! p = files w !! p) as Hframe.
    { intros p Hp.
      destruct Hfiles as [->|(_ & n & payload & rows & _ & _ & _ & _ & ->)];
        [reflexivity | now apply lookup_insert_ne]. }
    split.
    + intros p Hp. apply Hframe.
      apply (Hp (out_name, seg_key, stats, month)). left.
    + exists [], (out_name, seg_key, stats, month), ts.
      split; [reflexivity|]. split; [constructor|]. split.
      * unfold untouched, emptied.
        change (job_name (out_name, seg_key, stats, month)) with out_name.
        destruct Hfiles as [->|(_ & n & payload & rows & _ & _ & _ & _ & ->)];
          [now left | right; apply lookup_insert_eq].
      * apply Forall_forall. intros job Hjob. unfold untouched.
        apply Hframe. now apply Hother.
Qed.

Lemma main_loop_requests (ts : list (string * string * string * Z)) :
  forall w : world,
    requests_made w <= requests_made (main_loop transport ts w).2
      <= requests_made w + 6 * length ts /\
    (raised (main_loop transport ts w).1 = false ->
     requests_made w + length ts
       <= requests_made (main_loop transport ts w).2).
Proof.
  induction ts as [|[[[out_name seg_key] stats] month] ts IH]; intros w.
  { cbn. split; [lia|]. intros _. lia. }
  rewrite main_loop_step.
  pose proof (FetchOne.fetch_one_requests transport out_name seg_key stats month w)
    as [Hok Hbound].
  destruct (fetch_one transport out_name seg_key stats month w)
    as [[[]|e] w1]; cbn [fst snd length raised] in *.
  - specialize (Hok eq_refl).
    destruct (IH (log (EvSleep 1.2%float) w1)) as [Hrest Hsuccess].
    rewrite CallApi.requests_made_log_sleep in Hrest, Hsuccess.
    split; [lia|]. intros Hr. apply Hsuccess in Hr. lia.
  - split; [lia|]. discriminate.
Qed.


End Run.

(** X8. The files after a run of [main] that starts with no file locked,
    against any server.  A file that belongs to no job is never touched.
    When the run completes, the file of every job holds an array of JSON
    objects.  When the run raises, the job table splits into the jobs that
    finished, whose files hold their arrays, the job that failed, whose
    file is what it was before the run or was emptied by the failed write,
    and the jobs after it, whose files are what they were before the
    run. *)
Theorem main_files (transport : nat -> outcome response) (w : world) :
  writable w ->
  let run := main transport w in
  (forall p, (forall job, job ∈ tasks -> p <> job_path (job_name job)) ->
     files run.2 !! p = files w !! p) /\
  match run.1 with
  | Ok _ => Forall (stored run.2) tasks
  | Raise _ =>
      exists finished failed rest,
        tasks = finished ++ failed :: rest /\
        Forall (stored run.2) finished /\
        (untouched w run.2 failed \/ emptied run.2 failed) /\
        Forall (untouched w run.2) rest
  end.
Proof.
  intros Hw run. apply main_loop_effect; [apply tasks_plain | | exact Hw].
  apply (bool_decide_unpack _). vm_compute. exact I.
Qed.

(** A run against a server whose rows carry a lone surrogate: the first
    job fails, its file is left empty, and no other file exists. *)
Lemma main_files_always_broken :
  files (main Samples.always_broken empty_world).2
    !! "data/fa/hit_am_bat_all.json" = Some Truncated /\
  files (main Samples.always_broken empty_world).2
    !! "data/fa/hit_am_bat_lhp.json" = None /\
  files (main Samples.always_broken empty_world).2 !! "notes.txt" = None.
Proof.
  destruct (main_files Samples.always_broken empty_world) as [Hframe Hjobs].
  { intros p e. cbn [files empty_world]. rewrite lookup_empty. discriminate. }
  assert ((main Samples.always_broken empty_world).1
          = Raise UnicodeEncodeError) as Hraise by (vm_compute; reflexivity).
  rewrite Hraise in Hjobs.
  destruct Hjobs as (finished & failed & rest & Htasks & _ & Hfailed & Hrest).
  split; [vm_compute; reflexivity|]. split; [vm_compute; reflexivity|].
  rewrite Hframe; [reflexivity|].
  intros job Hjob. apply list_elem_of_In in Hjob. simpl in Hjob.
  repeat (destruct Hjob as [<-|Hjob]; [discriminate|]). destruct Hjob.
Defined.

(** X9. A run of [main] issues at most 90 requests, six for each of its
    15 jobs, against any server; a run that completes has issued at
    least 15. *)
Theorem main_requests (transport : nat -> outcome response) (w : world) :
  let run := main transport w in
  requests_made w <= requests_made run.2 <= requests_made w + 90 /\
  (raised run.1 = false -> requests_made w + 15 <= requests_made run.2).
Proof.
  intros run.
  destruct (main_loop_requests transport tasks w) as [Hbound Hsuccess].
  change (length tasks) with 15 in *. fold (main transport) in *.
  subst run. split; [lia | exact Hsuccess].
Qed.

Lemma main_requests_always_good :
  15 <= requests_made (main Samples.always_good empty_world).2 <= 90.
Proof.
  destruct (main_requests Samples.always_good empty_world) as [Hbound Hsuccess].
  split; [|apply Hbound]. apply Hsuccess. vm_compute. reflexivity.
Defined.



End MainRun.

(** ** Properties of [save_json] and further properties of [normalize] *)

Module Persist.
Import Py Structured Spec.

(** X11. Two calls of [save_json] in a row, with plain output names and no
    file locked.  Nothing is requested, slept or printed.  When neither
    list of rows holds a surrogate, each call stores the array of its rows
    under its own name; the second replaces the first when the names
    agree, and leaves it alone when they differ; the file of any other
    plain name is what it was.  When only the second list holds a
    surrogate, the second call raises [UnicodeEncodeError] and leaves its
    file empty, the first file being written unless it is the same.  When
    the first list holds one, the first call raises, its file is left
    empty and the second call is not made. *)
Theorem save_json_twice
    (name1 name2 : string) (rows1 rows2 : list json) (w : world) :
  plain_name name1 = true ->
  plain_name name2 = true ->
  writable w ->
  let run :=
    (do _ <- save_json name1 rows1; save_json name2 rows2) w in
  trace run.2 = trace w /\
  (Forall utf8_text rows1 -> Forall utf8_text rows2 ->
   run.1 = Ok tt /\
   files run.2 = <[job_path name2 := Document (JList rows2)]>
                   (<[job_path name1 := Document (JList rows1)]> (files w))) /\
  (Forall utf8_text rows1 -> ~ Forall utf8_text rows2 ->
   run.1 = Raise UnicodeEncodeError /\
   files run.2 = <[job_path name2 := Truncated]>
                   (<[job_path name1 := Document (JList rows1)]> (files w))) /\
  (~ Forall utf8_text rows1 ->
   run.1 = Raise UnicodeEncodeError /\
   files run.2 = <[job_path name1 := Truncated]> (files w)) /\
  (job_path name1 = job_path name2 <-> name1 = name2).
Proof.
  intros Hname1 Hname2 Hw run. unfold run, bind.
  rewrite Normalize.save_json_plain by (try apply Hw; assumption).
  assert (job_path name1 = job_path name2 <-> name1 = name2) as Hpaths
    by (split; [apply Text.job_path_inj | now intros ->]).
  destruct (json_encodable (JList rows1)) eqn:Henc1.
  - apply Normalize.rows_text in Henc1.
    rewrite Normalize.save_json_plain; [|assumption|].
    2: { intros e. apply (MainRun.writable_insert w _ (job_path name1)
                            (Document (JList rows1)));
           [exact Hw | discriminate | reflexivity]. }
    destruct (json_encodable (JList rows2)) eqn:Henc2; cbn [fst snd trace files store].
    + apply Normalize.rows_text in Henc2.
      repeat split; try tauto; contradiction.
    + assert (~ Forall utf8_text rows2) as Hnot
        by (intros H%Normalize.rows_text; congruence).
      repeat split; try tauto; contradiction.
  - assert (~ Forall utf8_text rows1) as Hnot
      by (intros H%Normalize.rows_text; congruence).
    cbn [fst snd trace files store].
    repeat split; try tauto; contradiction.
Qed.

(** Saving two rows and then a broken row under the same name leaves the
    file empty; under another name the first file is kept. *)
Lemma save_json_twice_broken :
  files ((do _ <- save_json "a" [Samples.row "Ott" 3];
          save_json "a" [Samples.broken_row]) empty_world).2
    !! "data/fa/a.json" = Some Truncated /\
  files ((do _ <- save_json "a" [Samples.row "Ott" 3];
          save_json "b" [Samples.broken_row]) empty_world).2
    !! "data/fa/a.json" = Some (Document (JList [Samples.row "Ott" 3])).
Proof.
  assert (writable empty_world) as Hw
    by (intros p e; cbn [files empty_world]; rewrite lookup_empty; discriminate).
  assert (Forall utf8_text [Samples.row "Ott" 3]) as Hgood
    by (apply Normalize.rows_text; vm_compute; reflexivity).
  assert (~ Forall utf8_text [Samples.broken_row]) as Hbad
    by (intros H%Normalize.rows_text; vm_compute in H; discriminate).
  split.
  - destruct (save_json_twice "a" "a" [Samples.row "Ott" 3]
                [Samples.broken_row] empty_world eq_refl eq_refl Hw)
      as (_ & _ & Hcut & _).
    destruct (Hcut Hgood Hbad) as [_ ->]. apply lookup_insert_eq.
  - destruct (save_json_twice "a" "b" [Samples.row "Ott" 3]
                [Samples.broken_row] empty_world eq_refl eq_refl Hw)
      as (_ & _ & Hcut & _).
    destruct (Hcut Hgood Hbad) as [_ ->].
    rewrite lookup_insert_ne by discriminate. apply lookup_insert_eq.
Defined.

(** X12. [normalize] reads the four candidate keys and nothing else: two
    payload mappings that agree on "data", "rows", "result" and "results"
    are normalized alike, whatever else they hold. *)
Theorem normalize_other_keys (m m' : gmap string json) :
  (forall key, key ∈ CANDIDATE_KEYS -> m !! key = m' !! key) ->
  normalize (JDict m) = normalize (JDict m').
Proof.
  intros Hagree. rewrite !Normalize.normalize_refines. do 3 f_equal.
  unfold CANDIDATE_KEYS in *. cbn [first_sequence].
  rewrite <- !Hagree by set_solver. reflexivity.
Qed.

Lemma normalize_other_keys_noisy :
  normalize (JDict Samples.noisy_payload)
    = normalize (JDict Samples.mixed_payload).
Proof.
  apply normalize_other_keys. intros key Hkey. unfold CANDIDATE_KEYS in Hkey.
  repeat (apply elem_of_cons in Hkey as [->|Hkey]; [vm_compute; reflexivity|]).
  inversion Hkey.
Defined.

Lemma keep_dicts_all (rows : list json) :
  Forall (fun r => isinstance_dict r = true) rows -> keep_dicts rows = rows.
Proof.
  induction 1 as [|r rows Hr _ IH]; [reflexivity|].
  rewrite filter_cons_True by exact Hr. now rewrite IH.
Qed.

(** X13. The rows that [normalize] returns are a fixed point: stored as
    the "data" of a payload and normalized again, they come back
    unchanged, in number and in order. *)
Theorem normalize_again (payload : json) (rows : list json) :
  normalize payload = Ok rows ->
  normalize (JDict {["data" := JList rows]}) = Ok rows.
Proof.
  intros Hrows.
  assert (Forall (fun r => isinstance_dict r = true) rows) as Hdicts.
  { destruct payload as [| | | | | |m]; try discriminate.
    rewrite Normalize.normalize_refines in Hrows. injection Hrows as <-.
    apply Forall_forall. intros r Hr.
    now apply list_elem_of_filter in Hr as [Hdict _]. }
  rewrite Normalize.normalize_refines. unfold CANDIDATE_KEYS.
  cbn [first_sequence]. rewrite lookup_singleton_eq. cbn [default].
  now rewrite keep_dicts_all.
Qed.

Lemma normalize_again_mixed :
  normalize (JDict {["data" :=
                       JList [Samples.row "Ott" 3; Samples.row "Pena" 7]]})
    = Ok [Samples.row "Ott" 3; Samples.row "Pena" 7].
Proof.
  apply (normalize_again (JDict Samples.mixed_payload)).
  vm_compute. reflexivity.
Defined.

End Persist.

(** ** The descriptors determine the job *)

Module Ids.
Import Stdlib.Strings.Ascii.
Import Py Spec Text.

Lemma number_char_free (c : Ascii.ascii) (s : string) :
  is_number_char c = false ->
  string_forallb is_number_char s = true -> char_free c s = true.
Proof.
  intros Hc. apply string_forallb_impl. intros a Ha.
  destruct (Ascii.eqb a c) eqn:Heq; [|reflexivity].
  apply Ascii.eqb_eq in Heq. congruence.
Qed.

(** Two strings cut at the first occurrence of a character. *)
Lemma split_at_char (c : Ascii.ascii) (a a' r r' : string) :
  char_free c a = true -> char_free c a' = true ->
  a +:+ String c r = a' +:+ String c r' -> a = a' /\ r = r'.
Proof.
  revert a'. induction a as [|x a IH]; intros [|y a'] Ha Ha' Heq.
  - now injection Heq as ->.
  - change (String c r = String y (a' +:+ String c r')) in Heq.
    injection Heq as <- _. cbn in Ha'.
    rewrite Ascii.eqb_refl in Ha'. discriminate.
  - change (String x (a +:+ String c r) = String c r') in Heq.
    injection Heq as -> _. cbn in Ha.
    rewrite Ascii.eqb_refl in Ha. discriminate.
  - change (String x (a +:+ String c r) = String y (a' +:+ String c r')) in Heq.
    injection Heq as -> Heq.
    cbn in Ha, Ha'. apply andb_true_iff in Ha as [_ Ha].
    apply andb_true_iff in Ha' as [_ Ha'].
    destruct (IH a' Ha Ha' Heq) as [-> ->]. auto.
Qed.

Lemma join_number (ids : list Z) (c : Ascii.ascii) :
  is_number_char c = false -> c <> ","%char ->
  char_free c (join "," (map str ids)) = true.
Proof.
  intros Hc Hcomma. induction ids as [|z ids IH]; [reflexivity|].
  destruct ids as [|z' ids].
  - apply number_char_free; [exact Hc | apply str_number].
  - change (join "," (map str (z :: z' :: ids)))
      with (str z +:+ "," +:+ join "," (map str (z' :: ids))).
    pose proof (number_char_free c (str z) Hc (proj1 (str_number z))) as Hz.
    unfold char_free in *. rewrite !string_forallb_app, IH, Hz.
    destruct (Ascii.eqb "," c) eqn:Heq;
      [apply Ascii.eqb_eq in Heq; congruence|].
    cbn [string_forallb]. rewrite Heq. reflexivity.
Qed.

(** The comma-joined id list determines the ids. *)
Lemma join_str_inj (ids ids' : list Z) :
  join "," (map str ids) = join "," (map str ids') -> ids = ids'.
Proof.
  assert (forall z, char_free "," (str z) = true) as Hfree
    by (intros z; apply number_char_free; [reflexivity | apply str_number]).
  assert (forall z zs, join "," (map str (z :: zs)) <> "") as Hnonempty.
  { intros z [|z' zs]; [apply str_number|].
    change (join "," (map str (z :: z' :: zs)))
      with (str z +:+ "," +:+ join "," (map str (z' :: zs))).
    destruct (str z) eqn:Hz; [|discriminate].
    now destruct (str_number z) as [_ []]. }
  revert ids'. induction ids as [|z ids IH]; intros [|z' ids'] Heq.
  - reflexivity.
  - symmetry in Heq. now apply Hnonempty in Heq.
  - now apply Hnonempty in Heq.
  - destruct ids as [|y ids], ids' as [|y' ids'].
    + cbn in Heq. now apply (inj pretty) in Heq as ->.
    + exfalso.
      change (str z = str z' +:+ String "," (join "," (map str (y' :: ids'))))
        in Heq.
      pose proof (Hfree z) as Hz. rewrite Heq in Hz.
      unfold char_free in Hz. rewrite string_forallb_app in Hz.
      apply andb_true_iff in Hz as [_ Hz]. discriminate.
    + exfalso.
      change (str z +:+ String "," (join "," (map str (y :: ids))) = str z')
        in Heq.
      pose proof (Hfree z') as Hz. rewrite <- Heq in Hz.
      unfold char_free in Hz. rewrite string_forallb_app in Hz.
      apply andb_true_iff in Hz as [_ Hz]. discriminate.
    + change (str z +:+ String "," (join "," (map str (y :: ids)))
              = str z' +:+ String "," (join "," (map str (y' :: ids'))))
        in Heq.
      apply split_at_char in Heq as [Hz Hrest]; [|apply Hfree..].
      apply (inj pretty) in Hz as ->. f_equal. now apply IH.
Qed.

(** X14. The parameter set of the JSON endpoint determines the job: two
    calls of [leaders_params] give the same parameters only for the same
    player list (same ids, same order), the same stat category and the
    same month code. *)
Theorem leaders_params_inj
    (players players' : list Z) (stats stats' : string) (month month' : Z) :
  Structured.leaders_params players stats month
    = Structured.leaders_params players' stats' month'
  <-> players = players' /\ stats = stats' /\ month = month'.
Proof.
  split; [|now intros (-> & -> & ->)].
  rewrite !Descriptor.leaders_params_fields. intros Heq.
  pose proof (f_equal (fun m : gmap string string => m !! "stats") Heq) as Hs.
  pose proof (f_equal (fun m : gmap string string => m !! "month") Heq) as Hm.
  pose proof (f_equal (fun m : gmap string string => m !! "players") Heq) as Hp.
  cbn beta in Hs, Hm, Hp.
  rewrite !lookup_insert_eq in Hs.
  rewrite !(lookup_insert_ne _ "stats" "month"), !lookup_insert_eq in Hm by done.
  rewrite !(lookup_insert_ne _ "stats" "players"),
    !(lookup_insert_ne _ "month" "players"), !lookup_insert_eq in Hp by done.
  injection Hs as ->. injection Hm as Hm. injection Hp as Hp.
  apply (inj pretty) in Hm as ->. apply join_str_inj in Hp as ->. auto.
Qed.

(** X15. The leaderboard URL determines the job as well, for stat
    categories without an ampersand: two calls of [leaders_url] give the
    same URL only for the same player list, stat category and month
    code. *)
Theorem leaders_url_inj
    (players players' : list Z) (stats stats' : string) (month month' : Z) :
  char_free "&" stats = true ->
  char_free "&" stats' = true ->
  Html.leaders_url players stats month = Html.leaders_url players' stats' month' ->
  players = players' /\ stats = stats' /\ month = month'.
Proof.
  intros Hs Hs'. rewrite !Descriptor.leaders_url_fields. intros Heq.
  apply (inj (String.append URL_HEAD)) in Heq.
  apply (inj (String.append "&stats=")) in Heq.
  apply (split_at_char "&" stats stats'
           ("month=" +:+ str month +:+ "&players="
            +:+ join "," (map str players) +:+ "&pageitems=2000000000")
           ("month=" +:+ str month' +:+ "&players="
            +:+ join "," (map str players') +:+ "&pageitems=2000000000")
           Hs Hs') in Heq as [-> Heq].
  apply (inj (String.append "month=")) in Heq.
  apply (split_at_char "&" (str month) (str month')
           ("players=" +:+ join "," (map str players)
            +:+ "&pageitems=2000000000")
           ("players=" +:+ join "," (map str players')
            +:+ "&pageitems=2000000000")) in Heq as [Hm Heq];
    [|apply number_char_free; [reflexivity | apply str_number]..].
  apply (inj (String.append "players=")) in Heq.
  apply (split_at_char "&" (join "," (map str players))
           (join "," (map str players'))
           "pageitems=2000000000" "pageitems=2000000000") in Heq as [Hp _];
    [|apply join_number; [reflexivity | discriminate]..].
  apply (inj pretty) in Hm as ->. apply join_str_inj in Hp as ->. auto.
Qed.

(** The URLs of the jobs "sp_pit_lhb" and "sp_pit_rhb" differ. *)
Lemma leaders_url_inj_sp :
  bool_decide (Html.leaders_url Html.SEGMENT_sp "pit" 13
               = Html.leaders_url Html.SEGMENT_sp "pit" 14) = false.
Proof.
  apply bool_decide_eq_false. intros Heq.
  apply leaders_url_inj in Heq as (_ & _ & Hmonth);
    [discriminate | reflexivity | reflexivity].
Defined.

End Ids.

(** ** Properties of the run of the HTML-scraping script *)

Module HtmlRun.
Import Py Html Spec.

Lemma records_objects (records : list (gmap string cell)) :
  Forall is_object (map (fun rec => JDict (cell_json <$> rec)) records).
Proof.
  apply Forall_forall. intros doc Hdoc.
  change map with (@fmap list _) in Hdoc.
  apply list_elem_of_fmap in Hdoc as (rec & -> & _). now eexists.
Qed.

(** X16. [scrape_table] once the page has arrived with a status that
    [raise_for_status] lets through.  No file is touched.  If the parser
    raises, the exception reaches the caller; if it returns tables, the
    result is the records of the first one and the others are ignored; if
    it returns none, the result is the empty list. *)
Theorem scrape_table_parsed
    (transport : nat -> outcome response)
    (read_html : string -> outcome (list (DataFrame label)))
    (url : string) (w : world) (r : response) :
  transport (requests_made w) = Ok r ->
  raise_for_status r = Ok tt ->
  let run := scrape_table transport read_html url w in
  files run.2 = files w /\
  match read_html (text r) with
  | Raise e => run.1 = Raise e
  | Ok [] => run.1 = Ok []
  | Ok (df :: _) => run.1 = Ok (table_records df)
  end.
Proof.
  intros Hr Hstatus run. unfold run.
  rewrite Scrape.scrape_table_run, Hr, Hstatus. cbn [fst snd].
  split; [reflexivity|].
  destruct (read_html (text r)) as [[|df tables]|e]; reflexivity.
Qed.

(** A page with two tables: the records are those of the first. *)
Lemma scrape_table_parsed_two_tables :
  (scrape_table Samples.always_leaderboard Samples.two_tables
     Samples.sample_url empty_world).1
    = Ok Samples.leaderboard_records.
Proof.
  destruct (scrape_table_parsed Samples.always_leaderboard Samples.two_tables
              Samples.sample_url empty_world
              {| status_code := 200;
                 text := "<table>leaderboard</table>";
                 json_body := Raise JSONDecodeError |})
    as [_ Hfirst]; [reflexivity | reflexivity |].
  change (Samples.two_tables "<table>leaderboard</table>")
    with (Ok [Samples.leaderboard;
              {| index := 0; columns := @nil (label * list cell) |}])
    in Hfirst.
  cbn iota in Hfirst. rewrite Hfirst. vm_compute. reflexivity.
Defined.

(** The text of the document of a list of records. *)
Lemma cell_json_written (c : cell) : written_as c (cell_json c).
Proof. destruct c; constructor. Qed.

Lemma cell_json_text (c : cell) :
  utf8_text (cell_json c) <-> (forall s, c = CStr s -> has_surrogate s = false).
Proof.
  destruct c as [|s|z|f]; cbn [cell_json];
    (split; [intros Htext s' [= <-] || (intros _ s' [=]) | intros Hs; constructor]).
  - now inversion Htext.
  - now apply Hs.
Qed.

Lemma record_json_text (rec : gmap string cell) :
  utf8_text (JDict (cell_json <$> rec)) <-> record_text rec.
Proof.
  unfold record_text. split.
  - inversion 1 as [| | | | | |m Hm]; subst. intros key c Hc.
    destruct (Hm key (cell_json c)) as [Hkey Hv];
      [now rewrite lookup_fmap, Hc|].
    split; [exact Hkey | now apply cell_json_text].
  - intros Hrec. constructor. intros key v Hv.
    rewrite lookup_fmap in Hv.
    destruct (rec !! key) as [c|] eqn:Hc; [|discriminate].
    injection Hv as <-. destruct (Hrec key c Hc) as [Hkey Hs].
    split; [exact Hkey | now apply cell_json_text].
Qed.

Lemma records_json_text (records : list (gmap string cell)) :
  json_encodable (JList (map (fun rec => JDict (cell_json <$> rec)) records))
    = true
  <-> Forall record_text records.
Proof.
  rewrite Normalize.rows_text. change map with (@fmap list _).
  rewrite Forall_fmap. apply Forall_iff. intros rec. apply record_json_text.
Qed.

Lemma html_save_json_plain
    (name : string) (records : list (gmap string cell)) (w : world) :
  plain_name name = true ->
  (forall e, files w !! job_path name <> Some (Locked e)) ->
  save_json name records w =
    if json_encodable
         (JList (map (fun rec => JDict (cell_json <$> rec)) records))
    then (Ok tt,
          store (job_path name)
            (Document
               (JList (map (fun rec => JDict (cell_json <$> rec)) records))) w)
    else (Raise UnicodeEncodeError, store (job_path name) Truncated w).
Proof.
  intros Hname Hfree. unfold save_json, OUT_DIR.
  rewrite Text.path_join_plain by exact Hname.
  now apply Text.write_json_plain.
Qed.

(** X17. The HTML script's [save_json] for a plain output name whose file
    is not locked.  Nothing is requested, slept or printed, and the file
    of no other path changes.  When no header and no string cell of the
    records holds a surrogate, the call returns and the file holds an
    array with one JSON object per record, in order, each with exactly
    the fields of its record: a string cell written as a string, an
    integer as an integer, a float as a float and a missing cell as the
    float NaN.  Otherwise the call raises [UnicodeEncodeError] and the
    file is left empty. *)
Theorem save_json_document
    (name : string) (records : list (gmap string cell)) (w : world) :
  plain_name name = true ->
  (forall e, files w !! job_path name <> Some (Locked e)) ->
  let run := save_json name records w in
  trace run.2 = trace w /\
  (forall p, p <> job_path name -> files run.2 !! p = files w !! p) /\
  (Forall record_text records ->
   run.1 = Ok tt /\
   exists docs,
     files run.2 !! job_path name = Some (Document (JList docs)) /\
     Forall2 (fun rec doc =>
                exists fields,
                  doc = JDict fields /\
                  dom fields = dom rec /\
                  forall key c,
                    rec !! key = Some c ->
                    exists v, fields !! key = Some v /\ written_as c v)
       records docs) /\
  (~ Forall record_text records ->
   run.1 = Raise UnicodeEncodeError /\
   files run.2 !! job_path name = Some Truncated).
Proof.
  intros Hname Hfree run. unfold run.
  rewrite html_save_json_plain by assumption.
  destruct (json_encodable _) eqn:Henc; cbn [fst snd trace files store].
  - apply records_json_text in Henc.
    split; [reflexivity|]. split; [intros p Hp; now apply lookup_insert_ne|].
    split; [|contradiction].
    intros _. split; [reflexivity|].
    eexists. split; [apply lookup_insert_eq|]. clear.
    induction records as [|rec records IH]; constructor; [|exact IH].
    exists (cell_json <$> rec). split; [reflexivity|].
    split; [apply dom_fmap_L|]. intros key c Hc.
    exists (cell_json c). rewrite lookup_fmap, Hc.
    split; [reflexivity | apply cell_json_written].
  - split; [reflexivity|]. split; [intros p Hp; now apply lookup_insert_ne|].
    split.
    + intros Htext%records_json_text. congruence.
    + intros _. split; [reflexivity | apply lookup_insert_eq].
Qed.

(** The records of the leaderboard saved under "sp_pit_all". *)
Lemma save_json_document_leaderboard :
  (save_json "sp_pit_all" Samples.leaderboard_records empty_world).1 = Ok tt /\
  exists docs,
    files (save_json "sp_pit_all" Samples.leaderboard_records empty_world).2
      !! "data/fa/sp_pit_all.json" = Some (Document (JList docs)) /\
    length docs = 3.
Proof.
  destruct (save_json_document "sp_pit_all" Samples.leaderboard_records
              empty_world) as (_ & _ & Hgood & _).
  - reflexivity.
  - intros e. vm_compute. discriminate.
  - destruct Hgood as (Hok & docs & Hfile & Hdocs).
    + apply records_json_text. vm_compute. reflexivity.
    + split; [exact Hok|]. exists docs. split; [exact Hfile|].
      apply Forall2_length in Hdocs. now rewrite <- Hdocs.
Defined.

Lemma html_tasks_plain :
  Forall (fun job => plain_name (job_name job) = true) tasks.
Proof.
  apply Forall_forall. intros job Hjob. apply list_elem_of_In in Hjob.
  assert (forallb (fun job => plain_name (job_name job)) tasks = true) as Hall
    by (vm_compute; reflexivity).
  rewrite forallb_forall in Hall. now apply Hall.
Qed.

Section Run.

Variable transport : nat -> outcome response.
Variable read_html : string -> outcome (list (DataFrame label)).

Lemma html_main_loop_step (out_name seg_key stats : string) (month : Z)
    (ts : list (string * string * string * Z)) (w : world) :
  main_loop transport read_html ((out_name, seg_key, stats, month) :: ts) w =
    match SEGMENTS !! seg_key with
    | None => (Raise (KeyError seg_key), w)
    | Some players =>
        match print ("Fetching " +:+ out_name +:+ "…") w with
        | (Raise e, w0) => (Raise e, w0)
        | (Ok _, w0) =>
            match scrape_table transport read_html
                    (leaders_url players stats month) w0 with
            | (Raise e, w1) => (Raise e, w1)
            | (Ok recs, w1) =>
                match save_json out_name recs w1 with
                | (Raise e, w2) => (Raise e, w2)
                | (Ok _, w2) =>
                    main_loop transport read_html ts (log (EvSleep 1.0%float) w2)
                end
            end
        end
    end.
Proof.
  cbn [main_loop]. unfold bind at 1, lift, build_url, subscript.
  destruct (SEGMENTS !! seg_key) as [players|]; [|reflexivity].
  unfold bind at 1.
  destruct (print ("Fetching " +:+ out_name +:+ "…") w) as [[[]|e] w0];
    [|reflexivity].
  unfold bind at 1.
  destruct (scrape_table transport read_html (leaders_url players stats month) w0)
    as [[recs|e] w1]; [|reflexivity].
  unfold bind at 1.
  destruct (save_json out_name recs w1) as [[[]|e] w2]; [|reflexivity].
  unfold bind at 1, time_sleep. reflexivity.
Qed.

(** The world after [scrape_table]: one more request, the same files. *)
Lemma scrape_table_world (url : string) (w : world) :
  (scrape_table transport read_html url w).2 = log (EvGet (page_request url)) w.
Proof. now rewrite Scrape.scrape_table_run. Qed.

(** The line that announces a job with a plain name is printed. *)
Lemma print_fetching (out_name : string) (w : world) :
  plain_name out_name = true ->
  print ("Fetching " +:+ out_name +:+ "…") w
    = (Ok tt, log (EvPrint ("Fetching " +:+ out_name +:+ "…")) w).
Proof.
  intros Hname. unfold print. rewrite Text.fetching_line.
  unfold plain_name in Hname. apply andb_true_iff in Hname as [_ Hsur].
  apply negb_true_iff in Hsur. now rewrite Hsur.
Qed.

(** The files after the loop, as for the other script. *)
Lemma html_main_loop_effect (ts : list (string * string * string * Z)) :
  forall w : world,
    Forall (fun job => plain_name (job_name job) = true) ts ->
    NoDup (map job_name ts) ->
    writable w ->
    (forall p, (forall job, job ∈ ts -> p <> job_path (job_name job)) ->
       files (main_loop transport read_html ts w).2 !! p = files w !! p) /\
    match (main_loop transport read_html ts w).1 with
    | Ok _ => Forall (stored (main_loop transport read_html ts w).2) ts
    | Raise _ =>
        exists finished failed rest,
          ts = finished ++ failed :: rest /\
          Forall (stored (main_loop transport read_html ts w).2) finished /\
          (untouched w (main_loop transport read_html ts w).2 failed \/
           emptied (main_loop transport read_html ts w).2 failed) /\
          Forall (untouched w (main_loop transport read_html ts w).2) rest
    end.
Proof.
  induction ts as [|[[[out_name seg_key] stats] month] ts IH];
    intros w Hplain Hnd Hw.
  { split; [reflexivity | constructor]. }
  apply Forall_cons in Hplain as [Hname Hplain].
  change (job_name (out_name, seg_key, stats, month)) with out_name in Hname.
  cbn [map] in Hnd. apply NoDup_cons in Hnd as [Hfresh Hnd].
  change (job_name (out_name, seg_key, stats, month)) with out_name in Hfresh.
  assert (forall job, job ∈ ts ->
            job_path (job_name job) <> job_path out_name) as Hother.
  { intros job Hjob Heq. apply Text.job_path_inj in Heq.
    apply Hfresh. rewrite <- Heq.
    change map with (@fmap list _). now apply list_elem_of_fmap_2. }
  assert (forall w' : world,
            files w' = files w \/
            files w' = <[job_path out_name := Truncated]> (files w) ->
            (forall p, (forall job, job ∈ (out_name, seg_key, stats, month) :: ts ->
                          p <> job_path (job_name job)) ->
               files w' !! p = files w !! p) /\
            exists finished failed rest,
              (out_name, seg_key, stats, month) :: ts
                = finished ++ failed :: rest /\
              Forall (stored w') finished /\
              (untouched w w' failed \/ emptied w' failed) /\
              Forall (untouched w w') rest) as Hfailed.
  { intros w' Hfiles.
    assert (forall p, p <> job_path out_name ->
              files w' !! p = files w !! p) as Hframe.
    { intros p Hp. destruct Hfiles as [->| ->];
        [reflexivity | now apply lookup_insert_ne]. }
    split.
    - intros p Hp. apply Hframe.
      apply (Hp (out_name, seg_key, stats, month)). left.
    - exists [], (out_name, seg_key, stats, month), ts.
      split; [reflexivity|]. split; [constructor|]. split.
      + unfold untouched, emptied.
        change (job_name (out_name, seg_key, stats, month)) with out_name.
        destruct Hfiles as [->| ->]; [now left | right; apply lookup_insert_eq].
      + apply Forall_forall. intros job Hjob. unfold untouched.
        apply Hframe. now apply Hother. }
  rewrite html_main_loop_step.
  destruct (SEGMENTS !! seg_key) as [players|]; [|apply Hfailed; now left].
  rewrite print_fetching by exact Hname.
  pose proof (scrape_table_world
                (leaders_url players stats month)
                (log (EvPrint ("Fetching " +:+ out_name +:+ "…")) w)) as Hworld.
  destruct (scrape_table transport read_html (leaders_url players stats month)
              (log (EvPrint ("Fetching " +:+ out_name +:+ "…")) w))
    as [[recs|e] w1]; cbn [snd] in Hworld; subst w1;
    [|apply Hfailed; now left].
  rewrite html_save_json_plain by (try apply Hw; exact Hname).
  destruct (json_encodable _); [|apply Hfailed; now right].
  match goal with
  | |- context [main_loop transport read_html ts ?w2] =>
      destruct (IH w2 Hplain Hnd) as [Hframe Hrest]; set (w2' := w2) in *
  end.
  { apply (MainRun.writable_insert w _ (job_path out_name)
             (Document (JList (map (fun rec => JDict (cell_json <$> rec)) recs))));
      [exact Hw | discriminate | reflexivity]. }
  cbn [log files trace store] in Hframe.
  assert (stored (main_loop transport read_html ts w2').2
            (out_name, seg_key, stats, month)) as Hhead.
  { eexists. split; [apply (records_objects recs)|].
    change (job_name (out_name, seg_key, stats, month)) with out_name.
    rewrite Hframe; [apply lookup_insert_eq|].
    intros job Hjob Heq. now apply (Hother job). }
  assert (forall job, job ∈ ts ->
            files w2' !! job_path (job_name job)
              = files w !! job_path (job_name job)) as Hkeep.
  { intros job Hjob. unfold w2'. cbn [log files trace store].
    apply lookup_insert_ne. intros Heq. symmetry in Heq.
    now apply (Hother job). }
  split.
  - intros p Hp. rewrite Hframe.
    + apply lookup_insert_ne. intros <-.
      apply (Hp (out_name, seg_key, stats, month)); [left | reflexivity].
    + intros job Hjob. apply Hp. now right.
  - destruct (main_loop transport read_html ts w2').1.
    + now constructor.
    + destruct Hrest as (finished & failed & rest & -> & Hdone & Hfail & Hleft).
      exists ((out_name, seg_key, stats, month) :: finished), failed, rest.
      split; [reflexivity|]. split; [now constructor|]. split.
      * destruct Hfail as [Hsame|Hcut]; [left | now right].
        unfold untouched in *. rewrite Hsame.
        apply Hkeep. apply elem_of_app. right. left.
      * apply Forall_forall. intros job Hjob.
        rewrite Forall_forall in Hleft. unfold untouched.
        rewrite (Hleft job Hjob).
        apply Hkeep. apply elem_of_app. right. now right.
Qed.


End Run.

(** X18. The files after a run of the HTML script's [main] that starts
    with no file locked, against any server and any parser.  A file that
    belongs to no job is never touched.  When the run completes, the file
    of every job holds an array of JSON objects.  When the run raises, the
    jobs before the failing one have their arrays stored, the file of the
    failing job is what it was before the run or was emptied by the failed
    write, and the files of the jobs after it are what they were before
    the run. *)
Theorem html_main_files
    (transport : nat -> outcome response)
    (read_html : string -> outcome (list (DataFrame label))) (w : world) :
  writable w ->
  let run := main transport read_html w in
  (forall p, (forall job, job ∈ tasks -> p <> job_path (job_name job)) ->
     files run.2 !! p = files w !! p) /\
  match run.1 with
  | Ok _ => Forall (stored run.2) tasks
  | Raise _ =>
      exists finished failed rest,
        tasks = finished ++ failed :: rest /\
        Forall (stored run.2) finished /\
        (untouched w run.2 failed \/ emptied run.2 failed) /\
        Forall (untouched w run.2) rest
  end.
Proof.
  intros Hw run.
  apply html_main_loop_effect; [apply html_tasks_plain | | exact Hw].
  apply (bool_decide_unpack _). vm_compute. exact I.
Qed.

(** A run against a server that always sends the leaderboard page: every
    job's file holds an array of objects. *)
Lemma html_main_files_always_leaderboard :
  Forall (stored (main Samples.always_leaderboard
                    (pandas_read_html Samples.tables_of) empty_world).2) tasks.
Proof.
  destruct (html_main_files Samples.always_leaderboard
              (pandas_read_html Samples.tables_of) empty_world) as [_ Hjobs].
  { intros p e. cbn [files empty_world]. rewrite lookup_empty. discriminate. }
  assert ((main Samples.always_leaderboard
             (pandas_read_html Samples.tables_of) empty_world).1 = Ok tt)
    as Hok by (vm_compute; reflexivity).
  rewrite Hok in Hjobs. exact Hjobs.
Defined.


End HtmlRun.

(** ** The field names of the scraped records are trimmed *)

Module Headers.
Import Py Html Spec.

(** X20. Every field name of every record of a parsed table is trimmed:
    it neither begins nor ends with a whitespace character, whether ASCII
    or not. *)
Theorem table_records_trimmed
    (df : DataFrame label) (i : nat) (rec : gmap string cell) (key : string) :
  table_records df !! i = Some rec ->
  is_Some (rec !! key) ->
  ~ begins_blank key /\ ~ ends_blank key.
Proof.
  intros [_ ->]%Scrape.table_records_lookup [v Hv].
  apply Scrape.record_field in Hv as (col & _ & _ & Hh & _).
  destruct Hh as (pre & post & _ & _ & _ & Hbegin & Hend). auto.
Qed.

(** The field "WAR" of the roster, whose header is wrapped in an em space
    and a no-break space. *)
Lemma table_records_trimmed_roster :
  (exists rec,
     table_records Samples.roster !! 0 = Some rec /\ is_Some (rec !! "WAR")) /\
  ~ begins_blank "WAR" /\ ~ ends_blank "WAR".
Proof.
  destruct (table_records Samples.roster !! 0) as [rec|] eqn:Hrec;
    [|vm_compute in Hrec; discriminate].
  assert (is_Some (rec !! "WAR")) as Hkey.
  { vm_compute in Hrec. injection Hrec as <-. vm_compute. eauto. }
  split; [now exists rec|].
  exact (table_records_trimmed Samples.roster 0 rec "WAR" Hrec Hkey).
Defined.

End Headers.

(** ** A job whose every attempt fails *)

Module Exhausted.
Import Py Structured Spec.

(** X21. [fetch_one] for a registered segment against a server whose next
    six answers all meet the retry condition: the job raises the error of
    the sixth attempt, after six requests and the five delays of the
    backoff, and writes no file. *)
Theorem fetch_one_exhausted
    (transport : nat -> outcome response)
    (out_name seg_key stats : string) (month : Z) (w : world)
    (players : list Z) :
  SEGMENTS !! seg_key = Some players ->
  (forall j, j < 6 -> retry_condition (transport (requests_made w + j)) = true) ->
  let run := fetch_one transport out_name seg_key stats month w in
  (exists e,
     attempt_result (transport (requests_made w + 5)) = Raise e /\
     run.1 = Raise e) /\
  requests_made run.2 = requests_made w + 6 /\
  sleeps (events_since w run.2) = map delay_at [0; 1; 2; 3; 4] /\
  files run.2 = files w.
Proof.
  intros Hkey Hall run. unfold run.
  rewrite FetchOne.fetch_one_run, Hkey.
  destruct (CallApi.call_api_run transport
              (leaders_params players stats month) 6 w)
    as (m & Hm & Htr & Hfi & _ & Hval & Hraise); [lia|].
  change (Z.of_nat 6) with 6%Z in *.
  assert (m = 6) as ->.
  { apply Hraise. rewrite Hval, CallApi.retry_condition_raised.
    apply Hall. lia. }
  change (6 - 1) with 5 in Hval.
  pose proof (CallApi.requests_made_run _ _ _ _ _ Htr) as Hn.
  pose proof (CallApi.app_new_events _ _ _ Htr) as Hev.
  fold (events_since w
          (call_api transport (leaders_params players stats month) 6 w).2)
    in Hev.
  assert (raised (attempt_result (transport (requests_made w + 5))) = true)
    as Hsixth by (rewrite CallApi.retry_condition_raised; apply Hall; lia).
  destruct (call_api transport (leaders_params players stats month) 6 w)
    as [res w1]; cbn [fst snd] in *. subst res.
  destruct (attempt_result (transport (requests_made w + 5))) as [v|e];
    [discriminate|]. cbn [fst snd].
  split; [now exists e|]. split; [exact Hn|]. split; [|exact Hfi].
  rewrite Hev, CallApi.schedule_sleeps.
  apply map_ext, CallApi.iter_delay_at.
Qed.

(** The job "sp_pit_all" against a server that is always busy. *)
Lemma fetch_one_exhausted_always_busy :
  (fetch_one Samples.always_busy "sp_pit_all" "sp" "pit" 0 empty_world).1
    = Raise (RuntimeError "HTTP 503: busy") /\
  requests_made
    (fetch_one Samples.always_busy "sp_pit_all" "sp" "pit" 0 empty_world).2 = 6 /\
  files (fetch_one Samples.always_busy "sp_pit_all" "sp" "pit" 0 empty_world).2
    = ∅.
Proof.
  destruct (fetch_one_exhausted Samples.always_busy "sp_pit_all" "sp" "pit" 0
              empty_world SEGMENT_sp)
    as ((e & He & Hr) & Hn & _ & Hfi).
  - vm_compute. reflexivity.
  - intros j _. reflexivity.
  - split; [|split; [exact Hn | exact Hfi]].
    rewrite Hr. vm_compute in He. congruence.
Defined.

End Exhausted.
